(** * Scrapii security scoring and detection engine

    A shallow embedding of the scoring and detection code of the
    application: the [RealisticSecurityCalculator] class and the
    [SecurityIntegrationUtils.filterFalsePositives] utility of
    [utils/security_integrator.ts], and the credential scanner, the legacy
    grade function and [calculatePrivacyScore] of the main component.

    Numbers.  JavaScript numbers are IEEE-754 doubles.  Quantities that the
    code only ever builds from integer constants and array lengths (counts,
    baselines, bonuses, rounded scores) are integers of [Z]; on them
    [Math.round] is the identity and is written [round_int].  The header
    quality scores are fractional: they are computed on binary64 floats
    ([PrimFloat]) exactly as the code computes them, and enter [Z] through
    [Math_round].  The total of the scorer is an integer or NaN ([number]):
    it is NaN when the baseline read from the table is not a number.

    Strings.  A string is a sequence of 8-bit characters; the embedding is
    exact on ASCII text ([toLowerCase], character classes and the length
    bounds of the patterns treat every character above 127 as an opaque
    non-letter).

    Objects used as tables are association lists searched by key.  The
    tables indexed by a string of the caller ([SITE_BASELINES], the mapping
    of [mapSiteTypeToContext]) are read as JavaScript reads a property of
    an object literal: an own key first, then the members inherited from
    [Object.prototype].  [HEADER_WEIGHTS], the modifier tables and the
    header map are only ever indexed by the seven header names.

    Scraped data.  The scorer takes the scraped data as [any]; the objects
    [ecommerce] and [securityAnalysis] may be [undefined] at run time, and
    reading a field of an undefined object raises a TypeError. *)

From Stdlib Require Import ZArith String Ascii List Bool Lia.
From Stdlib Require Import PrimFloat FloatOps SpecFloat.
From Stdlib Require DecimalString.
Import ListNotations.

Set Warnings "-inexact-float".

Open Scope string_scope.
Open Scope Z_scope.

(* ================================================================== *)
(** ** JavaScript primitives *)
(* ================================================================== *)

Module JS.

(** A value that is either a string or [undefined]. *)
Definition optstring := option string.

(** Truthiness of [string | undefined]: the empty string and [undefined]
    are falsy. *)
Definition truthy (v : optstring) : bool :=
  match v with
  | Some EmptyString => false
  | Some _ => true
  | None => false
  end.

(** [a || b] on [string | undefined]. *)
Definition or_else (a b : optstring) : optstring :=
  if truthy a then a else b.

Definition is_upper (c : ascii) : bool :=
  ((65 <=? N_of_ascii c) && (N_of_ascii c <=? 90))%N.

Definition is_lower (c : ascii) : bool :=
  ((97 <=? N_of_ascii c) && (N_of_ascii c <=? 122))%N.

Definition lower_char (c : ascii) : ascii :=
  if is_upper c then ascii_of_N (N_of_ascii c + 32) else c.

Definition upper_char (c : ascii) : ascii :=
  if is_lower c then ascii_of_N (N_of_ascii c - 32) else c.

(** [String.prototype.toLowerCase]. *)
Fixpoint toLowerCase (s : string) : string :=
  match s with
  | EmptyString => EmptyString
  | String c s' => String (lower_char c) (toLowerCase s')
  end.

(** [String.prototype.startsWith]. *)
Definition startsWith (s p : string) : bool := String.prefix p s.

(** [String.prototype.includes]. *)
Fixpoint includes (s sub : string) : bool :=
  String.prefix sub s ||
  match s with
  | EmptyString => false
  | String _ s' => includes s' sub
  end.

(** [Array.prototype.some]. *)
Definition some {A} (p : A -> bool) (l : list A) : bool := existsb p l.

(** [s.split('\n')]. *)
Fixpoint split_lines_aux (cur : string) (s : string) : list string :=
  match s with
  | EmptyString => [cur]
  | String c s' =>
      if Ascii.eqb c "010"%char
      then cur :: split_lines_aux EmptyString s'
      else split_lines_aux (cur ++ String c EmptyString) s'
  end.

Definition split_lines (s : string) : list string :=
  split_lines_aux EmptyString s.

(** [Array.prototype.join]. *)
Fixpoint join (sep : string) (l : list string) : string :=
  match l with
  | [] => EmptyString
  | [x] => x
  | x :: rest => x ++ sep ++ join sep rest
  end.

(** Decimal rendering of a non-negative integer, as in a template
    literal. *)
Definition string_of_nat (n : nat) : string :=
  DecimalString.NilZero.string_of_uint (Nat.to_uint n).

(** [Math.round] on integer-valued numbers. *)
Definition round_int (z : Z) : Z := z.

(** A number that is an integer or NaN. *)
Inductive number :=
| Num (z : Z)
| NaN.

(** [Math.min] on doubles. *)
Definition Math_min (a b : float) : float :=
  if (PrimFloat.is_nan a || PrimFloat.is_nan b)%bool then PrimFloat.nan
  else if PrimFloat.ltb b a then b else a.

(** [Math.round] on a finite double: the nearest integer, ties towards
    plus infinity, that is [floor (x + 1/2)] computed exactly from the
    mantissa and exponent.  The scorer only rounds sums of bounded
    products, which are finite; the non-finite cases are mapped to 0. *)
Definition Math_round (x : float) : Z :=
  match Prim2SF x with
  | S754_finite s m e =>
      let n := if s then Z.neg m else Z.pos m in
      match e with
      | Z0 => n
      | Zpos p => n * 2 ^ Zpos p
      | Zneg p => (2 * n + 2 ^ Zpos p) / (2 * 2 ^ Zpos p)
      end
  | _ => 0
  end.

(** Exceptions: a computation either returns or throws. *)
Inductive Result (A : Type) : Type :=
| Ok (a : A)
| Throw (msg : string).
Arguments Ok {A} a.
Arguments Throw {A} msg.

Definition bind {A B} (c : Result A) (k : A -> Result B) : Result B :=
  match c with
  | Ok a => k a
  | Throw msg => Throw msg
  end.

(** [try { return c } catch (error) { h }]: what the handler raises
    propagates. *)
Definition try_catch {A} (c : Result A) (h : string -> Result A) : Result A :=
  match c with
  | Ok a => Ok a
  | Throw msg => h msg
  end.

(** [o.field] on an object that may be [undefined]. *)
Definition member_of {A} (o : option A) (field : string) : Result A :=
  match o with
  | Some a => Ok a
  | None =>
      Throw ("TypeError: Cannot read properties of undefined (reading '"
             ++ field ++ "')")
  end.

End JS.

Notation "'let*' x ':=' c 'in' k" := (JS.bind c (fun x => k))
  (at level 10, x name, c at level 100, k at level 200).

(* ================================================================== *)
(** ** Regular expressions *)
(* ================================================================== *)

(** The fragment of ECMAScript regular expressions the scanner uses, with
    the backtracking semantics of the language: alternatives and greedy
    repetitions are tried in priority order and the first successful path
    wins. *)
Module Regex.
Import JS.

Inductive re :=
| Eps
| Cls (negated : bool) (p : ascii -> bool)   (* [...] and [^...] *)
| Seq (r1 r2 : re)
| Alt (r1 r2 : re)
| Star (r : re)                              (* r*, greedy *)
| Grp (r : re)                               (* capture group 1 *)
| NegLook (r : re)                           (* (?!r) *)
| Bos                                        (* ^ *)
| Eos.                                       (* $ *)

(** Matcher state: index in the input, remaining input, capture 1 as a
    pair of indices.  [run r st k] matches [r] at [st] and hands the state
    reached to the continuation [k]; a failing continuation makes the
    matcher backtrack.  An iteration of a star that consumes nothing is
    rejected, as in the language, so the iterations number at most the
    length of the remaining input, which is the fuel of the loop. *)
Record state := mkState {
  pos : nat;
  rest : string;
  cap : option (nat * nat)
}.

(** Membership of a character in a class; with the [i] flag a character
    belongs when one of its case variants does. *)
Definition cls_found (ci : bool) (p : ascii -> bool) (c : ascii) : bool :=
  if ci then p c || p (lower_char c) || p (upper_char c) else p c.

Fixpoint run (ci : bool) (r : re) (st : state)
    (k : state -> option state) {struct r} : option state :=
  match r with
  | Eps => k st
  | Cls negated p =>
      match rest st with
      | String c s' =>
          if xorb negated (cls_found ci p c)
          then k {| pos := S (pos st); rest := s'; cap := cap st |}
          else None
      | EmptyString => None
      end
  | Seq r1 r2 => run ci r1 st (fun st' => run ci r2 st' k)
  | Alt r1 r2 =>
      match run ci r1 st k with
      | Some x => Some x
      | None => run ci r2 st k
      end
  | Star r' =>
      (fix loop (fuel : nat) (st : state) : option state :=
         match fuel with
         | O => k st
         | S f =>
             match run ci r' st
                     (fun st' => if Nat.eqb (pos st') (pos st) then None
                                 else loop f st') with
             | Some x => Some x
             | None => k st
             end
         end) (String.length (rest st)) st
  | Grp r' =>
      run ci r' st
        (fun st' => k {| pos := pos st'; rest := rest st';
                         cap := Some (pos st, pos st') |})
  | NegLook r' =>
      match run ci r' st Some with
      | Some _ => None
      | None => k st
      end
  | Bos => if Nat.eqb (pos st) 0 then k st else None
  | Eos =>
      match rest st with
      | EmptyString => k st
      | String _ _ => None
      end
  end.

(** Derived forms. *)
Definition chr (c : ascii) : re := Cls false (Ascii.eqb c).

Fixpoint lit (s : string) : re :=
  match s with
  | EmptyString => Eps
  | String c EmptyString => chr c
  | String c s' => Seq (chr c) (lit s')
  end.

Fixpoint seq (l : list re) : re :=
  match l with
  | [] => Eps
  | [r] => r
  | r :: l' => Seq r (seq l')
  end.

Fixpoint alts (l : list re) : re :=
  match l with
  | [] => NegLook Eps
  | [r] => r
  | r :: l' => Alt r (alts l')
  end.

Definition opt (r : re) : re := Alt r Eps.               (* r? *)
Definition plus (r : re) : re := Seq r (Star r).         (* r+ *)

Fixpoint rep (n : nat) (r : re) : re :=                  (* r{n} *)
  match n with
  | O => Eps
  | S O => r
  | S n' => Seq r (rep n' r)
  end.

Fixpoint upto (n : nat) (r : re) : re :=                 (* r{0,n} *)
  match n with
  | O => Eps
  | S n' => Alt (Seq r (upto n' r)) Eps
  end.

Definition rep_min (n : nat) (r : re) : re :=            (* r{n,} *)
  Seq (rep n r) (Star r).

Definition rep_range (n m : nat) (r : re) : re :=        (* r{n,m} *)
  Seq (rep n r) (upto (m - n) r).

(** Character classes. *)
Definition in_range (lo hi c : ascii) : bool :=
  ((N_of_ascii lo <=? N_of_ascii c) && (N_of_ascii c <=? N_of_ascii hi))%N.

Definition digit (c : ascii) : bool := in_range "0" "9" c.
Definition alnum (c : ascii) : bool :=
  in_range "a" "z" c || in_range "A" "Z" c || in_range "0" "9" c.
Definition upper_digit (c : ascii) : bool :=
  in_range "A" "Z" c || in_range "0" "9" c.
Definition word_dash (c : ascii) : bool :=
  alnum c || Ascii.eqb c "_" || Ascii.eqb c "-".
Definition underscore_dash (c : ascii) : bool :=
  Ascii.eqb c "_" || Ascii.eqb c "-".
Definition upper_space (c : ascii) : bool :=
  in_range "A" "Z" c || Ascii.eqb c " ".
Definition colon_eq (c : ascii) : bool :=
  Ascii.eqb c ":" || Ascii.eqb c "=".
(** The two quote characters: double (code 34) and single (code 39). *)
Definition quote (c : ascii) : bool :=
  Ascii.eqb c "034" || Ascii.eqb c "039".
(** [\s] on ASCII: tab, line feed, vertical tab, form feed, carriage
    return and space. *)
Definition space (c : ascii) : bool :=
  in_range "009" "013" c || Ascii.eqb c " ".

(** A successful match: index, matched text and capture 1. *)
Record match_result := mkMatch {
  m_index : nat;
  m_text : string;
  m_group1 : optstring
}.

Definition try_at (ci : bool) (r : re) (whole : string) (i : nat) (s : string)
    : option match_result :=
  match run ci r {| pos := i; rest := s; cap := None |} Some with
  | Some st' =>
      Some {| m_index := i;
              m_text := substring i (pos st' - i) whole;
              m_group1 :=
                match cap st' with
                | Some (a, b) => Some (substring a (b - a) whole)
                | None => None
                end |}
  | None => None
  end.

(** Leftmost match at or after index [i], where [s] is the input from
    [i] on. *)
Fixpoint exec_at (ci : bool) (r : re) (whole : string) (i : nat) (s : string)
    : option match_result :=
  match try_at ci r whole i s with
  | Some res => Some res
  | None =>
      match s with
      | String _ s' => exec_at ci r whole (S i) s'
      | EmptyString => None
      end
  end.

(** [s.match(r)] for a non-global [r], and [r.exec(s)] with
    [lastIndex = 0]. *)
Definition exec (ci : bool) (r : re) (s : string) : option match_result :=
  exec_at ci r s 0 s.

(** [r.test(s)] with [lastIndex = 0]. *)
Definition test (ci : bool) (r : re) (s : string) : bool :=
  match exec ci r s with
  | Some _ => true
  | None => false
  end.

Fixpoint drop (n : nat) (s : string) : string :=
  match n, s with
  | O, _ => s
  | S n', String _ s' => drop n' s'
  | S _, EmptyString => EmptyString
  end.

(** [s.match(r)] for a global [r]: the texts of the successive matches
    ([null] is the empty list).  After an empty match the search resumes
    one character further.  Every round moves the index forward, so the
    rounds number at most the length of the input plus one, which is the
    fuel [match_all] gives. *)
Fixpoint match_all_from (ci : bool) (r : re) (whole : string) (fuel : nat)
    (i : nat) : list string :=
  match fuel with
  | O => []
  | S fuel' =>
      if Nat.ltb (String.length whole) i then []
      else
        match exec_at ci r whole i (drop i whole) with
        | None => []
        | Some res =>
            let e := (m_index res + String.length (m_text res))%nat in
            let next := if Nat.eqb (String.length (m_text res)) 0 then S e else e in
            m_text res :: match_all_from ci r whole fuel' next
        end
  end.

Definition match_all (ci : bool) (r : re) (s : string) : list string :=
  match_all_from ci r s (S (String.length s)) 0.

End Regex.

(* ================================================================== *)
(** ** types.ts: the records exchanged between the components *)
(* ================================================================== *)

Module Types.
Import JS.

Inductive Severity := low | medium | high | critical.

Definition Severity_eqb (a b : Severity) : bool :=
  match a, b with
  | low, low | medium, medium | high, high | critical, critical => true
  | _, _ => false
  end.

(** [VulnerableTechnology].  [context] is not declared by the interface;
    the false-positive filter, which takes [any[]], reads it as
    [vuln.context || '']. *)
Record VulnerableTechnology := mkVulnerableTechnology {
  name : string;
  version : string;
  vulnerability : string;
  severity : Severity;
  lineNumbers : option (list nat);
  recommendation : optstring;
  context : optstring
}.

(** An entry of [ScrapedData.technologies]. *)
Record Technology := mkTechnology {
  tech_name : string;
  tech_version : optstring;
  currentVersion : optstring
}.

(** The scorer receives the scraped data as [any]: an element of
    [data.technologies] is, at run time, either an object of the declared
    shape or a plain string. *)
Inductive TechEntry :=
| TechObject (t : Technology)
| TechString (s : string).

(** [Array.prototype.includes] with a string argument: SameValueZero
    equates a string only with a string. *)
Definition tech_includes (l : list TechEntry) (s : string) : bool :=
  existsb (fun e =>
             match e with
             | TechString x => String.eqb x s
             | TechObject _ => false
             end) l.

(** [t.name] on an entry: [undefined] on a string. *)
Definition entry_name (e : TechEntry) : optstring :=
  match e with
  | TechObject t => Some (tech_name t)
  | TechString _ => None
  end.

(** [EcommerceData], the fields the scorer reads. *)
Record EcommerceData := mkEcommerceData {
  paymentMethods : list string;
  totalProducts : Z
}.

Record DetailedHeader := mkDetailedHeader {
  dh_present : bool;
  dh_valid : bool;
  dh_content : string
}.

Record DetailedHeaders := mkDetailedHeaders {
  det_csp : DetailedHeader;
  det_hsts : DetailedHeader;
  det_xssProtection : DetailedHeader;
  det_referrerPolicy : DetailedHeader;
  det_frameOptions : DetailedHeader
}.

Record SecurityHeaders := mkSecurityHeaders {
  csp : bool;
  hsts : bool;
  xss : bool;
  contentType : bool;
  detailed : option DetailedHeaders
}.

Record SSLAnalysis := mkSSLAnalysis {
  hasSSL : bool;
  validCertificate : bool;
  tlsVersion : string;
  httpsEnabled : bool
}.

Record SecurityAnalysis := mkSecurityAnalysis {
  securityHeaders : SecurityHeaders;
  sslAnalysis : SSLAnalysis;
  vulnerableTechnologies : list VulnerableTechnology;
  privacyScore : Z;
  externalLinks : Z;
  imagesWithoutAlt : Z;
  cookiesDetected : Z
}.

Record UsersDetected := mkUsersDetected {
  hasUsers : bool;
  accessPoints : list string
}.

(** [ScrapedData], the fields the scorer reads.  The scorer takes the
    data as [any]: the objects [ecommerce] and [securityAnalysis] may be
    [undefined] at run time.  [determineSiteType] guards against the first
    ([data.ecommerce && ...]); nothing guards against the second. *)
Record ScrapedData := mkScrapedData {
  title : string;
  technologies : list TechEntry;
  ecommerce : option EcommerceData;
  securityAnalysis : option SecurityAnalysis;
  usersDetected : UsersDetected
}.

End Types.

(* ================================================================== *)
(** ** utils/security_integrator.ts *)
(* ================================================================== *)

Module Integrator.
Import JS.

(** The header map: [SecurityHeaders], indexed by header name. *)
Definition SecurityHeaders := list (string * string).

Fixpoint header_get (headers : SecurityHeaders) (name : string) : optstring :=
  match headers with
  | [] => None
  | (k, v) :: rest => if String.eqb k name then Some v else header_get rest name
  end.

Record VulnerabilityData := mkVulnerabilityData {
  critical : Z;
  high : Z;
  medium : Z;
  low : Z
}.

(** [SiteContext['type']]: the nine strings of the declaration, and what
    [mapSiteTypeToContext] returns at run time for a site type that names
    a member of [Object.prototype]: that member, which is none of the nine
    strings. *)
Inductive ContextType :=
| static | dynamic | ecommerce | enterprise | government | api
| single_page_app | blog | portfolio
| prototype_member (name : string).

Definition ContextType_eqb (a b : ContextType) : bool :=
  match a, b with
  | static, static | dynamic, dynamic | ecommerce, ecommerce
  | enterprise, enterprise | government, government | api, api
  | single_page_app, single_page_app | blog, blog
  | portfolio, portfolio => true
  | _, _ => false
  end.

Inductive Audience :=
| general | business | financial | gov_audience | enterprise_audience
| developer.

Record SiteContext := mkSiteContext {
  type : ContextType;
  hasUserGeneratedContent : bool;
  handlesFinancialData : bool;
  hasLoginSystem : bool;
  allowsFileUploads : bool;
  usesExternalAPIs : bool;
  hasThirdPartyIntegrations : bool;
  isPublicFacing : bool;
  usesHTTPS : bool;
  technologyStack : list optstring;
  targetAudience : Audience
}.

Record HeadersScore := mkHeadersScore {
  present : Z;
  missing : Z;
  score : Z
}.

Record VulnerabilityDetails := mkVulnerabilityDetails {
  d_critical : Z;
  d_high : Z;
  d_medium : Z;
  d_low : Z;
  d_score : Z
}.

(** The value of [obj[key]] when it is not [undefined]: the value of an
    own key, or the member of that name inherited from
    [Object.prototype]. *)
Inductive Property (V : Type) : Type :=
| Own (v : V)
| Inherited (member : string).
Arguments Own {V} v.
Arguments Inherited {V} member.

Record ScoreDetails := mkScoreDetails {
  baseline : Property Z;
  headers : HeadersScore;
  vulnerabilities : VulnerabilityDetails;
  bonus : Z;
  total : number
}.

Record SecurityScore := mkSecurityScore {
  overall : number;
  grade : string;
  riskLevel : string;
  details : ScoreDetails
}.

Definition SITE_BASELINES : list (string * Z) :=
  [ ("ecommerce-standard", 75);
    ("ecommerce-premium", 85);
    ("enterprise-smb", 70);
    ("enterprise-corporate", 80);
    ("portfolio-professional", 65);
    ("saas-platform", 78);
    ("government", 90);
    ("financial", 95);
    ("healthcare", 85);
    ("education", 75);
    ("media-publisher", 70);
    ("blog-influencer", 60);
    ("landing-page-conversion", 65);
    ("DEFAULT", 80) ].

Fixpoint table_get {V} (t : list (string * V)) (key : string) : option V :=
  match t with
  | [] => None
  | (k, v) :: rest => if String.eqb k key then Some v else table_get rest key
  end.

Definition SITE_BASELINES_DEFAULT : Z :=
  match table_get SITE_BASELINES "DEFAULT" with
  | Some b => b
  | None => 0
  end.

(** The names of the members an object literal inherits from
    [Object.prototype]: eleven functions and the accessor [__proto__],
    whose value is the prototype object. *)
Definition Object_prototype_members : list string :=
  [ "constructor"; "__defineGetter__"; "__defineSetter__"; "hasOwnProperty";
    "__lookupGetter__"; "__lookupSetter__"; "isPrototypeOf";
    "propertyIsEnumerable"; "toString"; "valueOf"; "__proto__";
    "toLocaleString" ].

(** [obj[key]] on an object literal: the own key when there is one, else
    the inherited member of that name, else [undefined]. *)
Definition get_property {V} (obj : list (string * V)) (key : string)
    : option (Property V) :=
  match table_get obj key with
  | Some v => Some (Own v)
  | None =>
      if existsb (String.eqb key) Object_prototype_members
      then Some (Inherited key)
      else None
  end.

Inductive Criticality := CRITICAL | HIGH | MEDIUM | LOW.

Record HeaderConfig := mkHeaderConfig {
  weight : float;
  criticality : Criticality
}.

Definition HEADER_WEIGHTS : list (string * HeaderConfig) :=
  [ ("content-security-policy", mkHeaderConfig 25 CRITICAL);
    ("strict-transport-security", mkHeaderConfig 20 CRITICAL);
    ("x-frame-options", mkHeaderConfig 15 HIGH);
    ("x-content-type-options", mkHeaderConfig 12 HIGH);
    ("referrer-policy", mkHeaderConfig 8 MEDIUM);
    ("permissions-policy", mkHeaderConfig 6 MEDIUM);
    ("x-xss-protection", mkHeaderConfig 3 LOW) ].

Definition VULNERABILITY_PENALTIES (c : Criticality) : Z :=
  match c with
  | CRITICAL => 25
  | HIGH => 12
  | MEDIUM => 5
  | LOW => 2
  end.

(** [evaluateCSPQuality] *)
Definition evaluateCSPQuality (cspValue : string) : float :=
  let goodPractices := ["default-src"; "script-src"; "style-src"] in
  let hasNonces := includes cspValue "nonce-" || includes cspValue "sha256-" in
  let hasUnsafeInline := includes cspValue "'unsafe-inline'" in
  let score := 0.5%float in
  let score :=
    fold_left (fun score directive =>
                 if includes cspValue directive then (score + 0.2)%float
                 else score)
              goodPractices score in
  let score := if negb hasUnsafeInline then (score + 0.3)%float else score in
  let score := if hasNonces then (score + 0.2)%float else score in
  Math_min 1.0%float score.

(** [evaluateHSTSQuality] *)
Definition evaluateHSTSQuality (hstsValue : string) : float :=
  let hasMaxAge := includes hstsValue "max-age=" in
  let hasIncludeSubDomains := includes hstsValue "includeSubDomains" in
  let hasPreload := includes hstsValue "preload" in
  let score := 0.3%float in
  let score := if hasMaxAge then (score + 0.3)%float else score in
  let score := if hasIncludeSubDomains then (score + 0.2)%float else score in
  let score := if hasPreload then (score + 0.2)%float else score in
  Math_min 1.0%float score.

(** [evaluateHeaderQuality] *)
Definition evaluateHeaderQuality (headerName value : string) : float :=
  if String.eqb headerName "content-security-policy" then
    evaluateCSPQuality value
  else if String.eqb headerName "strict-transport-security" then
    evaluateHSTSQuality value
  else if String.eqb headerName "x-frame-options" then
    if includes value "DENY" || includes value "SAMEORIGIN"
    then 1.0%float else 0.7%float
  else
    if truthy (Some value) then 1.0%float else 0.0%float.

(** The [contextModifiers] tables of [calculateMissingHeaderPenalty]. *)
Definition modifiers_static_site : list (string * float) :=
  [ ("content-security-policy", 0.3%float);
    ("referrer-policy", 0.5%float);
    ("permissions-policy", 0.4%float);
    ("x-xss-protection", 0.1%float) ].

Definition modifiers_api_only : list (string * float) :=
  [ ("content-security-policy", 0.0%float);
    ("x-frame-options", 0.0%float);
    ("referrer-policy", 0.2%float) ].

Definition modifiers_blog_portfolio : list (string * float) :=
  [ ("content-security-policy", 0.4%float);
    ("x-frame-options", 0.3%float);
    ("referrer-policy", 1.1%float) ].

(** Object spread [{ ...a, ...b }]: the keys of [b] override those of
    [a]; with first-match lookup this is [b ++ a]. *)
Definition spread {V} (a b : list (string * V)) : list (string * V) := b ++ a.

(** [calculateMissingHeaderPenalty] *)
Definition calculateMissingHeaderPenalty (headerName : string)
    (crit : Criticality) (context : option SiteContext) : float :=
  let penalty := 1.0%float in
  match context with
  | Some context =>
      let modifiers := modifiers_static_site in
      let modifiers :=
        if ContextType_eqb (type context) api
           || ContextType_eqb (type context) enterprise
        then spread modifiers modifiers_api_only else modifiers in
      let modifiers :=
        if ContextType_eqb (type context) blog
           || ContextType_eqb (type context) portfolio
        then spread modifiers modifiers_blog_portfolio else modifiers in
      match table_get modifiers headerName with
      | Some modifier => (penalty * modifier)%float
      | None => penalty
      end
  | None => penalty
  end.

(** One iteration of the loop of [evaluateHeadersRealistically] over
    [Object.entries(HEADER_WEIGHTS)]; the state is
    [(presentPoints, missingPoints)]. *)
Definition header_step (hdrs : SecurityHeaders) (context : option SiteContext)
    (acc : float * float) (entry : string * HeaderConfig) : float * float :=
  let '(presentPoints, missingPoints) := acc in
  let '(headerName, config) := entry in
  let headerValue :=
    or_else (header_get hdrs headerName)
            (header_get hdrs (toLowerCase headerName)) in
  if truthy headerValue then
    match headerValue with
    | Some v =>
        let quality := evaluateHeaderQuality headerName v in
        ((presentPoints + weight config * quality)%float, missingPoints)
    | None => acc
    end
  else
    let penalty :=
      calculateMissingHeaderPenalty headerName (criticality config) context in
    (presentPoints, (missingPoints + weight config * penalty)%float).

Definition header_points (hdrs : SecurityHeaders)
    (context : option SiteContext) : float * float :=
  fold_left (header_step hdrs context) HEADER_WEIGHTS (0%float, 0%float).

(** [evaluateHeadersRealistically] *)
Definition evaluateHeadersRealistically (hdrs : SecurityHeaders)
    (context : option SiteContext) : HeadersScore :=
  let '(presentPoints, missingPoints) := header_points hdrs context in
  {| present := Math_round presentPoints;
     missing := Math_round missingPoints;
     score := Math_round (presentPoints + missingPoints)%float |}.

(** The local [totalPenalty] of [evaluateVulnerabilitiesRealistically]
    before the overall cap. *)
Definition totalPenalty (vulns : VulnerabilityData) : Z :=
  let totalPenalty := 0 in
  let totalPenalty :=
    if critical vulns >? 0
    then totalPenalty + VULNERABILITY_PENALTIES CRITICAL * Z.min (critical vulns) 3
    else totalPenalty in
  let totalPenalty :=
    if high vulns >? 0
    then totalPenalty + VULNERABILITY_PENALTIES HIGH * Z.min (high vulns) 5
    else totalPenalty in
  let totalPenalty :=
    if medium vulns >? 0
    then totalPenalty + VULNERABILITY_PENALTIES MEDIUM * Z.min (medium vulns) 8
    else totalPenalty in
  let totalPenalty :=
    if low vulns >? 0
    then totalPenalty + VULNERABILITY_PENALTIES LOW * Z.min (low vulns) 10
    else totalPenalty in
  totalPenalty.

(** [evaluateVulnerabilitiesRealistically] *)
Definition evaluateVulnerabilitiesRealistically (vulns : VulnerabilityData) : Z :=
  - round_int (Z.min (totalPenalty vulns) 30).

(** [calculateContextualBonus] *)
Definition calculateContextualBonus (hdrs : SecurityHeaders)
    (vulns : VulnerabilityData) (context : option SiteContext) : Z :=
  let bonus := 0 in
  let bonus :=
    match header_get hdrs "strict-transport-security" with
    | Some v => if includes v "max-age" then bonus + 5 else bonus
    | None => bonus
    end in
  let totalVulns := critical vulns + high vulns + medium vulns + low vulns in
  let bonus :=
    if totalVulns =? 0 then bonus + 3
    else if totalVulns <=? 2 then bonus + 1
    else bonus in
  match context with
  | Some context =>
      let bonus :=
        if (ContextType_eqb (type context) blog
            || ContextType_eqb (type context) portfolio)
           && negb (hasUserGeneratedContent context)
        then bonus + 2 else bonus in
      let bonus :=
        if negb (handlesFinancialData context)
           && negb (hasLoginSystem context)
           && negb (allowsFileUploads context)
        then bonus + 3 else bonus in
      bonus
  | None => bonus
  end.

(** [calculateGrade] *)
Definition calculateGrade (score : Z) : string :=
  if score >=? 95 then "A+"
  else if score >=? 90 then "A"
  else if score >=? 85 then "A-"
  else if score >=? 80 then "B+"
  else if score >=? 75 then "B"
  else if score >=? 70 then "B-"
  else if score >=? 65 then "C+"
  else if score >=? 60 then "C"
  else if score >=? 55 then "C-"
  else if score >=? 50 then "D"
  else "F".

(** [calculateRiskLevel] *)
Definition calculateRiskLevel (score : Z) (vulns : VulnerabilityData) : string :=
  let hasCriticalVulns := critical vulns >? 0 in
  let hasHighVulns := high vulns >? 0 in
  if (score >=? 85) && negb hasCriticalVulns && (high vulns <=? 1) then "Bajo"
  else if (score >=? 70) && negb hasCriticalVulns then "Medio"
  else if (score >=? 50) || (high vulns >? 2) then "Alto"
  else "Crítico".

(** [calculateGrade] and [calculateRiskLevel] on a score that may be NaN.
    Every comparison of NaN with a threshold is false: the grade falls
    through to F, and of the risk level only the test on the number of
    high findings is left. *)
Definition gradeOf (score : number) : string :=
  match score with
  | Num s => calculateGrade s
  | NaN => "F"
  end.

Definition riskLevelOf (score : number) (vulns : VulnerabilityData) : string :=
  match score with
  | Num s => calculateRiskLevel s vulns
  | NaN => if high vulns >? 2 then "Alto" else "Crítico"
  end.

(** [Math.round] on a number that is an integer or NaN. *)
Definition round_number (n : number) : number :=
  match n with
  | Num z => Num (round_int z)
  | NaN => NaN
  end.

(** [SITE_BASELINES[siteType] || SITE_BASELINES.DEFAULT]: a number of the
    table that is not 0, an inherited member (a function or an object,
    hence truthy), or the default. *)
Definition baseline_of (siteType : string) : Property Z :=
  match get_property SITE_BASELINES siteType with
  | Some (Own b) => if b =? 0 then Own SITE_BASELINES_DEFAULT else Own b
  | Some (Inherited member) => Inherited member
  | None => Own SITE_BASELINES_DEFAULT
  end.

(** [Math.max(0, Math.min(100, baseline + a + b + c))].  On a number the
    sum is a number.  On an inherited member [+] converts the member to a
    string (the source text of a function, or [object Object]) and
    appends the three numbers to it; [Math.min] converts that text, which
    is no numeric literal, to NaN, and [Math.max] keeps NaN. *)
Definition clampedSum (baseline : Property Z) (a b c : Z) : number :=
  match baseline with
  | Own n => Num (Z.max 0 (Z.min 100 (n + a + b + c)))
  | Inherited _ => NaN
  end.

(** [calculateRealisticScore] *)
Definition calculateRealisticScore (hdrs : SecurityHeaders)
    (vulns : VulnerabilityData) (siteType : string)
    (context : option SiteContext) : SecurityScore :=
  let baseline := baseline_of siteType in
  let headersScore := evaluateHeadersRealistically hdrs context in
  let vulnScore := evaluateVulnerabilitiesRealistically vulns in
  let bonusScore := calculateContextualBonus hdrs vulns context in
  let total := clampedSum baseline (score headersScore) vulnScore bonusScore in
  let grade := gradeOf total in
  let riskLevel := riskLevelOf total vulns in
  {| overall := round_number total;
     grade := grade;
     riskLevel := riskLevel;
     details :=
       {| baseline := baseline;
          headers := headersScore;
          vulnerabilities :=
            {| d_critical := critical vulns;
               d_high := high vulns;
               d_medium := medium vulns;
               d_low := low vulns;
               d_score := vulnScore |};
          bonus := bonusScore;
          total := total |} |}.

(** [determineSiteType] *)
Definition determineSiteType (data : Types.ScrapedData) : string :=
  let otherwise :=
    if Types.tech_includes (Types.technologies data) "React"
       || Types.tech_includes (Types.technologies data) "Vue.js" then
      "saas-platform"
    else if Types.hasUsers (Types.usersDetected data)
            && (Z.of_nat (List.length (Types.accessPoints (Types.usersDetected data))) >? 3) then
      "enterprise-corporate"
    else if truthy (Some (Types.title data))
            && (includes (Types.title data) "blog"
                || includes (Types.title data) "portfolio") then
      "portfolio-professional"
    else "enterprise-smb" in
  match Types.ecommerce data with
  | Some e =>
      if Types.totalProducts e >? 0 then
        if Types.totalProducts e >? 50 then "ecommerce-premium"
        else "ecommerce-standard"
      else otherwise
  | None => otherwise
  end.

(** [mapSiteTypeToContext] *)
Definition mapSiteTypeToContext (siteType : string) : ContextType :=
  let mapping :=
    [ ("ecommerce-standard", enterprise);
      ("ecommerce-premium", enterprise);
      ("enterprise-smb", enterprise);
      ("enterprise-corporate", enterprise);
      ("saas-platform", enterprise);
      ("portfolio-professional", portfolio);
      ("blog-influencer", blog) ] in
  match get_property mapping siteType with
  | Some (Own t) => t
  | Some (Inherited member) => prototype_member member
  | None => enterprise
  end.

(** [generateSiteContext].  The fields of the literal are evaluated in
    order: [data.ecommerce.paymentMethods] is read first and
    [data.securityAnalysis.externalLinks] next, each raising a TypeError
    on an undefined object. *)
Definition generateSiteContext (data : Types.ScrapedData) (siteType : string)
    : Result SiteContext :=
  let* e := member_of (Types.ecommerce data) "paymentMethods" in
  let* sa := member_of (Types.securityAnalysis data) "externalLinks" in
  Ok {| type := mapSiteTypeToContext siteType;
        hasUserGeneratedContent := Types.hasUsers (Types.usersDetected data);
        handlesFinancialData := Z.of_nat (List.length (Types.paymentMethods e)) >? 0;
        hasLoginSystem := Types.hasUsers (Types.usersDetected data);
        allowsFileUploads :=
          Types.tech_includes (Types.technologies data) "PHP"
          || Types.tech_includes (Types.technologies data) "Node.js";
        usesExternalAPIs := Types.externalLinks sa >? 5;
        hasThirdPartyIntegrations := Types.externalLinks sa >? 3;
        isPublicFacing := true;
        usesHTTPS := Types.httpsEnabled (Types.sslAnalysis sa);
        technologyStack := map Types.entry_name (Types.technologies data);
        targetAudience := general |}.

(** The predicate of [SecurityIntegrationUtils.filterFalsePositives]:
    [true] keeps the finding. *)
Definition keepFinding (vuln : Types.VulnerableTechnology) : bool :=
  let vulnText := toLowerCase (Types.vulnerability vuln) in
  let contextText :=
    toLowerCase (match or_else (Types.context vuln) (Some EmptyString) with
                 | Some c => c
                 | None => EmptyString
                 end) in
  let mentions := fun pat => includes contextText pat || includes vulnText pat in
  (* 1. document.write() of third-party services *)
  if includes vulnText "document.write"
     && some mentions
          [ "googletagmanager"; "gtm"; "tag manager";
            "intercom"; "widget.intercom.io";
            "google"; "maps.googleapis.com";
            "clarity.ms"; "analytics";
            "pendo"; "zapier"; "stripe" ]
  then false
  (* 2. console.warn/log of external libraries *)
  else if includes vulnText "console."
     && some mentions
          [ "google maps javascript api";
            "only loads once";
            "already loaded";
            "library";
            "vendor";
            "third-party" ]
  then false
  (* 3. JSON.parse inside try-catch *)
  else if includes vulnText "json.parse"
     && ((includes contextText "try" && includes contextText "catch")
         || (includes contextText "catch (e)" || includes contextText "catch(e)"))
  then false
  (* 4. RegExp.exec() in parsing code *)
  else if (includes vulnText "regexp" || includes vulnText ".exec(")
     && (includes contextText "getparametername"
         || includes contextText "getparameter"
         || includes contextText "parse"
         || includes contextText "extract"
         || includes contextText "match")
  then false
  else
    (* 5. Google APIs and legitimate services *)
    let isGoogleSafe :=
      includes vulnText "google"
      || includes vulnText "gtm"
      || includes vulnText "tag manager"
      || includes vulnText "maps api"
      || includes vulnText "analytics"
      || includes vulnText "firebase"
      || includes vulnText "gapi" in
    (* 6. safe development configurations *)
    let isDevSafe :=
      includes vulnText "debug mode"
      || includes vulnText "development" in
    (* 7. innerHTML with safe hardcoded content *)
    let isSafeInnerHTML :=
      includes vulnText "innerhtml"
      && (includes vulnText "hardcoded"
          || includes vulnText "safe"
          || includes vulnText "sanitized") in
    negb isGoogleSafe && negb isDevSafe && negb isSafeInnerHTML.

(** [SecurityIntegrationUtils.filterFalsePositives] *)
Definition filterFalsePositives (vulnerabilities : list Types.VulnerableTechnology)
    : list Types.VulnerableTechnology :=
  filter keepFinding vulnerabilities.

End Integrator.

(* ================================================================== *)
(** ** The main component: credential scanner, grade and privacy score *)
(* ================================================================== *)

Module App.
Import JS Regex.

(** The [safePatterns] of [isSafeKnownPattern], in order. *)
Definition safePatterns : list re :=
  [ (* /^AIzaSy[a-zA-Z0-9_-]{35}$/  Google Maps API key *)
    seq [Bos; lit "AIzaSy"; rep 35 (Cls false word_dash); Eos];
    (* /^GTM-[A-Z0-9]{6,8}$/  Google Tag Manager ID *)
    seq [Bos; lit "GTM-"; rep_range 6 8 (Cls false upper_digit); Eos];
    (* /^UA-\d{4,}-\d+$/  Universal Analytics ID *)
    seq [Bos; lit "UA-"; rep_min 4 (Cls false digit); chr "-";
         plus (Cls false digit); Eos];
    (* /^G-[A-Z0-9]{8,}$/  Google Analytics 4 ID *)
    seq [Bos; lit "G-"; rep_min 8 (Cls false upper_digit); Eos];
    (* /^firebase[_-]?[a-zA-Z0-9_-]*$/  Firebase keys *)
    seq [Bos; lit "firebase"; opt (Cls false underscore_dash);
         Star (Cls false word_dash); Eos];
    (* /^pk_test_[a-zA-Z0-9]{24,}$/  Stripe test keys *)
    seq [Bos; lit "pk_test_"; rep_min 24 (Cls false alnum); Eos];
    (* /^pk_live_[a-zA-Z0-9]{24,}$/  Stripe live public keys *)
    seq [Bos; lit "pk_live_"; rep_min 24 (Cls false alnum); Eos];
    (* /^fb\d{13,}$/  Facebook App ID *)
    seq [Bos; lit "fb"; rep_min 13 (Cls false digit); Eos];
    (* /^ca\d{19}$/  alternative Facebook App ID *)
    seq [Bos; lit "ca"; rep 19 (Cls false digit); Eos];
    (* /^ghp_[a-zA-Z0-9]{36}$/  GitHub personal access token *)
    seq [Bos; lit "ghp_"; rep 36 (Cls false alnum); Eos];
    (* /^eyJ[a-zA-Z0-9_-]*$/  JWT *)
    seq [Bos; lit "eyJ"; Star (Cls false word_dash); Eos];
    (* /^[a-zA-Z0-9_-]{32}$/ *)
    seq [Bos; rep 32 (Cls false word_dash); Eos];
    (* /^[a-zA-Z0-9_-]{40}$/ *)
    seq [Bos; rep 40 (Cls false word_dash); Eos] ].

(** [isSafeKnownPattern] *)
Definition isSafeKnownPattern (text : string) : bool :=
  some (fun pattern => test false pattern text) safePatterns.

Record CredentialPattern := mkCredentialPattern {
  pattern : re;                     (* all carry the flags [gi] *)
  cp_vulnerability : string;
  cp_severity : Types.Severity;
  exploitation : string;
  cp_recommendation : string
}.

(** Common prefix of the keyed patterns: [<Q>?\s*[:=]\s*<Q>]. *)
Definition assign_quote : re :=
  seq [opt (Cls false quote); Star (Cls false space); Cls false colon_eq;
       Star (Cls false space); Cls false quote].

(** [credentialPatterns], in order.  In the patterns quoted in the
    comments, <Q> stands for the class of the two quote characters and
    <^Q> for its complement. *)
Definition credentialPatterns : list CredentialPattern :=
  [ (* /api[_-]?key<Q>?\s*[:=]\s*<Q>(?!AIzaSy|GTM-|UA-|G-|fb|ghp_)[a-zA-Z0-9]{32,}<Q>/gi *)
    mkCredentialPattern
      (seq [lit "api"; opt (Cls false underscore_dash); lit "key"; assign_quote;
            NegLook (alts [lit "AIzaSy"; lit "GTM-"; lit "UA-"; lit "G-";
                           lit "fb"; lit "ghp_"]);
            rep_min 32 (Cls false alnum); Cls false quote])
      "Hardcoded API Key detected (NO Google APIs)"
      Types.critical
      "API keys hardcodeadas exponen acceso no autorizado a servicios externos"
      "Mover API keys a variables de entorno o archivos de configuración seguros";
    (* /secret[_-]?key<Q>?\s*[:=]\s*<Q>(?!AIzaSy|GTM-)[a-zA-Z0-9]{32,}<Q>/gi *)
    mkCredentialPattern
      (seq [lit "secret"; opt (Cls false underscore_dash); lit "key"; assign_quote;
            NegLook (alts [lit "AIzaSy"; lit "GTM-"]);
            rep_min 32 (Cls false alnum); Cls false quote])
      "Hardcoded Secret Key detected (NO Google)"
      Types.critical
      "Claves secretas hardcodeadas permiten acceso no autorizado y escalada de privilegios"
      "Usar variables de entorno y sistemas de gestión de secretos";
    (* /token<Q>?\s*[:=]\s*<Q>(?!GTM-|AIzaSy|google|fb|ghp_|UA-|G-|ca-|pk_)[a-zA-Z0-9]{20,}<Q>/gi *)
    mkCredentialPattern
      (seq [lit "token"; assign_quote;
            NegLook (alts [lit "GTM-"; lit "AIzaSy"; lit "google"; lit "fb";
                           lit "ghp_"; lit "UA-"; lit "G-"; lit "ca-"; lit "pk_"]);
            rep_min 20 (Cls false alnum); Cls false quote])
      "Hardcoded Authentication Token detected (excluding safe patterns)"
      Types.high
      "Tokens de autenticación hardcodeados permiten bypass de autenticación"
      "Almacenar tokens de forma segura y rotar regularmente";
    (* /password<Q>?\s*[:=]\s*<Q>(<^Q>{6,})<Q>/gi *)
    mkCredentialPattern
      (seq [lit "password"; assign_quote;
            Grp (rep_min 6 (Cls true quote)); Cls false quote])
      "Hardcoded Password detected"
      Types.critical
      "Contraseñas hardcodeadas exponen acceso directo a sistemas y bases de datos"
      "Usar sistemas de autenticación seguros y hashing de contraseñas";
    (* /private[_-]?key<Q>?\s*[:=]\s*<Q>(-----BEGIN [A-Z ]+-----)/gi *)
    mkCredentialPattern
      (seq [lit "private"; opt (Cls false underscore_dash); lit "key"; assign_quote;
            Grp (seq [lit "-----BEGIN "; plus (Cls false upper_space);
                      lit "-----"])])
      "Hardcoded Private Key detected"
      Types.critical
      "Claves privadas hardcodeadas permiten decriptación y suplantación de identidad"
      "Usar gestión segura de claves criptográficas";
    (* /sk_live_[a-zA-Z0-9]{24,}/gi *)
    mkCredentialPattern
      (seq [lit "sk_live_"; rep_min 24 (Cls false alnum)])
      "Stripe Live Secret Key exposed"
      Types.critical
      "Clave secreta de Stripe permite acceso completo a transacciones financieras"
      "Rotar clave inmediatamente y usar webhooks para validación";
    (* /pk_live_[a-zA-Z0-9]{24,}/gi *)
    mkCredentialPattern
      (seq [lit "pk_live_"; rep_min 24 (Cls false alnum)])
      "Stripe Live Public Key exposed"
      Types.medium
      "Clave pública de Stripe permite identificación pero es menos crítica"
      "Verificar que sea solo clave pública y no secreta";
    (* /ghp_[a-zA-Z0-9]{36}/gi *)
    mkCredentialPattern
      (seq [lit "ghp_"; rep 36 (Cls false alnum)])
      "GitHub Personal Access Token exposed"
      Types.critical
      "Token de GitHub permite acceso completo a repositorios y organización"
      "Revocar token inmediatamente y usar tokens con permisos limitados" ].

(** The key/value extractor [/<Q>(<^Q>+)<Q>/]: capture 1 of the first
    quoted segment, when there is one. *)
Definition keyValueRe : re :=
  seq [Cls false quote; Grp (plus (Cls true quote)); Cls false quote].

Definition keyValueMatch (s : string) : optstring :=
  match exec false keyValueRe s with
  | Some res => if truthy (m_group1 res) then m_group1 res else None
  | None => None
  end.

(** The second filter: legitimate services, by substring and prefix. *)
Definition isLegitimateService (keyValue : string) : bool :=
  includes (toLowerCase keyValue) "google"
  || includes (toLowerCase keyValue) "firebase"
  || includes (toLowerCase keyValue) "gtm"
  || includes (toLowerCase keyValue) "analytics"
  || startsWith (toLowerCase keyValue) "pk_"
  || startsWith (toLowerCase keyValue) "ua-"
  || startsWith (toLowerCase keyValue) "g-".

(** The callback of [matches.filter]: [true] keeps the match. *)
Definition isReportedMatch (match_ : string) : bool :=
  match keyValueMatch match_ with
  | Some keyValue =>
      if isSafeKnownPattern keyValue then false
      else if isLegitimateService keyValue then false
      else true
  | None => true
  end.

(** The line loop: 1-based numbers of the lines on which the pattern
    matches and whose first quoted segment is not a safe pattern. *)
Fixpoint foundLinesFrom (p : re) (index : nat) (lines : list string) : list nat :=
  match lines with
  | [] => []
  | line :: lines' =>
      let here :=
        if test true p line then
          match keyValueMatch line with
          | Some kv => if negb (isSafeKnownPattern kv) then [(index + 1)%nat] else []
          | None => [(index + 1)%nat]
          end
        else [] in
      here ++ foundLinesFrom p (S index) lines'
  end.

(** The body of [credentialPatterns.forEach]: the findings one pattern
    pushes on [vulnerable]. *)
Definition processCredentialPattern (html : string) (cp : CredentialPattern)
    : list Types.VulnerableTechnology :=
  let matches := match_all true (pattern cp) html in
  if Nat.ltb 0 (List.length matches) then
    let safeMatches := filter isReportedMatch matches in
    if Nat.ltb 0 (List.length safeMatches) then
      let lines := split_lines html in
      let foundLines := foundLinesFrom (pattern cp) 0 lines in
      if Nat.ltb 0 (List.length foundLines) then
        [ {| Types.name := "🔑 HARDCODED CREDENTIAL";
             Types.version :=
               "Líneas: " ++ join ", " (map string_of_nat (firstn 3 foundLines))
               ++ (if Nat.ltb 3 (List.length foundLines) then "..." else EmptyString);
             Types.vulnerability := cp_vulnerability cp ++ " - " ++ exploitation cp;
             Types.severity := cp_severity cp;
             Types.lineNumbers := Some foundLines;
             Types.recommendation := Some (cp_recommendation cp);
             Types.context := None |} ]
      else []
    else []
  else [].

(** The credential pass of [detectVulnerableTechnologies].  The length
    bounds of the patterns count characters of the page; the embedding is
    exact on pages of ASCII text. *)
Definition scanCredentials (html : string) : list Types.VulnerableTechnology :=
  flat_map (processCredentialPattern html) credentialPatterns.

(** [getScoreGrade] *)
Definition getScoreGrade (score : Z) : string :=
  if score >=? 95 then "A+"
  else if score >=? 90 then "A"
  else if score >=? 85 then "A-"
  else if score >=? 80 then "B+"
  else if score >=? 75 then "B"
  else if score >=? 70 then "B-"
  else if score >=? 65 then "C+"
  else if score >=? 60 then "C"
  else if score >=? 55 then "C-"
  else if score >=? 50 then "D"
  else "F".

(** An entry of an object literal whose value may be [undefined]. *)
Definition entry (key : string) (v : optstring) : Integrator.SecurityHeaders :=
  match v with
  | Some s => [(key, s)]
  | None => []
  end.

(** [headers.detailed?.h?.present ? headers.detailed.h.content : undefined] *)
Definition detailedContent (headers : Types.SecurityHeaders)
    (h : Types.DetailedHeaders -> Types.DetailedHeader) : optstring :=
  match Types.detailed headers with
  | Some d => if Types.dh_present (h d) then Some (Types.dh_content (h d)) else None
  | None => None
  end.

(** Step 4 of the primary scorer. *)
Definition normalizedHeaders (headers : Types.SecurityHeaders)
    : Integrator.SecurityHeaders :=
  (entry "content-security-policy" (detailedContent headers Types.det_csp)
   ++ entry "strict-transport-security" (detailedContent headers Types.det_hsts)
   ++ entry "x-frame-options" (detailedContent headers Types.det_frameOptions)
   ++ entry "x-content-type-options"
            (if Types.contentType headers then Some "nosniff" else None)
   ++ entry "referrer-policy" (detailedContent headers Types.det_referrerPolicy)
   ++ entry "permissions-policy" None
   ++ entry "x-xss-protection" (detailedContent headers Types.det_xssProtection))%list.

(** [list.filter(v => v.severity === sev).length] *)
Definition countSeverity (sev : Types.Severity)
    (l : list Types.VulnerableTechnology) : Z :=
  Z.of_nat (List.length
              (filter (fun v => Types.Severity_eqb (Types.severity v) sev) l)).

(** Step 5 of the primary scorer. *)
Definition normalizedVulnerabilities (l : list Types.VulnerableTechnology)
    : Integrator.VulnerabilityData :=
  {| Integrator.critical := countSeverity Types.critical l;
     Integrator.high := countSeverity Types.high l;
     Integrator.medium := countSeverity Types.medium l;
     Integrator.low := countSeverity Types.low l |}.

(** The [try] block of [calculatePrivacyScore] (the logger calls leave
    the result unchanged and are left out). *)
Definition primaryScore (data : Types.ScrapedData) : Result number :=
  let siteType := Integrator.determineSiteType data in
  let* siteContext := Integrator.generateSiteContext data siteType in
  let* sa := member_of (Types.securityAnalysis data) "vulnerableTechnologies" in
  let filteredVulnerabilities :=
    Integrator.filterFalsePositives (Types.vulnerableTechnologies sa) in
  let securityScore :=
    Integrator.calculateRealisticScore
      (normalizedHeaders (Types.securityHeaders sa))
      (normalizedVulnerabilities filteredVulnerabilities)
      siteType
      (Some siteContext) in
  Ok (Integrator.overall securityScore).

(** The [catch] block of [calculatePrivacyScore]: it reads
    [data.securityAnalysis.securityHeaders] first, without a guard. *)
Definition fallbackScore (data : Types.ScrapedData) : Result number :=
  let* sa := member_of (Types.securityAnalysis data) "securityHeaders" in
  let hdrs := Types.securityHeaders sa in
  let score := 80 in
  let score := if Types.csp hdrs then score + 10 else score in
  let score := if Types.hsts hdrs then score + 8 else score in
  let score := if Types.xss hdrs then score + 5 else score in
  let score := if Types.contentType hdrs then score + 3 else score in
  let score :=
    if Types.httpsEnabled (Types.sslAnalysis sa) then score + 12 else score in
  let criticalVulns := countSeverity Types.critical (Types.vulnerableTechnologies sa) in
  let highVulns := countSeverity Types.high (Types.vulnerableTechnologies sa) in
  let mediumVulns := countSeverity Types.medium (Types.vulnerableTechnologies sa) in
  let score := score - Z.min (criticalVulns * 15) 25 in
  let score := score - Z.min (highVulns * 8) 20 in
  let score := score - Z.min (mediumVulns * 3) 10 in
  let score :=
    if Types.httpsEnabled (Types.sslAnalysis sa) then Z.max score 65 else score in
  Ok (Num (Z.max 0 (Z.min 100 (round_int score)))).

(** [calculatePrivacyScore] *)
Definition calculatePrivacyScore (data : Types.ScrapedData) : Result number :=
  try_catch (primaryScore data) (fun _ => fallbackScore data).

End App.

(* ================================================================== *)
(** ** Vocabulary of the properties *)
(* ================================================================== *)

Module Props.
Import JS.

(** The clamp of a number to an interval. *)
Definition clamp (lo hi x : Z) : Z := Z.max lo (Z.min hi x).

(** The contribution of one severity tier: [weight] points per
    occurrence, at most [cap] occurrences. *)
Definition tier (count weight cap : Z) : Z :=
  weight * Z.min (Z.max count 0) cap.

(** The grade scale, worst to best, and the rank of a grade on it. *)
Definition GRADES : list string :=
  ["F"; "D"; "C-"; "C"; "C+"; "B-"; "B"; "B+"; "A-"; "A"; "A+"].

Fixpoint rank_in (l : list string) (g : string) : nat :=
  match l with
  | [] => 0
  | x :: l' => if String.eqb x g then 0 else S (rank_in l' g)
  end.

Definition gradeRank (g : string) : nat := rank_in GRADES g.

(** The threshold table of the grade: the first threshold the score
    reaches gives the grade, and no threshold reached gives F. *)
Definition GRADE_TABLE : list (Z * string) :=
  [ (95, "A+"); (90, "A"); (85, "A-"); (80, "B+"); (75, "B"); (70, "B-");
    (65, "C+"); (60, "C"); (55, "C-"); (50, "D") ].

Fixpoint gradeByTable (t : list (Z * string)) (score : Z) : string :=
  match t with
  | [] => "F"
  | (threshold, g) :: t' =>
      if threshold <=? score then g else gradeByTable t' score
  end.

(** The header score as the specification words it: what the present
    headers earn minus what the absent headers are penalised. *)
Definition headerScoreAsSpecified (hdrs : Integrator.SecurityHeaders)
    (context : option Integrator.SiteContext) : Z :=
  let '(presentPoints, missingPoints) := Integrator.header_points hdrs context in
  Math_round (presentPoints - missingPoints)%float.

(** A header is present when its value is a non-empty string. *)
Definition headerPresent (hdrs : Integrator.SecurityHeaders) (name : string) : Prop :=
  truthy (Integrator.header_get hdrs name) = true.

Definition trackedHeaders : list string := map fst Integrator.HEADER_WEIGHTS.

Definition noFindings : Integrator.VulnerabilityData :=
  Integrator.mkVulnerabilityData 0 0 0 0.

(** The points earned when the seven tracked headers are all present,
    as a function of the three graded values. *)
Definition fullPresentPoints (vcsp vhsts vxfo : string) : float :=
  (0 + 25 * Integrator.evaluateCSPQuality vcsp
     + 20 * Integrator.evaluateHSTSQuality vhsts
     + 15 * (if includes vxfo "DENY" || includes vxfo "SAMEORIGIN"
             then 1.0 else 0.7)
     + 12 * 1.0 + 8 * 1.0 + 6 * 1.0 + 3 * 1.0)%float.

(** Sample inputs. *)
Definition allHeaders : Integrator.SecurityHeaders :=
  [ ("content-security-policy",
     "default-src 'self'; script-src 'self'; style-src 'self'");
    ("strict-transport-security",
     "max-age=31536000; includeSubDomains; preload");
    ("x-frame-options", "DENY");
    ("x-content-type-options", "nosniff");
    ("referrer-policy", "strict-origin-when-cross-origin");
    ("permissions-policy", "geolocation=()");
    ("x-xss-protection", "1; mode=block") ].

Definition httpsEnterprise : Integrator.SiteContext :=
  {| Integrator.type := Integrator.enterprise;
     Integrator.hasUserGeneratedContent := false;
     Integrator.handlesFinancialData := false;
     Integrator.hasLoginSystem := false;
     Integrator.allowsFileUploads := false;
     Integrator.usesExternalAPIs := false;
     Integrator.hasThirdPartyIntegrations := false;
     Integrator.isPublicFacing := true;
     Integrator.usesHTTPS := true;
     Integrator.technologyStack := [];
     Integrator.targetAudience := Integrator.general |}.

Definition fourCritical : Integrator.VulnerabilityData :=
  Integrator.mkVulnerabilityData 4 0 0 0.

(** A string of the shape of a Google Maps API key. *)
Definition mapsKey : string := "AIzaSyA-1234567890_abcdefghijklmnopqrstuv".

(** A page that carries the key as the value of a quoted field, and one
    that assigns it to an unquoted name. *)
Definition pageQuotedField : string := "{'password': '" ++ mapsKey ++ "'}".
Definition pageBareField : string := "password = '" ++ mapsKey ++ "'".

(** The same field in JSON, with double quotes (character 34). *)
Definition dq : string := String "034" EmptyString.
Definition pageJsonField : string :=
  "{" ++ dq ++ "password" ++ dq ++ ": " ++ dq ++ mapsKey ++ dq ++ "}".

(** Sample findings. *)
Definition finding (text : string) (ctx : optstring) : Types.VulnerableTechnology :=
  {| Types.name := "JavaScript Vulnerability Pattern";
     Types.version := "1";
     Types.vulnerability := text;
     Types.severity := Types.high;
     Types.lineNumbers := None;
     Types.recommendation := None;
     Types.context := ctx |}.

Definition plainSecurityAnalysis (https : bool) : Types.SecurityAnalysis :=
  {| Types.securityHeaders :=
       {| Types.csp := false; Types.hsts := false; Types.xss := false;
          Types.contentType := false; Types.detailed := None |};
     Types.sslAnalysis :=
       {| Types.hasSSL := https; Types.validCertificate := https;
          Types.tlsVersion := "TLS 1.2+"; Types.httpsEnabled := https |};
     Types.vulnerableTechnologies := [];
     Types.privacyScore := 0;
     Types.externalLinks := 0;
     Types.imagesWithoutAlt := 0;
     Types.cookiesDetected := 0 |}.

(** Scraped data of a React page without products. *)
Definition reactPage : Types.ScrapedData :=
  {| Types.title := "Home";
     Types.technologies :=
       [ Types.TechObject
           {| Types.tech_name := "React";
              Types.tech_version := Some "18.2.0";
              Types.currentVersion := Some "18.2.0" |} ];
     Types.ecommerce :=
       Some {| Types.paymentMethods := []; Types.totalProducts := 0 |};
     Types.securityAnalysis := Some (plainSecurityAnalysis true);
     Types.usersDetected := {| Types.hasUsers := false; Types.accessPoints := [] |} |}.

(** Scraped data whose [ecommerce] field is undefined. *)
Definition pageWithoutEcommerce : Types.ScrapedData :=
  {| Types.title := "Home";
     Types.technologies := [];
     Types.ecommerce := None;
     Types.securityAnalysis := Some (plainSecurityAnalysis true);
     Types.usersDetected := {| Types.hasUsers := false; Types.accessPoints := [] |} |}.

(** Scraped data whose [securityAnalysis] field is undefined. *)
Definition pageWithoutAnalysis : Types.ScrapedData :=
  {| Types.title := "Home";
     Types.technologies := [];
     Types.ecommerce :=
       Some {| Types.paymentMethods := []; Types.totalProducts := 0 |};
     Types.securityAnalysis := None;
     Types.usersDetected := {| Types.hasUsers := false; Types.accessPoints := [] |} |}.

(** The findings of a severity, counted one by one. *)
Fixpoint findingsOf (sev : Types.Severity) (l : list Types.VulnerableTechnology) : Z :=
  match l with
  | [] => 0
  | v :: l' =>
      (if Types.Severity_eqb (Types.severity v) sev then 1 else 0)
      + findingsOf sev l'
  end.

End Props.

(* ================================================================== *)
(** ** Vocabulary of the further properties *)
(* ================================================================== *)

Module Ranks.

(** The risk labels of [calculateRiskLevel], mildest first, and the rank
    of a label on that scale. *)
Definition RISK_LEVELS : list string := ["Bajo"; "Medio"; "Alto"; "Crítico"].

Definition riskRank (level : string) : nat := Props.rank_in RISK_LEVELS level.

(** The keywords of the finding text that make the false-positive filter
    drop a finding whatever its context. *)
Definition ALWAYS_DROPPED_KEYWORDS : list string :=
  [ "google"; "gtm"; "tag manager"; "maps api"; "analytics"; "firebase";
    "gapi"; "debug mode"; "development" ].

End Ranks.

(* ================================================================== *)
(** ** The values the header evaluator can reach *)
(* ================================================================== *)

(** The header points are sums of binary64 products.  Their range is
    obtained by listing, for each class of site context, every pair of
    accumulators the loop of [evaluateHeadersRealistically] can reach. *)
Module HeaderRange.
Import JS Integrator.

(** The missing-header penalty depends on the context through its type
    only, and on the type through three classes. *)
Inductive ContextClass := NoContext | StaticLike | ApiLike | BlogLike.

Definition classOf (ctx : option SiteContext) : ContextClass :=
  match ctx with
  | None => NoContext
  | Some c =>
      if ContextType_eqb (type c) blog || ContextType_eqb (type c) portfolio
      then BlogLike
      else if ContextType_eqb (type c) api || ContextType_eqb (type c) enterprise
      then ApiLike
      else StaticLike
  end.

Definition contextOfType (t : ContextType) : SiteContext :=
  mkSiteContext t false false false false false false true true [] general.

Definition representative (cls : ContextClass) : option SiteContext :=
  match cls with
  | NoContext => None
  | StaticLike => Some (contextOfType static)
  | ApiLike => Some (contextOfType api)
  | BlogLike => Some (contextOfType blog)
  end.

(** The quality scores a present header can get. *)
Definition qualityValues (headerName : string) : list float :=
  if String.eqb headerName "content-security-policy" then
    [1.0; 0.5 + 0.2 + 0.2; 0.5 + 0.3; 0.5 + 0.2; 0.5]%float
  else if String.eqb headerName "strict-transport-security" then
    [1.0; 0.3 + 0.3 + 0.2; 0.3 + 0.2 + 0.2; 0.3 + 0.3; 0.3 + 0.2; 0.3]%float
  else if String.eqb headerName "x-frame-options" then [1.0; 0.7]%float
  else [1.0]%float.

(** The accumulators one iteration can produce from [acc]: the header is
    present with one of its quality scores, or absent. *)
Definition outcomes (cls : ContextClass) (acc : float * float)
    (entry : string * HeaderConfig) : list (float * float) :=
  (map (fun q => ((fst acc + weight (snd entry) * q)%float, snd acc))
       (qualityValues (fst entry))
   ++ [(fst acc,
        (snd acc + weight (snd entry)
                   * calculateMissingHeaderPenalty (fst entry)
                       (criticality (snd entry)) (representative cls))%float)])%list.

Definition reachableFrom (cls : ContextClass)
    (entries : list (string * HeaderConfig)) (start : list (float * float))
    : list (float * float) :=
  fold_left (fun S entry => flat_map (fun acc => outcomes cls acc entry) S)
            entries start.

Definition reachable (cls : ContextClass) : list (float * float) :=
  reachableFrom cls HEADER_WEIGHTS [(0%float, 0%float)].

(** The bounds checked on every reachable pair: the three sums are finite
    and their roundings lie in the stated intervals. *)
Definition pointsWithin (lo hi : Z) (acc : float * float) : bool :=
  PrimFloat.is_finite (fst acc) && PrimFloat.is_finite (snd acc)
  && PrimFloat.is_finite (fst acc + snd acc)%float
  && (0 <=? Math_round (fst acc)) && (Math_round (fst acc) <=? 89)
  && (0 <=? Math_round (snd acc)) && (Math_round (snd acc) <=? 89)
  && (lo <=? Math_round (fst acc + snd acc)%float)
  && (Math_round (fst acc + snd acc)%float <=? hi).

(** The least and greatest header score of each class. *)
Definition scoreBounds (cls : ContextClass) : Z * Z :=
  match cls with
  | NoContext => (58, 89)
  | StaticLike => (43, 89)
  | ApiLike => (22, 89)
  | BlogLike => (43, 90)
  end.

End HeaderRange.

(* ================================================================== *)
(** ** Tokens *)
(* ================================================================== *)

Module Tokens.

(** Every character of [s] satisfies [p]. *)
Fixpoint allChars (p : ascii -> bool) (s : string) : bool :=
  match s with
  | EmptyString => true
  | String c s' => p c && allChars p s'
  end.

(** A token of [n] characters among letters, digits, underscore and
    dash. *)
Definition isToken (n : nat) (s : string) : Prop :=
  String.length s = n /\ allChars Regex.word_dash s = true.

(** A sample: the hexadecimal MD5 digest of a common password. *)
Definition sampleDigest : string := "5f4dcc3b5aa765d61d8327deb882cf99".

(** The fourth credential pattern, the one for hardcoded passwords. *)
Definition passwordPattern : App.CredentialPattern :=
  nth 3 App.credentialPatterns
      (App.mkCredentialPattern Regex.Eps EmptyString Types.low EmptyString
                               EmptyString).

(** A page that assigns the digest to a password field. *)
Definition pageWithDigest : string := "password = '" ++ sampleDigest ++ "'".

End Tokens.

(* ================================================================== *)
(** ** The version-database and configuration passes of the detector *)
(* ================================================================== *)

Module Detector.
Import JS Regex.

(** An entry of [vulnerabilityDatabase]. *)
Record DatabaseEntry := mkDatabaseEntry {
  versions : option (list string);
  db_vulnerability : string;
  db_severity : Types.Severity;
  db_patterns : option (list re);
  cveId : string;
  db_recommendation : string;
  exploitation_details : string
}.

(** [vulnerabilityDatabase], in order. *)
Definition vulnerabilityDatabase : list (string * DatabaseEntry) :=
  [
  ("jQuery",
   {| versions := Some ["1."; "2."; "3.0."; "3.1."; "3.2."; "3.3."; "3.4."];
      db_vulnerability := "jQuery XSS vulnerabilities and prototype pollution (CVE-2020-11022, CVE-2020-11023)";
      db_severity := Types.high;
      db_patterns := None;
      cveId := "CVE-2020-11022, CVE-2020-11023";
      db_recommendation := "Actualizar a jQuery 3.5.1+ con patch de seguridad. Implementar sanitización de inputs y usar .text() en lugar de .html()";
      exploitation_details := "Permite ejecución de código JavaScript arbitrario a través de manipulación de DOM, prototype pollution y bypass de sanitización" |});
  ("React",
   {| versions := Some ["15."; "16."; "17.0."; "17.1."; "17.2."];
      db_vulnerability := "XSS vulnerability via dangerouslySetInnerHTML and URL parsing (CVE-2019-7580)";
      db_severity := Types.high;
      db_patterns := None;
      cveId := "CVE-2019-7580";
      db_recommendation := "Actualizar a React 18+ inmediatamente. Eliminar dangerouslySetInnerHTML. Implementar sanitización con sanitize-html o DOMPurify";
      exploitation_details := "Permite inyección de scripts maliciosos a través de contenido HTML no sanitizado en componentes React, bypass de virtual DOM" |});
  ("WordPress",
   {| versions := Some ["4."; "5.0."; "5.1."; "5.2."; "5.3."; "5.4."; "5.5."; "5.6."; "5.7."; "5.8."; "5.9."; "6.0."; "6.1."; "6.2."; "6.3."];
      db_vulnerability := "WordPress XSS, SQL Injection, RCE y subida de archivos maliciosos (Multiple CVEs)";
      db_severity := Types.critical;
      db_patterns := None;
      cveId := "CVE-2022-39986, CVE-2023-39952, CVE-2023-2745";
      db_recommendation := "ACTUALIZAR WordPress a 6.4+ INMEDIATAMENTE. Aplicar todos los security patches críticos. Instalar plugins de seguridad como Wordfence";
      exploitation_details := "Vulnerabilidades críticas que permiten ejecución remota de código completa, inyección SQL sin autenticación, escalación de privilegios y bypass de autenticación" |});
  ("PHP",
   {| versions := Some ["5."; "7.0."; "7.1."; "7.2."; "7.3."; "7.4."; "8.0."; "8.1."; "8.2."];
      db_vulnerability := "PHP múltiples vulnerabilidades RCE, inclusión de archivos y bypass de restricciones (CVE-2023-3247)";
      db_severity := Types.critical;
      db_patterns := None;
      cveId := "CVE-2023-3247, CVE-2023-6647, CVE-2023-3824";
      db_recommendation := "Actualizar PHP a 8.3+ INMEDIATAMENTE. Deshabilitar funciones peligrosas (eval, exec, shell_exec, file_get_contents remotos)";
      exploitation_details := "Permite inclusión de archivos remotos, ejecución de comandos del sistema sin restricciones, bypass de open_basedir y escalación completa del sistema" |});
  ("Angular",
   {| versions := Some ["1."; "2."; "4."; "5."; "6."; "7."; "8."; "9."; "10."; "11."; "12."; "13."; "14."; "15."; "16."];
      db_vulnerability := "Angular XSS vulnerability in template parsing y dependency injection (CVE-2020-5216)";
      db_severity := Types.high;
      db_patterns := None;
      cveId := "CVE-2020-5216, CVE-2022-23042";
      db_recommendation := "Actualizar Angular a 17+ (LTS). Implementar sanitización de templates con DomSanitizerstrict";
      exploitation_details := "Permite ejecución de scripts maliciosos a través de templates Angular con contenido no sanitizado, bypass de sanitización" |});
  ("Vue.js",
   {| versions := Some ["2.0."; "2.1."; "2.2."; "2.3."; "2.4."; "2.5."; "2.6."; "3.0."; "3.1."; "3.2."; "3.3."];
      db_vulnerability := "XSS vulnerability via v-html directive y template injection (CVE-2023-2649)";
      db_severity := Types.high;
      db_patterns := None;
      cveId := "CVE-2023-2649, CVE-2023-4147";
      db_recommendation := "Actualizar Vue.js a 3.4+ (última versión estable). Eliminar v-html, implementar sanitización rigurosa";
      exploitation_details := "Permite inyección de código malicioso a través de la directiva v-html con contenido no filtrado, bypass de reactivity" |});
  ("Bootstrap",
   {| versions := Some ["3."; "4."; "5.0."; "5.1."; "5.2."; "5.3."];
      db_vulnerability := "Bootstrap XSS vulnerability in tooltip/popover y data attributes (CVE-2019-8331)";
      db_severity := Types.medium;
      db_patterns := None;
      cveId := "CVE-2019-8331";
      db_recommendation := "Actualizar Bootstrap a 5.3+ con último patch. Validar contenido antes de mostrar en tooltips/popovers";
      exploitation_details := "Permite ejecución de scripts a través de atributos data en elementos de tooltip y popover, manipulación de eventos" |});
  ("jQuery UI",
   {| versions := Some ["1.10."; "1.11."; "1.12."; "1.13."];
      db_vulnerability := "jQuery UI XSS vulnerability in removeClass function y event handling";
      db_severity := Types.high;
      db_patterns := None;
      cveId := "No CVE específico reportado";
      db_recommendation := "Actualizar jQuery UI a 1.13+ con security patches. Evitar manipulación directa de clases CSS dinámicas";
      exploitation_details := "Permite inyección de código malicioso a través de manipulación de clases CSS dinámicas y event handlers inseguros" |});
  ("Moment.js",
   {| versions := Some ["2.22."; "2.23."; "2.24."; "2.25."; "2.26."; "2.27."; "2.28."];
      db_vulnerability := "Moment.js path traversal vulnerability y ReDoS (CVE-2022-24729)";
      db_severity := Types.high;
      db_patterns := None;
      cveId := "CVE-2022-24729";
      db_recommendation := "MIGRAR INMEDIATAMENTE a Day.js, date-fns o Luxon. Moment.js está deprecado. Si se mantiene, validar entradas de fecha rigurosamente";
      exploitation_details := "Permite traversal de directorios, acceso a archivos del sistema y ataques de ReDoS a través de formato de fechas malicioso" |});
  ("Lodash",
   {| versions := Some ["4.17.0"; "4.17.1"; "4.17.2"; "4.17.3"; "4.17.4"; "4.17.5"; "4.17.6"; "4.17.7"; "4.17.8"; "4.17.9"; "4.17.10"; "4.17.11"];
      db_vulnerability := "Lodash prototype pollution vulnerability y ReDoS (CVE-2019-10744)";
      db_severity := Types.critical;
      db_patterns := None;
      cveId := "CVE-2019-10744";
      db_recommendation := "ACTUALIZAR a Lodash 4.17.21+ o MIGRAR a alternativas como Ramda, Rambda o Lodash-es";
      exploitation_details := "Permite contaminación completa del prototipo de objetos JavaScript, llevando a RCE, bypass de autenticación y escalación total" |});
  ("Express",
   {| versions := Some ["4.0."; "4.1."; "4.2."; "4.3."; "4.4."; "4.5."; "4.6."; "4.7."; "4.8."; "4.9."];
      db_vulnerability := "Express framework XSS, open redirect y header injection vulnerabilities";
      db_severity := Types.medium;
      db_patterns := None;
      cveId := "No CVE específico pero múltiples vulnerabilidades reportadas";
      db_recommendation := "Actualizar Express a 4.19+ (última versión). Implementar middleware de seguridad (helmet, cors)";
      exploitation_details := "Permite redirección abierta, ataques XSS a través de headers malformados y bypass de políticas de seguridad" |});
  ("Webpack",
   {| versions := Some ["1."; "2."; "3."; "4."; "5.0."; "5.1."; "5.2."; "5.3."];
      db_vulnerability := "Webpack module enumeration y information disclosure vulnerabilities";
      db_severity := Types.medium;
      db_patterns := None;
      cveId := "No CVE específico pero exposición de estructura interna";
      db_recommendation := "Configurar webpack para producción sin source maps, obfuscación de nombres de módulos";
      exploitation_details := "Exposición de estructura de la aplicación, nombres de módulos y dependencias, facilitando reconocimiento de atacantes" |}) ].

(** The body of [technologies.forEach]: the findings one technology
    pushes on [vulnerable].  On an entry that is a plain string,
    [tech.name] is undefined and the lookup finds nothing. *)
Definition detectVulnerableVersion (tech : Types.TechEntry)
    : list Types.VulnerableTechnology :=
  match tech with
  | Types.TechString _ => []
  | Types.TechObject t =>
      match Integrator.table_get vulnerabilityDatabase (Types.tech_name t) with
      | None => []
      | Some vuln =>
          if truthy (Types.tech_version t) then
            match Types.tech_version t with
            | None => []
            | Some version =>
                let isVulnerable := false in
                let isVulnerable :=
                  match versions vuln with
                  | Some vs =>
                      some (fun vulnerableVersion =>
                              startsWith version vulnerableVersion) vs
                  | None => isVulnerable
                  end in
                let isVulnerable :=
                  match db_patterns vuln with
                  | Some ps =>
                      if negb isVulnerable
                      then some (fun pattern => test false pattern version) ps
                      else isVulnerable
                  | None => isVulnerable
                  end in
                if isVulnerable then
                  [ {| Types.name := Types.tech_name t;
                       Types.version := version;
                       Types.vulnerability := db_vulnerability vuln;
                       Types.severity := db_severity vuln;
                       Types.lineNumbers := Some [];
                       Types.recommendation := Some (db_recommendation vuln);
                       Types.context := None |} ]
                else []
            end
          else []
      end
  end.

(** The version pass of [detectVulnerableTechnologies]. *)
Definition detectVulnerableVersions (technologies : list Types.TechEntry)
    : list Types.VulnerableTechnology :=
  flat_map detectVulnerableVersion technologies.

Record ConfigPattern := mkConfigPattern {
  config_pattern : re;                (* all carry the flags [gi] *)
  config_name : string;
  config_version : string;
  config_vulnerability : string;
  config_severity : Types.Severity;
  config_recommendation : string
}.

(** [configPatterns], in order. *)
Definition configPatterns : list ConfigPattern :=
  [ (* /debug\s*=\s*true/gi *)
    mkConfigPattern
      (seq [lit "debug"; Star (Cls false space); chr "=";
            Star (Cls false space); lit "true"])
      "Debug Configuration" "Enabled"
      "Debug mode enabled in production environment"
      Types.medium
      "Deshabilitar debug en producción, usar variables de entorno por ambiente";
    (* /console\.(log|error|warn|info|debug)/gi *)
    mkConfigPattern
      (seq [lit "console."; Grp (alts [lit "log"; lit "error"; lit "warn";
                                       lit "info"; lit "debug"])])
      "Console Logging" "Present"
      "Console logging in production code exposes information"
      Types.medium
      "Implementar logging estructurado con niveles, remover console logs en producción";
    (* /development\s*=\s*true/gi *)
    mkConfigPattern
      (seq [lit "development"; Star (Cls false space); chr "=";
            Star (Cls false space); lit "true"])
      "Development Mode" "Enabled"
      "Development mode enabled in production"
      Types.medium
      "Deshabilitar development mode en producción, usar configuración por ambiente";
    (* /alloworigin\s*=\s*<Q>\*<Q>/gi *)
    mkConfigPattern
      (seq [lit "alloworigin"; Star (Cls false space); chr "=";
            Star (Cls false space); Cls false quote; chr "*"; Cls false quote])
      "CORS Configuration" "Overly Permissive"
      "CORS allows all origins (*) exposing to cross-origin attacks"
      Types.high
      "Restringir CORS a dominios específicos necesarios" ].

(** The body of [configPatterns.forEach]. *)
Definition processConfigPattern (html : string) (cp : ConfigPattern)
    : list Types.VulnerableTechnology :=
  if test true (config_pattern cp) html then
    [ {| Types.name := config_name cp;
         Types.version := config_version cp;
         Types.vulnerability := config_vulnerability cp;
         Types.severity := config_severity cp;
         Types.lineNumbers := None;
         Types.recommendation := Some (config_recommendation cp);
         Types.context := None |} ]
  else [].

(** The configuration pass of [detectVulnerableTechnologies]. *)
Definition scanConfiguration (html : string) : list Types.VulnerableTechnology :=
  flat_map (processConfigPattern html) configPatterns.

(** Sample technologies. *)
Definition lodashFixed : Types.Technology :=
  {| Types.tech_name := "Lodash";
     Types.tech_version := Some "4.17.21";
     Types.currentVersion := None |}.

End Detector.

(* ================================================================== *)
(** ** The analysis of the response headers *)
(* ================================================================== *)

Module HeaderAnalysis.
Import JS Regex.

(** The response headers, through their [get] method: the value of a
    header, or [null]. *)
Definition Headers := string -> optstring.

(** [v || fallback] on [string | null]. *)
Definition or_text (v : optstring) (fallback : string) : string :=
  match v with
  | Some s => if truthy v then s else fallback
  | None => fallback
  end.

(** [parseInt] on a string of decimal digits (the only strings
    [analyzeSecurityHeaders] passes to it): its decimal value.  The value
    is exact where the code's is, up to 2^53; beyond, the code gets the
    double that approximates the integer, and every comparison with a
    smaller threshold, such as the year of [maxAge >= 31536000], is the
    same on both. *)
Definition digit_value (c : ascii) : Z := Z.of_N (N_of_ascii c) - 48.

Definition parseInt (s : string) : Z :=
  (fix go (acc : Z) (s : string) : Z :=
     match s with
     | EmptyString => acc
     | String c s' => go (10 * acc + digit_value c) s'
     end) 0 s.

(** [parseInt(hsts.match(/max-age=(\d+)/)?.[1] || '0')] *)
Definition maxAgeOf (hsts : string) : Z :=
  parseInt
    (or_text
       (match exec false (seq [lit "max-age="; Grp (plus (Cls false digit))]) hsts with
        | Some res => m_group1 res
        | None => None
        end)
       "0").

Record Analysis := mkAnalysis {
  summary : Types.SecurityHeaders;    (* csp, hsts, xss, contentType, detailed *)
  hstsMaxAge : Z;                     (* detailed.hsts.maxAge *)
  serverExposed : bool;               (* detailed.infoDisclosure *)
  poweredByExposed : bool
}.

(** [v?.toLowerCase() === text] *)
Definition lower_is (v : optstring) (text : string) : bool :=
  match v with
  | Some s => String.eqb (toLowerCase s) text
  | None => false
  end.

(** [analyzeSecurityHeaders] *)
Definition analyzeSecurityHeaders (headers : Headers) : Analysis :=
  let csp := headers "content-security-policy" in
  let hsts := headers "strict-transport-security" in
  let xssProtection := headers "x-xss-protection" in
  let contentType := headers "x-content-type-options" in
  let referrerPolicy := headers "referrer-policy" in
  let permissionsPolicy := headers "permissions-policy" in
  let xFrameOptions := headers "x-frame-options" in
  let serverHeader := headers "server" in
  let poweredBy := headers "x-powered-by" in
  let cspValid :=
    if truthy csp then
      let cspParts := toLowerCase (or_text csp EmptyString) in
      includes cspParts "default-src"
      && includes cspParts "script-src"
      && (Bool.eqb (includes cspParts "unsafe-inline") false
          || includes cspParts "nonce-" || includes cspParts "sha256-")
    else false in
  let hstsValid :=
    if truthy hsts then
      includes (or_text hsts EmptyString) "max-age="
      && (maxAgeOf (or_text hsts EmptyString) >=? 31536000)
    else false in
  let xssValid :=
    if truthy xssProtection then lower_is xssProtection "1; mode=block"
    else if truthy csp then
      includes (toLowerCase (or_text csp EmptyString)) "object-src"
      && includes (toLowerCase (or_text csp EmptyString)) "script-src"
    else false in
  let contentTypeValid := lower_is contentType "nosniff" in
  let referrerPolicyValid :=
    if truthy referrerPolicy then
      some (fun policy =>
              includes (toLowerCase (or_text referrerPolicy EmptyString)) policy)
           ["no-referrer"; "strict-origin-when-cross-origin";
            "no-referrer-when-downgrade"]
    else false in
  let frameOptionsValid :=
    if truthy xFrameOptions then
      some (fun option =>
              includes (toLowerCase (or_text xFrameOptions EmptyString)) option)
           ["deny"; "sameorigin"; "allow-from"]
    else false in
  let serverExposed :=
    if truthy serverHeader then
      some (fun pattern => test true pattern (or_text serverHeader EmptyString))
           [lit "apache"; lit "nginx"; lit "iis"; lit "lighttpd"; lit "tomcat"]
    else false in
  let poweredByExposed :=
    if truthy poweredBy then
      some (fun pattern => test true pattern (or_text poweredBy EmptyString))
           [lit "express"; lit "php"; lit "laravel"; lit "django"; lit "rails"]
    else false in
  {| summary :=
       {| Types.csp := cspValid;
          Types.hsts := hstsValid;
          Types.xss := xssValid;
          Types.contentType := contentTypeValid;
          Types.detailed :=
            Some {| Types.det_csp :=
                      {| Types.dh_present := truthy csp;
                         Types.dh_valid := cspValid;
                         Types.dh_content := or_text csp "No presente" |};
                    Types.det_hsts :=
                      {| Types.dh_present := truthy hsts;
                         Types.dh_valid := hstsValid;
                         Types.dh_content := or_text hsts "No presente" |};
                    Types.det_xssProtection :=
                      {| Types.dh_present := truthy xssProtection;
                         Types.dh_valid := xssValid;
                         Types.dh_content := or_text xssProtection "No presente" |};
                    Types.det_referrerPolicy :=
                      {| Types.dh_present := truthy referrerPolicy;
                         Types.dh_valid := referrerPolicyValid;
                         Types.dh_content := or_text referrerPolicy "No presente" |};
                    Types.det_frameOptions :=
                      {| Types.dh_present := truthy xFrameOptions;
                         Types.dh_valid := frameOptionsValid;
                         Types.dh_content := or_text xFrameOptions "No presente" |} |} |};
     hstsMaxAge := if truthy hsts then maxAgeOf (or_text hsts EmptyString) else 0;
     serverExposed := serverExposed;
     poweredByExposed := poweredByExposed |}.

(** The value the scorer is to see for a header: the header itself when
    it is present, nothing otherwise. *)
Definition presentValue (v : optstring) : optstring :=
  if truthy v then v else None.

(** A sample response: a full HSTS policy and nothing else. *)
Definition hstsOnly : Headers :=
  fun name =>
    if String.eqb name "strict-transport-security"
    then Some "max-age=31536000; includeSubDomains; preload"
    else None.

End HeaderAnalysis.

(* ================================================================== *)
(** ** Text helpers, sidebar titles and robots.txt *)
(* ================================================================== *)

Module Text.
Import JS.

(** [s.split(c)] for a one-character separator. *)
Fixpoint split_aux (sep : ascii) (cur : string) (s : string) : list string :=
  match s with
  | EmptyString => [cur]
  | String c s' =>
      if Ascii.eqb c sep
      then cur :: split_aux sep EmptyString s'
      else split_aux sep (cur ++ String c EmptyString) s'
  end.

Definition split_on (sep : ascii) (s : string) : list string :=
  split_aux sep EmptyString s.

(** [String.prototype.trim] on ASCII white space. *)
Fixpoint trimStart (s : string) : string :=
  match s with
  | EmptyString => EmptyString
  | String c s' => if Regex.space c then trimStart s' else s
  end.

Fixpoint trimEnd (s : string) : string :=
  match s with
  | EmptyString => EmptyString
  | String c s' =>
      match trimEnd s' with
      | EmptyString => if Regex.space c then EmptyString else String c EmptyString
      | t => String c t
      end
  end.

Definition trim (s : string) : string := trimEnd (trimStart s).

Definition newline : string := String "010" EmptyString.

(** [s] occurs in [t]. *)
Definition occursIn (s t : string) : Prop :=
  exists a b, t = a ++ s ++ b.

(** No character of [s] is the separator [c]. *)
Definition sepFree (c : ascii) (s : string) : bool :=
  Tokens.allChars (fun x => negb (Ascii.eqb x c)) s.

(** The lines of a text, each followed by a line feed. *)
Fixpoint unlines (lines : list string) : string :=
  match lines with
  | [] => EmptyString
  | line :: rest => line ++ newline ++ unlines rest
  end.

End Text.

Module Titles.
Import JS Text.

(** [truncateTitle]: the first three space-separated words. *)
Definition truncateTitle (title : string) : string :=
  join " " (firstn 3 (split_on " " title)).

End Titles.

Module Robots.
Import JS Text.

(** The loop of [extractUserAgentSection]; the state is
    [(inTargetSection, sectionContent)] and [break] returns the content
    reached. *)
Fixpoint sectionLoop (userAgent : string) (lines : list string)
    (inTargetSection : bool) (sectionContent : string) : string :=
  match lines with
  | [] => sectionContent
  | line :: rest =>
      let lowerLine := trim (toLowerCase line) in
      if startsWith lowerLine "user-agent:" then
        if includes lowerLine (toLowerCase userAgent) || includes lowerLine "*" then
          sectionLoop userAgent rest true (line ++ newline)
        else if inTargetSection then sectionContent
        else sectionLoop userAgent rest inTargetSection sectionContent
      else if inTargetSection then
        let sectionContent := sectionContent ++ line ++ newline in
        if startsWith lowerLine "user-agent:" then sectionContent
        else sectionLoop userAgent rest inTargetSection sectionContent
      else sectionLoop userAgent rest inTargetSection sectionContent
  end.

(** [extractUserAgentSection] *)
Definition extractUserAgentSection (robotsText userAgent : string) : optstring :=
  let lines := split_lines robotsText in
  let sectionContent := sectionLoop userAgent lines false EmptyString in
  if truthy (Some (trim sectionContent)) then Some (trim sectionContent) else None.

(** What the request for robots.txt gives: an exception (bad URL, network
    failure, unreadable body) or a response with its [ok] flag and its
    text. *)
Inductive FetchOutcome :=
| FetchFails
| Response (ok : bool) (text : string).

(** [validateRobotsTxt], as a function of the outcome of the request. *)
Definition validateRobotsTxt (outcome : FetchOutcome) : bool :=
  match outcome with
  | FetchFails => true
  | Response ok robotsText =>
      if negb ok then true
      else
        let userAgent := "ScrapiiBot/2.0" in
        let lowerText := toLowerCase robotsText in
        let hasGeneralDisallow := includes lowerText "disallow: /" in
        let hasSpecificUserAgent :=
          includes lowerText ("user-agent: " ++ toLowerCase userAgent) in
        let specific :=
          if hasSpecificUserAgent
          then extractUserAgentSection robotsText userAgent
          else None in
        match specific with
        | Some userAgentSection => negb (includes userAgentSection "disallow: /")
        | None =>
            let hasWildcardUserAgent := includes lowerText "user-agent: *" in
            if hasWildcardUserAgent && hasGeneralDisallow then false else true
        end
  end.

(** A robots.txt that bans the scraper by name, in the usual spelling. *)
Definition banByName : string :=
  "User-agent: ScrapiiBot/2.0" ++ newline ++ "Disallow: /".

(** The same with a wildcard section that bans everyone. *)
Definition banEveryone : string :=
  "User-agent: *" ++ newline ++ "Disallow: /" ++ newline ++ banByName.

End Robots.

(* ================================================================== *)
(** ** utils/security_scanner.ts *)
(* ================================================================== *)

Module Scanner.
Import JS Regex Text.

(** The double quote character. *)
Definition dq : string := String "034" EmptyString.

(** A regular-expression literal: its source text and its flags. *)
Record RegexLiteral := mkRegexLiteral {
  source : string;
  flags : string
}.

Record VulnerabilityPattern := mkVulnerabilityPattern {
  pattern_id : string;
  pattern_name : string;
  pattern_severity : string;
  category : string;
  patterns : list RegexLiteral;
  contexts : list string;
  exclusions : list RegexLiteral;
  pattern_confidence : float
}.

Record FoundVulnerability := mkFoundVulnerability {
  id : string;
  name : string;
  severity : string;
  line : nat;
  context : string;
  snippet : string;
  confidence : float;
  isFalsePositive : bool;
  reason : string
}.

(** The [patterns] table of [EnhancedSecurityScanner], in order. *)
Definition scannerPatterns : list VulnerabilityPattern :=
[ {| pattern_id := "HARDCODED_API_KEY";
   pattern_name := "Hardcoded API Key";
   pattern_severity := "CRITICAL";
   category := "CREDENTIALS";
   patterns :=
     [ mkRegexLiteral ("[" ++ dq ++ "'](?:sk_live_|pk_live_)[\w-]{20,}[" ++ dq ++ "']") "gi";
      mkRegexLiteral ("API[_-]?KEY[" ++ dq ++ "']?\s*[:=]\s*[" ++ dq ++ "'][^" ++ dq ++ "']{35,}[" ++ dq ++ "']") "gi" ];
   contexts := ["variable"; "object"; "assignment"; "export"];
   exclusions :=
     [ mkRegexLiteral "\/\/" EmptyString;
      mkRegexLiteral "placeholder" "i";
      mkRegexLiteral "example" "i";
      mkRegexLiteral "sample" "i";
      mkRegexLiteral "demo" "i";
      mkRegexLiteral "test" "i";
      mkRegexLiteral "your_api_key" "i";
      mkRegexLiteral "replace_with" "i";
      mkRegexLiteral "TODO|FIXME" "i";
      mkRegexLiteral (dq ++ "[A-Za-z0-9_-]{10,}" ++ dq ++ ":\s*" ++ dq ++ "[A-Za-z0-9_-]{10,}" ++ dq) EmptyString ];
   pattern_confidence := 0.98%float |};
{| pattern_id := "XSS_INNERHTML";
   pattern_name := "DOM XSS via innerHTML";
   pattern_severity := "HIGH";
   category := "XSS";
   patterns :=
     [ mkRegexLiteral "innerHTML\s*=\s*\w+[.\w\[\]]*" "gi";
      mkRegexLiteral "\.innerHTML\s*=\s*\w+[.\w\[\]]*" "gi" ];
   contexts := ["assignment"; "expression"];
   exclusions :=
     [ mkRegexLiteral "\/\/" EmptyString;
      mkRegexLiteral "template|template literal" "i";
      mkRegexLiteral "safe|sanitized|trusted" "i";
      mkRegexLiteral ("innerHTML\s*=\s*[" ++ dq ++ "'][^" ++ dq ++ "']*[" ++ dq ++ "']") "i";
      mkRegexLiteral "innerHTML\s*=\s*`[^`]*`" "i";
      mkRegexLiteral "innerHTML\s*=\s*HTML\." "i";
      mkRegexLiteral "innerHTML\s*=\s*escape\(" "i" ];
   pattern_confidence := 0.90%float |};
{| pattern_id := "DOCUMENT_WRITE";
   pattern_name := "Unsafe document.write";
   pattern_severity := "HIGH";
   category := "XSS";
   patterns :=
     [ mkRegexLiteral "document\.write\s*\(" "gi" ];
   contexts := ["statement"];
   exclusions :=
     [];
   pattern_confidence := 0.80%float |};
{| pattern_id := "CONSOLE_LOG";
   pattern_name := "Information Disclosure via Console";
   pattern_severity := "MEDIUM";
   category := "INFO_LEAK";
   patterns :=
     [ mkRegexLiteral "console\.(log|warn|error|info|debug)\s*\(" "gi" ];
   contexts := ["statement"];
   exclusions :=
     [ mkRegexLiteral "\/\/" EmptyString ];
   pattern_confidence := 0.60%float |};
{| pattern_id := "UNSAFE_JSON_PARSE";
   pattern_name := "Unsafe JSON.parse";
   pattern_severity := "LOW";
   category := "INJECTION";
   patterns :=
     [ mkRegexLiteral "JSON\.parse\s*\(" "gi" ];
   contexts := ["expression"];
   exclusions :=
     [];
   pattern_confidence := 0.50%float |};
{| pattern_id := "EVAL_DANGEROUS";
   pattern_name := "Code Injection Risk";
   pattern_severity := "HIGH";
   category := "INJECTION";
   patterns :=
     [ mkRegexLiteral "\beval\s*\(" "gi";
      mkRegexLiteral "\bnew\s+Function\s*\(" "gi";
      mkRegexLiteral "\bsetTimeout\s*\(" "gi";
      mkRegexLiteral "\bsetInterval\s*\(" "gi" ];
   contexts := ["expression"];
   exclusions :=
     [];
   pattern_confidence := 0.90%float |} ].

(** The lines [analyzeContext] keeps: [lines.slice(start, end)] with
    [start = max(0, lineNumber - 3)] and
    [end = min(lines.length, lineNumber + 3)]. *)
Definition contextLines (content : string) (lineNumber : nat) : list string :=
  let lines := split_lines content in
  let start := (lineNumber - 3)%nat in
  let end_ := Nat.min (List.length lines) (lineNumber + 3) in
  firstn (end_ - start) (skipn start lines).

(** [analyzeContext] (its third argument is not used). *)
Definition analyzeContext (content : string) (lineNumber : nat) : string :=
  join newline (contextLines content lineNumber).

Definition backtick (c : ascii) : bool := Ascii.eqb c "096".
Definition word (c : ascii) : bool := alnum c || Ascii.eqb c "_".
Definition closing_angle (c : ascii) : bool := Ascii.eqb c ">".

(** The tail [\s*;?$] of the safe innerHTML patterns. *)
Definition statement_end : re :=
  seq [Star (Cls false space); opt (chr ";"); Eos].

(** The head [innerHTML\s*=\s*] of the safe innerHTML patterns. *)
Definition innerHTML_assign : re :=
  seq [lit "innerHTML"; Star (Cls false space); chr "="; Star (Cls false space)].

(** [isSafeInnerHTML] *)
Definition isSafeInnerHTML (context line : string) : bool :=
  let trimmedLine := trim line in
  let safePatterns :=
    [ (* /innerHTML\s*=\s*<Q><^Q>*<Q>\s*;?$/ *)
      seq [innerHTML_assign; Cls false quote; Star (Cls true quote);
           Cls false quote; statement_end];
      (* /innerHTML\s*=\s*`<[^>]*>`\s*;?$/ *)
      seq [innerHTML_assign; Cls false backtick; chr "<";
           Star (Cls true closing_angle); chr ">"; Cls false backtick;
           statement_end];
      (* /innerHTML\s*=\s*`[^`]*`\s*;?$/ *)
      seq [innerHTML_assign; Cls false backtick; Star (Cls true backtick);
           Cls false backtick; statement_end] ] in
  (* /(\$|\{|\w+\s*\+|window\.|document\.)/i *)
  let hasUserInput :=
    test true
      (Grp (alts [chr "$"; chr "{";
                  seq [plus (Cls false word); Star (Cls false space); chr "+"];
                  lit "window."; lit "document."]))
      trimmedLine in
  if negb hasUserInput && some (fun pattern => test false pattern trimmedLine) safePatterns
  then true
  else
    some (fun ctxLine =>
            includes ctxLine "safe" || includes ctxLine "sanitized"
            || includes ctxLine "trusted" || includes ctxLine "hardcoded")
         (split_lines context).

(** [isSafeDocumentWrite] *)
Definition isSafeDocumentWrite (context : string) : bool :=
  let safeIndicators :=
    [ "googletagmanager"; "gtm.start"; "intercom"; "widget.intercom.io";
      "google"; "maps.googleapis.com"; "clarity.ms" ] in
  some (fun indicator => includes (toLowerCase context) indicator) safeIndicators.

(** [isSafeConsoleLog] *)
Definition isSafeConsoleLog (context : string) : bool :=
  if includes context "Google Maps JavaScript API" || includes context "only loads once"
  then true else false.

(** [isSafeJsonParse] *)
Definition isSafeJsonParse (context : string) : bool :=
  includes context "try" && includes context "catch".

Definition markFalsePositive (vuln : FoundVulnerability) (why : string)
    : FoundVulnerability :=
  {| id := id vuln; name := name vuln; severity := severity vuln;
     line := line vuln; context := context vuln; snippet := snippet vuln;
     confidence := confidence vuln;
     isFalsePositive := true;
     reason := why |}.

(** [calculateConfidence]: the confidence, and the finding as the call
    leaves it (the call sets [isFalsePositive] and [reason]). *)
Definition calculateConfidence (vuln : FoundVulnerability) (ctx : string)
    : FoundVulnerability * float :=
  let confidence := 0.5%float in
  let confidence :=
    if String.eqb (name vuln) "Hardcoded API Key" then 0.95%float else confidence in
  let '(vuln, confidence) :=
    if String.eqb (id vuln) "XSS_INNERHTML" then
      if isSafeInnerHTML ctx (snippet vuln)
      then (markFalsePositive vuln
              "Safe innerHTML usage (hardcoded content or sanitized data)",
            0.15%float)
      else (vuln, 0.80%float)
    else (vuln, confidence) in
  let '(vuln, confidence) :=
    if String.eqb (id vuln) "DOCUMENT_WRITE" then
      if isSafeDocumentWrite ctx
      then (markFalsePositive vuln "Vendor script or safe usage detected", 0.1%float)
      else (vuln, 0.85%float)
    else (vuln, confidence) in
  let '(vuln, confidence) :=
    if String.eqb (id vuln) "CONSOLE_LOG" then
      if isSafeConsoleLog ctx
      then (markFalsePositive vuln "Debug log or vendor script warning", 0.1%float)
      else (vuln, 0.60%float)
    else (vuln, confidence) in
  let '(vuln, confidence) :=
    if String.eqb (id vuln) "UNSAFE_JSON_PARSE" then
      if isSafeJsonParse ctx
      then (markFalsePositive vuln "Wrapped in try-catch block", 0.1%float)
      else (vuln, 0.70%float)
    else (vuln, confidence) in
  (vuln, confidence).

(** The part of the body of [scanFile] that follows the exclusions: the
    finding is built, its confidence computed and stored, and it is pushed
    on [results] when it is not a false positive and its confidence is at
    least 0.75. *)
Definition assessMatch (pattern : VulnerabilityPattern) (lineNumber : nat)
    (ctx matchedText : string) : list FoundVulnerability :=
  let vuln :=
    {| id := pattern_id pattern; name := pattern_name pattern;
       severity := pattern_severity pattern; line := lineNumber;
       context := ctx; snippet := matchedText; confidence := 0.5%float;
       isFalsePositive := false; reason := EmptyString |} in
  let '(vuln, c) := calculateConfidence vuln ctx in
  let vuln :=
    {| id := id vuln; name := name vuln; severity := severity vuln;
       line := line vuln; context := context vuln; snippet := snippet vuln;
       confidence := c;
       isFalsePositive := isFalsePositive vuln; reason := reason vuln |} in
  if negb (isFalsePositive vuln) && PrimFloat.leb 0.75%float (confidence vuln)
  then [vuln] else [].

(** The regular-expression engine of the platform, as [scanFile] uses it:
    [exec] on a global expression from a [lastIndex] gives the matched
    text and the next [lastIndex]; [test] on an expression without the
    global flag. *)
Record Engine := mkEngine {
  engine_exec : RegexLiteral -> string -> nat -> option (string * nat);
  engine_test : RegexLiteral -> string -> bool
}.

(** The flags the [RegExp] constructor accepts: each of [dgimsuvy] at
    most once, and not [u] with [v]. *)
Fixpoint charsOf (s : string) : list ascii :=
  match s with
  | EmptyString => []
  | String c s' => c :: charsOf s'
  end.

Fixpoint noRepeat (l : list ascii) : bool :=
  match l with
  | [] => true
  | c :: l' => negb (existsb (Ascii.eqb c) l') && noRepeat l'
  end.

Definition validFlags (f : string) : bool :=
  forallb (fun c => existsb (Ascii.eqb c) (charsOf "dgimsuvy")) (charsOf f)
  && noRepeat (charsOf f)
  && negb (existsb (Ascii.eqb "u") (charsOf f) && existsb (Ascii.eqb "v") (charsOf f)).

(** [new RegExp(pattern, flags)] on an existing expression. *)
Definition RegExp_new (pattern : RegexLiteral) (newFlags : string)
    : Result RegexLiteral :=
  if validFlags newFlags
  then Ok {| source := source pattern; flags := newFlags |}
  else Throw ("SyntaxError: Invalid flags supplied to RegExp constructor '"
              ++ newFlags ++ "'").

(** The [while ((match = regex.exec(line)) !== null)] loop.  The fuel
    bounds the number of rounds by the length of the line plus one, which
    suffices when every round moves [lastIndex] forward. *)
Fixpoint execLoop (engine : Engine) (pattern : VulnerabilityPattern)
    (regex : RegexLiteral) (lineNumber : nat) (ctx lineText : string)
    (fuel lastIndex : nat) : list FoundVulnerability :=
  match fuel with
  | O => []
  | S fuel' =>
      match engine_exec engine regex lineText lastIndex with
      | None => []
      | Some (matchedText, next) =>
          let isExcluded :=
            some (fun excl => engine_test engine excl matchedText
                              || engine_test engine excl lineText)
                 (exclusions pattern) in
          ((if isExcluded then []
            else assessMatch pattern lineNumber ctx matchedText)
           ++ execLoop engine pattern regex lineNumber ctx lineText fuel' next)%list
      end
  end.

(** A loop body run over a list, stopping at the first exception. *)
Fixpoint forEachResult {A B} (f : A -> Result (list B)) (l : list A)
    : Result (list B) :=
  match l with
  | [] => Ok []
  | x :: rest =>
      let* here := f x in
      let* after := forEachResult f rest in
      Ok (here ++ after)%list
  end.

(** The body of [for (const pattern of this.patterns)]. *)
Definition scanPattern (engine : Engine) (lineNumber : nat) (ctx lineText : string)
    (pattern : VulnerabilityPattern) : Result (list FoundVulnerability) :=
  match patterns pattern with
  | [] => Throw "TypeError: Cannot read properties of undefined (reading 'flags')"
  | first :: _ =>
      let* regex := RegExp_new first (flags first ++ "g") in
      Ok (execLoop engine pattern regex lineNumber ctx lineText
            (S (String.length lineText)) 0)
  end.

Fixpoint indexed {A} (i : nat) (l : list A) : list (nat * A) :=
  match l with
  | [] => []
  | x :: rest => (i, x) :: indexed (S i) rest
  end.

(** [scanFile], on the content read from the file. *)
Definition scanFile (engine : Engine) (content : string)
    : Result (list FoundVulnerability) :=
  let lines := split_lines content in
  forEachResult
    (fun '(i, lineText) =>
       let lineNumber := (i + 1)%nat in
       let ctx := analyzeContext content lineNumber in
       forEachResult (scanPattern engine lineNumber ctx lineText) scannerPatterns)
    (indexed 0 lines).

End Scanner.

(* ================================================================== *)
(** ** Grades *)
(* ================================================================== *)

Section Grades.
Import Integrator Props.

Ltac split_thresholds :=
  repeat match goal with
         | |- context [?a >=? ?b] => rewrite (Z.geb_leb a b)
         end;
  repeat match goal with
         | |- context [?a <=? ?b] => destruct (Z.leb_spec a b)
         end.

Lemma calculateGrade_by_table (s : Z) :
  calculateGrade s = gradeByTable GRADE_TABLE s.
Proof.
  unfold calculateGrade, GRADE_TABLE, gradeByTable.
  repeat rewrite Z.geb_leb. reflexivity.
Qed.

Lemma calculateGrade_in_scale (s : Z) : In (calculateGrade s) GRADES.
Proof.
  unfold calculateGrade, GRADES. split_thresholds; simpl; tauto.
Qed.

Lemma grade_scale_has_11_steps :
  List.length GRADES = 11%nat /\ NoDup GRADES /\
  map calculateGrade [49; 50; 55; 60; 65; 70; 75; 80; 85; 90; 95] = GRADES.
Proof.
  split; [reflexivity|]. split; [|reflexivity].
  unfold GRADES.
  repeat (constructor; [simpl; intuition discriminate|]).
  constructor.
Qed.

Lemma calculateGrade_rank_monotone (x y : Z) :
  y <= x -> (gradeRank (calculateGrade y) <= gradeRank (calculateGrade x))%nat.
Proof.
  intros Hxy. unfold calculateGrade.
  split_thresholds; try lia;
    apply Nat.leb_le; vm_compute; reflexivity.
Qed.

Lemma calculateGrade_ends (s : Z) :
  (calculateGrade s = "A+" <-> 95 <= s) /\ (calculateGrade s = "F" <-> s < 50).
Proof.
  unfold calculateGrade.
  split_thresholds; split; split; intros Hs;
    try reflexivity; try discriminate Hs; lia.
Qed.

(** C8: the grade is the fixed threshold table (A+ from 95, one step
    lower every five points down to D from 50, F below 50), it takes its
    values on the 11-step scale, and it is monotonic: a score at least as
    high never gets a worse grade. *)
Theorem calculateGrade_table_monotone (x y : Z) (H : y <= x) :
  calculateGrade x = gradeByTable GRADE_TABLE x /\
  (calculateGrade x = "A+" <-> 95 <= x) /\
  (calculateGrade x = "F" <-> x < 50) /\
  In (calculateGrade x) GRADES /\
  (gradeRank (calculateGrade y) <= gradeRank (calculateGrade x))%nat.
Proof.
  split; [apply calculateGrade_by_table|].
  split; [apply calculateGrade_ends|].
  split; [apply calculateGrade_ends|].
  split; [apply calculateGrade_in_scale|].
  now apply calculateGrade_rank_monotone.
Qed.

Lemma calculateGrade_table_monotone_witness :
  72 <= 91 /\
  calculateGrade 91 = "A" /\
  (gradeRank (calculateGrade 72) <= gradeRank (calculateGrade 91))%nat.
Proof.
  split; [lia|]. split; [reflexivity|].
  apply (calculateGrade_table_monotone 91 72). lia.
Defined.

(** C10: the legacy grade function of the main component and the grade
    function of the scorer return the same letter for every score. *)
Theorem getScoreGrade_eq_calculateGrade (score : Z) :
  App.getScoreGrade score = calculateGrade score.
Proof.
  unfold App.getScoreGrade, calculateGrade.
  destruct (score >=? 95); [reflexivity|].
  destruct (score >=? 90); [reflexivity|].
  destruct (score >=? 85); [reflexivity|].
  destruct (score >=? 80); [reflexivity|].
  destruct (score >=? 75); [reflexivity|].
  destruct (score >=? 70); [reflexivity|].
  destruct (score >=? 65); [reflexivity|].
  destruct (score >=? 60); [reflexivity|].
  destruct (score >=? 55); [reflexivity|].
  destruct (score >=? 50); reflexivity.
Qed.

End Grades.

(* ================================================================== *)
(** ** The vulnerability penalty and the overall score *)
(* ================================================================== *)

Section Scoring.
Import Integrator Props JS.

Lemma totalPenalty_tiers (v : VulnerabilityData) :
  totalPenalty v =
  tier (critical v) 25 3 + tier (high v) 12 5
  + tier (medium v) 5 8 + tier (low v) 2 10.
Proof.
  unfold totalPenalty, tier, VULNERABILITY_PENALTIES.
  repeat match goal with
         | |- context [?a >? 0] => rewrite (Z.gtb_ltb a 0); destruct (Z.ltb_spec 0 a)
         end; lia.
Qed.

Lemma tier_bounds (count weight cap : Z) :
  0 <= weight -> 0 <= cap -> 0 <= tier count weight cap <= weight * cap.
Proof. unfold tier. intros Hw Hc. nia. Qed.

Lemma evaluateVulnerabilities_range (v : VulnerabilityData) :
  -30 <= evaluateVulnerabilitiesRealistically v <= 0.
Proof.
  unfold evaluateVulnerabilitiesRealistically, round_int.
  rewrite totalPenalty_tiers.
  pose proof (tier_bounds (critical v) 25 3).
  pose proof (tier_bounds (high v) 12 5).
  pose proof (tier_bounds (medium v) 5 8).
  pose proof (tier_bounds (low v) 2 10).
  lia.
Qed.

Lemma round_number_id (n : number) : round_number n = n.
Proof. destruct n; reflexivity. Qed.

Lemma overall_by_baseline (hdrs : SecurityHeaders) (v : VulnerabilityData)
    (siteType : string) (ctx : option SiteContext) :
  overall (calculateRealisticScore hdrs v siteType ctx) =
  match baseline_of siteType with
  | Own b =>
      Num (clamp 0 100
             (b + score (evaluateHeadersRealistically hdrs ctx)
              + evaluateVulnerabilitiesRealistically v
              + calculateContextualBonus hdrs v ctx))
  | Inherited _ => NaN
  end.
Proof.
  unfold calculateRealisticScore. cbv zeta. cbn [overall].
  destruct (baseline_of siteType); reflexivity.
Qed.

Lemma clamp_range (lo hi x : Z) : lo <= hi -> lo <= clamp lo hi x <= hi.
Proof. unfold clamp. lia. Qed.

Lemma inherited_member_name (siteType : string) :
  existsb (String.eqb siteType) Object_prototype_members = true ->
  In siteType Object_prototype_members.
Proof.
  intros Hex. apply existsb_exists in Hex as (m & Hin & Heq).
  apply String.eqb_eq in Heq. now subst m.
Qed.

(** The baseline is a number of the table, which lies between 60 and 95,
    or the inherited member the site type names. *)
Lemma baseline_of_cases (siteType : string) :
  (exists b, baseline_of siteType = Own b /\ 60 <= b <= 95)
  \/ (baseline_of siteType = Inherited siteType
      /\ In siteType Object_prototype_members).
Proof.
  unfold baseline_of, get_property, SITE_BASELINES_DEFAULT, SITE_BASELINES, table_get.
  repeat match goal with
         | |- context [String.eqb ?a siteType] =>
             destruct (String.eqb a siteType);
             [left; eexists; split; [reflexivity | lia] | ]
         end.
  destruct (existsb (String.eqb siteType) Object_prototype_members) eqn:Hex.
  - right. split; [reflexivity | now apply inherited_member_name].
  - left. eexists. split; [reflexivity | simpl; lia].
Qed.

(** C1, at a failing input.  The site type constructor is no key of the
    baseline table, but the table, an object literal, inherits a member
    of that name: the baseline read is that function and not the default,
    the sum is no number, and the total and the overall score are NaN,
    outside [0,100]; the grade is F and the risk level Critico although
    nothing was found.  The same holds for each of the twelve inherited
    names, whatever the headers, the findings and the context.  A site
    type that names nothing gets the default baseline 80 and a clamped
    score, as intended. *)
Theorem inherited_site_type_scores_NaN :
  let r := calculateRealisticScore [] noFindings "constructor" None in
  table_get SITE_BASELINES "constructor" = None /\
  baseline (details r) = Inherited "constructor" /\
  total (details r) = NaN /\
  overall r = NaN /\
  grade r = "F" /\
  riskLevel r = "Crítico" /\
  Forall (fun member =>
            forall hdrs v ctx,
              overall (calculateRealisticScore hdrs v member ctx) = NaN)
         Object_prototype_members /\
  baseline (details (calculateRealisticScore [] noFindings "no-such-type" None))
    = Own 80 /\
  overall (calculateRealisticScore [] noFindings "no-such-type" None) = Num 100.
Proof.
  cbv zeta.
  repeat (split; [reflexivity|]).
  split; [|split; reflexivity].
  repeat constructor.
Qed.

(** C2: the vulnerability penalty is the sum of the four severity tiers,
    each counted at its weight and capped in occurrences (critical 3 x 25,
    high 5 x 12, medium 8 x 5, low 10 x 2), itself capped at 30 and
    negated; with four critical findings the critical tier contributes
    3 x 25 = 75 and not 100, the penalty is -30, and with no header at all
    the overall score stays at or above 0 (it is no number at all only
    when the site type names an inherited member of the baseline
    table). *)
Theorem evaluateVulnerabilities_capped
    (v : VulnerabilityData) (siteType : string) (ctx : option SiteContext) :
  totalPenalty v =
    tier (critical v) 25 3 + tier (high v) 12 5
    + tier (medium v) 5 8 + tier (low v) 2 10 /\
  (0 <= tier (critical v) 25 3 <= 75 /\ 0 <= tier (high v) 12 5 <= 60 /\
   0 <= tier (medium v) 5 8 <= 40 /\ 0 <= tier (low v) 2 10 <= 20) /\
  evaluateVulnerabilitiesRealistically v = - Z.min (totalPenalty v) 30 /\
  -30 <= evaluateVulnerabilitiesRealistically v <= 0 /\
  totalPenalty fourCritical = 3 * 25 /\
  evaluateVulnerabilitiesRealistically fourCritical = -30 /\
  match overall (calculateRealisticScore [] fourCritical siteType ctx) with
  | Num o => 0 <= o
  | NaN => In siteType Object_prototype_members
  end.
Proof.
  split; [apply totalPenalty_tiers|].
  split.
  { pose proof (tier_bounds (critical v) 25 3).
    pose proof (tier_bounds (high v) 12 5).
    pose proof (tier_bounds (medium v) 5 8).
    pose proof (tier_bounds (low v) 2 10).
    lia. }
  split; [reflexivity|].
  split; [apply evaluateVulnerabilities_range|].
  split; [reflexivity|].
  split; [reflexivity|].
  rewrite overall_by_baseline.
  destruct (baseline_of_cases siteType) as [(b & -> & _) | (-> & Hin)].
  - apply clamp_range. lia.
  - exact Hin.
Qed.

End Scoring.

(* ================================================================== *)
(** ** The false-positive filter *)
(* ================================================================== *)

Section Filter.
Import Integrator.

Lemma filter_keeps_kept {A} (p : A -> bool) (l : list A) :
  forall x, In x (filter p l) -> p x = true.
Proof. intros x Hx. apply filter_In in Hx. tauto. Qed.

Lemma filter_fixed_when_all_kept {A} (p : A -> bool) (l : list A) :
  (forall x, In x l -> p x = true) -> filter p l = l.
Proof.
  induction l as [|a l IH]; intros Hall; [reflexivity|].
  simpl. rewrite (Hall a (or_introl eq_refl)).
  f_equal. apply IH. intros x Hx. apply Hall. now right.
Qed.

(** The predicate at work on four findings: a vendor [document.write]
    and a guarded [JSON.parse] are dropped, [eval] and an unguarded
    [JSON.parse] are kept. *)
Lemma filterFalsePositives_sample :
  filterFalsePositives
    [ Props.finding "XSS vulnerability via document.write()" (Some "googletagmanager.com/gtm.js");
      Props.finding "Dangerous eval() function execution" None;
      Props.finding "Unsafe JSON.parse of user input" (Some "try { JSON.parse(x) } catch (e) { }");
      Props.finding "Unsafe JSON.parse of user input" None ]
  = [ Props.finding "Dangerous eval() function execution" None;
      Props.finding "Unsafe JSON.parse of user input" None ].
Proof. vm_compute. reflexivity. Qed.

(** C6: filtering false positives twice gives the same list as filtering
    once. *)
Theorem filterFalsePositives_idempotent (v : list Types.VulnerableTechnology) :
  filterFalsePositives (filterFalsePositives v) = filterFalsePositives v.
Proof.
  unfold filterFalsePositives.
  apply filter_fixed_when_all_kept.
  apply filter_keeps_kept.
Qed.

End Filter.

(* ================================================================== *)
(** ** The header evaluator *)
(* ================================================================== *)

Section Headers.
Import Integrator Props JS.

Lemma truthy_get (hdrs : SecurityHeaders) (name : string) :
  headerPresent hdrs name ->
  exists v, header_get hdrs name = Some v /\ truthy (Some v) = true.
Proof.
  unfold headerPresent. destruct (header_get hdrs name) as [v|].
  - intros Hv. now exists v.
  - discriminate.
Qed.

Lemma header_step_present (hdrs : SecurityHeaders) (ctx : option SiteContext)
    (pp mp : float) (name : string) (cfg : HeaderConfig) (v : string) :
  header_get hdrs name = Some v -> truthy (Some v) = true ->
  header_step hdrs ctx (pp, mp) (name, cfg) =
  ((pp + weight cfg * evaluateHeaderQuality name v)%float, mp).
Proof.
  intros Hget Htr. unfold header_step, or_else.
  rewrite Hget, Htr. rewrite Htr. reflexivity.
Qed.

Lemma header_step_absent (hdrs : SecurityHeaders) (ctx : option SiteContext)
    (pp mp : float) (name : string) (cfg : HeaderConfig) :
  truthy (header_get hdrs name) = false ->
  truthy (header_get hdrs (toLowerCase name)) = false ->
  header_step hdrs ctx (pp, mp) (name, cfg) =
  (pp, (mp + weight cfg * calculateMissingHeaderPenalty name (criticality cfg) ctx)%float).
Proof.
  intros H1 H2. unfold header_step, or_else. rewrite H1, H2. reflexivity.
Qed.

(** Whatever else the map holds, when no tracked header is present and
    there is no context the evaluator returns +89. *)
Lemma no_tracked_header_scores_89 (hdrs : SecurityHeaders) :
  (forall name, In name trackedHeaders -> truthy (header_get hdrs name) = false) ->
  evaluateHeadersRealistically hdrs None =
    {| present := 0; missing := 89; score := 89 |}.
Proof.
  intros Habs.
  assert (Hpts : header_points hdrs None = (0%float, 89%float)).
  { unfold header_points, HEADER_WEIGHTS. cbn [fold_left].
    repeat (rewrite header_step_absent;
            [ | apply Habs; simpl; tauto | apply Habs; simpl; tauto ]).
    vm_compute. reflexivity. }
  unfold evaluateHeadersRealistically. rewrite Hpts.
  vm_compute. reflexivity.
Qed.

Lemma default_quality (v : string) :
  truthy (Some v) = true ->
  (if truthy (Some v) then 1.0%float else 0.0%float) = 1.0%float.
Proof. intros ->. reflexivity. Qed.

Lemma header_points_all_present (hdrs : SecurityHeaders) (ctx : option SiteContext) :
  (forall name, In name trackedHeaders -> headerPresent hdrs name) ->
  exists vcsp vhsts vxfo,
    header_points hdrs ctx = (fullPresentPoints vcsp vhsts vxfo, 0%float).
Proof.
  intros Hall.
  assert (Hin : forall name, In name trackedHeaders ->
            exists v, header_get hdrs name = Some v /\ truthy (Some v) = true).
  { intros name Hname. apply truthy_get. now apply Hall. }
  destruct (Hin "content-security-policy") as (v1 & G1 & T1); [simpl; tauto|].
  destruct (Hin "strict-transport-security") as (v2 & G2 & T2); [simpl; tauto|].
  destruct (Hin "x-frame-options") as (v3 & G3 & T3); [simpl; tauto|].
  destruct (Hin "x-content-type-options") as (v4 & G4 & T4); [simpl; tauto|].
  destruct (Hin "referrer-policy") as (v5 & G5 & T5); [simpl; tauto|].
  destruct (Hin "permissions-policy") as (v6 & G6 & T6); [simpl; tauto|].
  destruct (Hin "x-xss-protection") as (v7 & G7 & T7); [simpl; tauto|].
  exists v1, v2, v3.
  unfold header_points, HEADER_WEIGHTS.
  cbn [fold_left].
  rewrite (header_step_present _ _ _ _ _ _ _ G1 T1).
  rewrite (header_step_present _ _ _ _ _ _ _ G2 T2).
  rewrite (header_step_present _ _ _ _ _ _ _ G3 T3).
  rewrite (header_step_present _ _ _ _ _ _ _ G4 T4).
  rewrite (header_step_present _ _ _ _ _ _ _ G5 T5).
  rewrite (header_step_present _ _ _ _ _ _ _ G6 T6).
  rewrite (header_step_present _ _ _ _ _ _ _ G7 T7).
  unfold fullPresentPoints.
  change (evaluateHeaderQuality "content-security-policy" v1)
    with (evaluateCSPQuality v1).
  change (evaluateHeaderQuality "strict-transport-security" v2)
    with (evaluateHSTSQuality v2).
  change (evaluateHeaderQuality "x-frame-options" v3)
    with (if includes v3 "DENY" || includes v3 "SAMEORIGIN"
          then 1.0%float else 0.7%float).
  change (evaluateHeaderQuality "x-content-type-options" v4)
    with (if truthy (Some v4) then 1.0%float else 0.0%float).
  change (evaluateHeaderQuality "referrer-policy" v5)
    with (if truthy (Some v5) then 1.0%float else 0.0%float).
  change (evaluateHeaderQuality "permissions-policy" v6)
    with (if truthy (Some v6) then 1.0%float else 0.0%float).
  change (evaluateHeaderQuality "x-xss-protection" v7)
    with (if truthy (Some v7) then 1.0%float else 0.0%float).
  rewrite T4, T5, T6, T7.
  reflexivity.
Qed.

Lemma fullPresentPoints_at_least_58 (vcsp vhsts vxfo : string) :
  58 <= Math_round (fullPresentPoints vcsp vhsts vxfo + 0)%float.
Proof.
  unfold fullPresentPoints, evaluateCSPQuality, evaluateHSTSQuality.
  cbn [fold_left].
  repeat match goal with
         | |- context [includes ?a ?b] => destruct (includes a b)
         end;
    apply Z.leb_le; vm_compute; reflexivity.
Qed.

Lemma contextual_bonus_no_findings (hdrs : SecurityHeaders) (ctx : option SiteContext) :
  3 <= calculateContextualBonus hdrs noFindings ctx <= 13.
Proof.
  unfold calculateContextualBonus, noFindings. cbn [critical high medium low].
  destruct (header_get hdrs "strict-transport-security") as [v|];
    [destruct (includes v "max-age")|];
    (destruct ctx as [c|];
     [ destruct ((ContextType_eqb (type c) blog || ContextType_eqb (type c) portfolio)
                 && negb (hasUserGeneratedContent c));
       destruct (negb (handlesFinancialData c) && negb (hasLoginSystem c)
                 && negb (allowsFileUploads c))
     | ]); simpl; lia.
Qed.

Lemma riskLevel_of_overall (hdrs : SecurityHeaders) (v : VulnerabilityData)
    (siteType : string) (ctx : option SiteContext) :
  riskLevel (calculateRealisticScore hdrs v siteType ctx) =
  riskLevelOf (overall (calculateRealisticScore hdrs v siteType ctx)) v.
Proof.
  unfold calculateRealisticScore. cbv zeta. cbn [riskLevel overall].
  now rewrite round_number_id.
Qed.

Lemma grade_of_overall (hdrs : SecurityHeaders) (v : VulnerabilityData)
    (siteType : string) (ctx : option SiteContext) :
  grade (calculateRealisticScore hdrs v siteType ctx) =
  gradeOf (overall (calculateRealisticScore hdrs v siteType ctx)).
Proof.
  unfold calculateRealisticScore. cbv zeta. cbn [grade overall].
  now rewrite round_number_id.
Qed.

Lemma all_headers_no_findings_overall (hdrs : SecurityHeaders)
    (ctx : option SiteContext) :
  (forall name, In name trackedHeaders -> headerPresent hdrs name) ->
  overall (calculateRealisticScore hdrs noFindings "enterprise-smb" ctx) = Num 100.
Proof.
  intros Hall.
  change (overall (calculateRealisticScore hdrs noFindings "enterprise-smb" ctx))
    with (Num (Z.max 0 (Z.min 100
                 (70 + score (evaluateHeadersRealistically hdrs ctx) + 0
                  + calculateContextualBonus hdrs noFindings ctx)))).
  destruct (header_points_all_present hdrs ctx Hall) as (v1 & v2 & v3 & Hpts).
  unfold evaluateHeadersRealistically. rewrite Hpts. cbn [score].
  pose proof (fullPresentPoints_at_least_58 v1 v2 v3).
  pose proof (contextual_bonus_no_findings hdrs ctx).
  f_equal. lia.
Qed.

(** The quality scores on sample values: a full HSTS policy earns the
    maximum, a bare one the base; a strict CSP is capped at the maximum. *)
Lemma quality_samples :
  evaluateHSTSQuality "max-age=31536000; includeSubDomains; preload" = 1.0%float /\
  evaluateHSTSQuality "none" = 0.3%float /\
  evaluateCSPQuality "default-src 'self'; script-src 'self'; style-src 'self'" = 1.0%float /\
  evaluateCSPQuality "img-src * 'unsafe-inline'" = 0.5%float /\
  evaluateHeaderQuality "x-frame-options" "ALLOW-FROM x" = 0.7%float.
Proof. vm_compute. repeat split. Qed.

(** C7, on the code: with no finding, the seven tracked headers present
    and the site type enterprise-smb, the overall score is 100, hence at
    least 90, and the risk level is the label the scorer uses for its
    lowest tier, the string Bajo; this holds for every context, HTTPS
    enabled or not. *)
Theorem all_headers_no_findings_low_risk (hdrs : SecurityHeaders)
    (ctx : option SiteContext)
    (H : forall name, In name trackedHeaders -> headerPresent hdrs name) :
  let r := calculateRealisticScore hdrs noFindings "enterprise-smb" ctx in
  (exists o, overall r = Num o /\ 90 <= o) /\ riskLevel r = "Bajo".
Proof.
  cbv zeta. rewrite riskLevel_of_overall.
  rewrite (all_headers_no_findings_overall hdrs ctx H).
  split; [exists 100; split; [reflexivity | lia] | reflexivity].
Qed.

Lemma allHeaders_present :
  forall name, In name trackedHeaders -> headerPresent allHeaders name.
Proof.
  intros name Hin. simpl in Hin.
  repeat (destruct Hin as [<- | Hin]; [reflexivity|]).
  contradiction.
Defined.

Lemma all_headers_no_findings_low_risk_witness :
  (forall name, In name trackedHeaders -> headerPresent allHeaders name) /\
  (exists o, overall (calculateRealisticScore allHeaders noFindings "enterprise-smb"
                        (Some httpsEnterprise)) = Num o /\ 90 <= o) /\
  riskLevel (calculateRealisticScore allHeaders noFindings "enterprise-smb"
               (Some httpsEnterprise)) = "Bajo".
Proof.
  split; [exact allHeaders_present|].
  exact (all_headers_no_findings_low_risk allHeaders (Some httpsEnterprise)
           allHeaders_present).
Defined.

(** C7 as stated fails: on that input the risk level is not the string
    Low. *)
Lemma risk_level_label_is_not_Low :
  ~ ((exists o, overall (calculateRealisticScore allHeaders noFindings "enterprise-smb"
                           (Some httpsEnterprise)) = Num o /\ 90 <= o) /\
     riskLevel (calculateRealisticScore allHeaders noFindings "enterprise-smb"
                  (Some httpsEnterprise)) = "Low").
Proof.
  intros [_ Hrisk]. vm_compute in Hrisk. discriminate Hrisk.
Qed.

(** C3, at a failing input: with no header at all and no context every
    tracked header is absent at full penalty; the evaluator reports 89
    missing points and a score of +89, where the specified score (earned
    minus penalised) is -89. *)
Theorem missing_headers_are_added_to_the_score :
  evaluateHeadersRealistically [] None =
    {| present := 0; missing := 89; score := 89 |} /\
  headerScoreAsSpecified [] None = -89 /\
  overall (calculateRealisticScore [] noFindings "enterprise-smb" None) = Num 100.
Proof. vm_compute. repeat split. Qed.

End Headers.

(* ================================================================== *)
(** ** The site classifier *)
(* ================================================================== *)

Section Classifier.
Import Integrator Props JS.

(** On entries of the declared shape, [includes] with a string argument
    never succeeds. *)
Lemma tech_includes_objects (ts : list Types.Technology) (s : string) :
  Types.tech_includes (map Types.TechObject ts) s = false.
Proof.
  unfold Types.tech_includes. induction ts as [|t ts IH]; [reflexivity|].
  simpl. exact IH.
Qed.

Lemma determineSiteType_objects_never_saas (d : Types.ScrapedData)
    (ts : list Types.Technology) :
  Types.technologies d = map Types.TechObject ts ->
  determineSiteType d <> "saas-platform".
Proof.
  intros Hts. unfold determineSiteType. rewrite Hts.
  rewrite !tech_includes_objects. cbn [orb].
  destruct (Types.ecommerce d) as [e|];
    repeat match goal with
           | |- context [if ?c then _ else _] => destruct c
           end; discriminate.
Qed.

(** When the list holds the plain string, the framework branch is taken. *)
Lemma determineSiteType_string_entry (d : Types.ScrapedData) (e : Types.EcommerceData) :
  Types.ecommerce d = Some e -> Types.totalProducts e = 0 ->
  In (Types.TechString "React") (Types.technologies d)
  \/ In (Types.TechString "Vue.js") (Types.technologies d) ->
  determineSiteType d = "saas-platform".
Proof.
  intros He Hzero Hin. unfold determineSiteType. rewrite He, Hzero. cbn [Z.gtb Z.compare].
  assert (Hinc : Types.tech_includes (Types.technologies d) "React"
                 || Types.tech_includes (Types.technologies d) "Vue.js" = true).
  { apply orb_true_iff. unfold Types.tech_includes.
    destruct Hin as [Hin | Hin]; [left | right];
      apply existsb_exists; eexists; (split; [exact Hin | reflexivity]). }
  rewrite Hinc. reflexivity.
Qed.

(** C9, at a failing input: scraped data with no product whose detected
    technologies contain React, in the shape the scraper produces (an
    object with a name), is classified enterprise-smb, not
    saas-platform. *)
Theorem determineSiteType_misses_detected_framework :
  Types.ecommerce reactPage
    = Some {| Types.paymentMethods := []; Types.totalProducts := 0 |} /\
  map Types.entry_name (Types.technologies reactPage) = [Some "React"] /\
  determineSiteType reactPage = "enterprise-smb" /\
  determineSiteType reactPage <> "saas-platform".
Proof.
  repeat split. vm_compute. discriminate.
Qed.

End Classifier.

(* ================================================================== *)
(** ** The privacy score and its fallback *)
(* ================================================================== *)

Section PrivacyScore.
Import Integrator Props JS App.

(** The primary scorer raises exactly when one of the two objects it
    dereferences is undefined. *)
Lemma primaryScore_throws_iff (data : Types.ScrapedData) :
  (exists msg, primaryScore data = Throw msg)
  <-> Types.ecommerce data = None \/ Types.securityAnalysis data = None.
Proof.
  unfold primaryScore, generateSiteContext, member_of.
  destruct (Types.ecommerce data) as [e|], (Types.securityAnalysis data) as [sa|];
    cbn [JS.bind]; split.
  - intros [msg H]. discriminate H.
  - intros [H | H]; discriminate H.
  - intros _. now right.
  - intros _. eexists. reflexivity.
  - intros _. now left.
  - intros _. eexists. reflexivity.
  - intros _. now left.
  - intros _. eexists. reflexivity.
Qed.

Lemma countSeverity_findingsOf (sev : Types.Severity)
    (l : list Types.VulnerableTechnology) :
  countSeverity sev l = findingsOf sev l.
Proof.
  unfold countSeverity. induction l as [|v l IH]; [reflexivity|].
  cbn [filter findingsOf].
  destruct (Types.Severity_eqb (Types.severity v) sev);
    [cbn [List.length]; rewrite Nat2Z.inj_succ|]; lia.
Qed.

(** The fallback score written out: base 80, the fixed header and HTTPS
    bonuses, the three capped penalties on the numbers of critical, high
    and medium findings, the floor of 65 under HTTPS and the final
    clamp. *)
Lemma fallbackScore_formula (data : Types.ScrapedData) (sa : Types.SecurityAnalysis) :
  Types.securityAnalysis data = Some sa ->
  let h := Types.securityHeaders sa in
  let https := Types.httpsEnabled (Types.sslAnalysis sa) in
  let pts (b : bool) (n : Z) := if b then n else 0 in
  let raw :=
    80 + pts (Types.csp h) 10 + pts (Types.hsts h) 8 + pts (Types.xss h) 5
    + pts (Types.contentType h) 3 + pts https 12
    - Z.min (15 * findingsOf Types.critical (Types.vulnerableTechnologies sa)) 25
    - Z.min (8 * findingsOf Types.high (Types.vulnerableTechnologies sa)) 20
    - Z.min (3 * findingsOf Types.medium (Types.vulnerableTechnologies sa)) 10 in
  fallbackScore data = Ok (Num (clamp 0 100 (if https then Z.max raw 65 else raw))).
Proof.
  intros Hsa. cbv zeta. unfold fallbackScore, member_of, clamp, round_int.
  rewrite Hsa. cbn [JS.bind]. rewrite !countSeverity_findingsOf.
  destruct (Types.csp _), (Types.hsts _), (Types.xss _), (Types.contentType _),
    (Types.httpsEnabled _); do 4 f_equal; lia.
Qed.

Lemma fallbackScore_without_analysis (data : Types.ScrapedData) :
  Types.securityAnalysis data = None ->
  fallbackScore data
  = Throw "TypeError: Cannot read properties of undefined (reading 'securityHeaders')".
Proof. intros Hsa. unfold fallbackScore. rewrite Hsa. reflexivity. Qed.

(** C4, on the code: whenever the primary scorer raises and
    [data.securityAnalysis] is defined, [calculatePrivacyScore] returns the
    result of the fallback scorer: base 80 plus the fixed header and HTTPS
    bonuses minus the capped penalties on the numbers of critical, high and
    medium findings, clamped to [0,100]; and that score is at least 65
    when HTTPS is enabled. *)
Theorem calculatePrivacyScore_falls_back (data : Types.ScrapedData)
    (sa : Types.SecurityAnalysis) (msg : string)
    (H : primaryScore data = Throw msg)
    (Hsa : Types.securityAnalysis data = Some sa) :
  calculatePrivacyScore data = fallbackScore data /\
  (let h := Types.securityHeaders sa in
   let https := Types.httpsEnabled (Types.sslAnalysis sa) in
   let pts (b : bool) (n : Z) := if b then n else 0 in
   let raw :=
     80 + pts (Types.csp h) 10 + pts (Types.hsts h) 8 + pts (Types.xss h) 5
     + pts (Types.contentType h) 3 + pts https 12
     - Z.min (15 * findingsOf Types.critical (Types.vulnerableTechnologies sa)) 25
     - Z.min (8 * findingsOf Types.high (Types.vulnerableTechnologies sa)) 20
     - Z.min (3 * findingsOf Types.medium (Types.vulnerableTechnologies sa)) 10 in
   calculatePrivacyScore data
   = Ok (Num (clamp 0 100 (if https then Z.max raw 65 else raw)))) /\
  exists s,
    calculatePrivacyScore data = Ok (Num s) /\
    0 <= s <= 100 /\
    (Types.httpsEnabled (Types.sslAnalysis sa) = true -> 65 <= s).
Proof.
  assert (Hfb : calculatePrivacyScore data = fallbackScore data).
  { unfold calculatePrivacyScore, try_catch. rewrite H. reflexivity. }
  rewrite Hfb.
  split; [reflexivity|].
  pose proof (fallbackScore_formula data sa Hsa) as Hformula. cbv zeta in Hformula.
  split; [exact Hformula|].
  eexists. split; [exact Hformula|].
  split; [apply clamp_range; lia|].
  intros Hhttps. rewrite Hhttps. unfold clamp. lia.
Qed.

Lemma calculatePrivacyScore_falls_back_witness :
  primaryScore pageWithoutEcommerce
    = Throw "TypeError: Cannot read properties of undefined (reading 'paymentMethods')" /\
  calculatePrivacyScore pageWithoutEcommerce = fallbackScore pageWithoutEcommerce /\
  exists s,
    calculatePrivacyScore pageWithoutEcommerce = Ok (Num s) /\ 65 <= s <= 100.
Proof.
  split; [reflexivity|].
  destruct (calculatePrivacyScore_falls_back pageWithoutEcommerce
              (plainSecurityAnalysis true) _ eq_refl eq_refl)
    as (Hfb & _ & s & Hs & Hrange & Hfloor).
  split; [exact Hfb|].
  exists s. split; [exact Hs|].
  specialize (Hfloor eq_refl). lia.
Defined.

(** C4 as stated fails: when [data.securityAnalysis] is undefined the
    primary scorer raises, the catch block reads
    [data.securityAnalysis.securityHeaders] and raises as well, and
    [calculatePrivacyScore] returns no score. *)
Lemma fallback_raises_without_securityAnalysis :
  ~ (forall msg,
       primaryScore pageWithoutAnalysis = Throw msg ->
       exists s,
         calculatePrivacyScore pageWithoutAnalysis = Ok (Num s) /\ 0 <= s <= 100).
Proof.
  intros Hclaim.
  destruct (Hclaim _ eq_refl) as (s & Hs & _).
  vm_compute in Hs. discriminate Hs.
Qed.

End PrivacyScore.

(* ================================================================== *)
(** ** The credential scanner *)
(* ================================================================== *)

Section Credentials.
Import Props JS Regex App.

(** What the first filter guarantees: a match that is kept has no quoted
    segment, or its first quoted segment is neither a safe pattern nor a
    legitimate service. *)
Lemma isReportedMatch_sound (m : string) :
  isReportedMatch m = true ->
  keyValueMatch m = None \/
  exists kv, keyValueMatch m = Some kv /\
             isSafeKnownPattern kv = false /\ isLegitimateService kv = false.
Proof.
  unfold isReportedMatch. destruct (keyValueMatch m) as [kv|]; [|now left].
  destruct (isSafeKnownPattern kv) eqn:Hs; [discriminate|].
  destruct (isLegitimateService kv) eqn:Hl; [discriminate|].
  intros _. right. now exists kv.
Qed.

(** The exclusion at work: the key assigned to an unquoted name is
    extracted, recognised and dropped. *)
Lemma bare_field_is_excluded :
  keyValueMatch pageBareField = Some mapsKey /\
  scanCredentials pageBareField = [].
Proof. vm_compute. split; reflexivity. Qed.

(** The same with double quotes. *)
Lemma json_field_maps_key_is_reported :
  exists f, scanCredentials pageJsonField = [f] /\
            Types.lineNumbers f = Some [1%nat] /\
            Types.severity f = Types.critical.
Proof. eexists. vm_compute. repeat split. Qed.

(** The allowlist on sample identifiers. *)
Lemma isSafeKnownPattern_samples :
  map isSafeKnownPattern
      [ mapsKey; "GTM-ABC1234"; "UA-12345-1"; "G-ABCDEFGH12"; "firebase_config";
        "eyJhbGciOi"; "hunter22"; "AIzaSy-too-short"; "GTM-abc1234" ]
  = [ true; true; true; true; true; true; false; false; false ].
Proof. vm_compute. reflexivity. Qed.

(** C5, at a failing input: the page carries a string of the shape of a
    Google Maps API key as the value of a quoted password field.  The
    password pattern matches, the extractor takes the first quoted
    segment of the match, which is the separator and not the key, the
    safe-pattern test is applied to that segment, and a HARDCODED
    CREDENTIAL finding is reported for line 1. *)
Theorem quoted_field_maps_key_is_reported :
  test false (seq [Bos; lit "AIzaSy"; rep 35 (Cls false word_dash); Eos]) mapsKey = true /\
  isSafeKnownPattern mapsKey = true /\
  match_all true (seq [lit "password"; assign_quote;
                       Grp (rep_min 6 (Cls true quote)); Cls false quote])
            pageQuotedField
    = ["password': '" ++ mapsKey ++ "'"] /\
  keyValueMatch ("password': '" ++ mapsKey ++ "'") = Some ": " /\
  scanCredentials pageQuotedField =
    [ {| Types.name := "🔑 HARDCODED CREDENTIAL";
         Types.version := "Líneas: 1";
         Types.vulnerability :=
           "Hardcoded Password detected - Contraseñas hardcodeadas exponen acceso directo a sistemas y bases de datos";
         Types.severity := Types.critical;
         Types.lineNumbers := Some [1%nat];
         Types.recommendation :=
           Some "Usar sistemas de autenticación seguros y hashing de contraseñas";
         Types.context := None |} ].
Proof. vm_compute. repeat split. Qed.

End Credentials.

(* ================================================================== *)
(** ** Baselines, risk levels and bonuses *)
(* ================================================================== *)

Section RiskAndBonus.
Import Integrator Props Ranks JS.

(** X1: what the scorer reads as the baseline of a site type: the entry
    of the baseline table when the type is one of its keys; the inherited
    member when the type names a member of [Object.prototype]; the default
    80 otherwise.  A number read as baseline lies between 60 and 95, and
    both bounds are entries of the table. *)
Theorem baseline_of_table_or_default (siteType : string) :
  baseline_of siteType =
    match table_get SITE_BASELINES siteType with
    | Some b => Own b
    | None =>
        if existsb (String.eqb siteType) Object_prototype_members
        then Inherited siteType
        else Own 80
    end /\
  match baseline_of siteType with
  | Own b => 60 <= b <= 95
  | Inherited member => member = siteType /\ In siteType Object_prototype_members
  end /\
  baseline_of "blog-influencer" = Own 60 /\
  baseline_of "financial" = Own 95 /\
  baseline_of "toString" = Inherited "toString".
Proof.
  split; [|split; [|repeat split]].
  - unfold baseline_of, get_property, SITE_BASELINES_DEFAULT, SITE_BASELINES, table_get.
    repeat match goal with
           | |- context [String.eqb ?a siteType] =>
               destruct (String.eqb a siteType); [reflexivity|]
           end.
    destruct (existsb (String.eqb siteType) Object_prototype_members); reflexivity.
  - destruct (baseline_of_cases siteType) as [(b & -> & Hb) | (-> & Hin)].
    + exact Hb.
    + split; [reflexivity | exact Hin].
Qed.

Ltac split_comparisons :=
  repeat match goal with
         | |- context [?a >=? ?b] => rewrite (Z.geb_leb a b)
         | |- context [?a >? ?b] => rewrite (Z.gtb_ltb a b)
         end;
  repeat match goal with
         | |- context [?a <=? ?b] => destruct (Z.leb_spec a b)
         | |- context [?a <? ?b] => destruct (Z.ltb_spec a b)
         end.

(** X2: the decision table of the risk level.  The label is Bajo exactly
    for a score of 85 or more with no critical finding and at most one
    high finding; it is Critico exactly for a score below 50 with at most
    two high findings; Bajo and Medio both require the absence of critical
    findings. *)
Theorem calculateRiskLevel_table (score : Z) (v : VulnerabilityData) :
  In (calculateRiskLevel score v) RISK_LEVELS /\
  String.eqb (calculateRiskLevel score v) "Bajo"
    = (85 <=? score) && (critical v <=? 0) && (high v <=? 1) /\
  String.eqb (calculateRiskLevel score v) "Medio"
    = (70 <=? score) && (critical v <=? 0)
      && negb ((85 <=? score) && (high v <=? 1)) /\
  String.eqb (calculateRiskLevel score v) "Crítico"
    = (score <? 50) && (high v <=? 2).
Proof.
  unfold calculateRiskLevel, RISK_LEVELS.
  split_comparisons; cbn; repeat split; try tauto; try lia.
Qed.

Lemma calculateRiskLevel_rank_antitone (v : VulnerabilityData) (x y : Z) :
  y <= x ->
  (riskRank (calculateRiskLevel x v) <= riskRank (calculateRiskLevel y v))%nat.
Proof.
  intros Hxy. unfold calculateRiskLevel.
  split_comparisons; cbn [negb andb orb]; try lia;
    apply Nat.leb_le; vm_compute; reflexivity.
Qed.

(** X3: for fixed findings the risk level never gets worse when the score
    rises. *)
Theorem calculateRiskLevel_monotone (v : VulnerabilityData) (x y : Z) (H : y <= x) :
  (riskRank (calculateRiskLevel x v) <= riskRank (calculateRiskLevel y v))%nat.
Proof. now apply calculateRiskLevel_rank_antitone. Qed.

Lemma calculateRiskLevel_monotone_witness :
  40 <= 90 /\
  (riskRank (calculateRiskLevel 90 noFindings)
   <= riskRank (calculateRiskLevel 40 noFindings))%nat.
Proof.
  split; [lia | apply (calculateRiskLevel_monotone noFindings 90 40); lia].
Defined.

Lemma contextual_bonus_range (hdrs : SecurityHeaders) (v : VulnerabilityData)
    (ctx : option SiteContext) :
  0 <= calculateContextualBonus hdrs v ctx <= 13.
Proof.
  unfold calculateContextualBonus.
  destruct (header_get hdrs "strict-transport-security") as [h|];
    [destruct (includes h "max-age")|];
    destruct (critical v + high v + medium v + low v =? 0);
    destruct (critical v + high v + medium v + low v <=? 2);
    (destruct ctx as [c|];
     [ destruct ((ContextType_eqb (type c) blog || ContextType_eqb (type c) portfolio)
                 && negb (hasUserGeneratedContent c));
       destruct (negb (handlesFinancialData c) && negb (hasLoginSystem c)
                 && negb (allowsFileUploads c))
     | ]); lia.
Qed.

(** X4: the contextual bonus lies between 0 and 13 for every input, and
    between 0 and 8 when no site context is given. *)
Theorem calculateContextualBonus_range (hdrs : SecurityHeaders)
    (v : VulnerabilityData) (ctx : option SiteContext) :
  0 <= calculateContextualBonus hdrs v ctx <= 13 /\
  0 <= calculateContextualBonus hdrs v None <= 8.
Proof.
  split; [apply contextual_bonus_range|].
  unfold calculateContextualBonus.
  destruct (header_get hdrs "strict-transport-security") as [h|];
    [destruct (includes h "max-age")|];
    destruct (critical v + high v + medium v + low v =? 0);
    destruct (critical v + high v + medium v + low v <=? 2); lia.
Qed.

End RiskAndBonus.

(* ================================================================== *)
(** ** The false-positive filter in the pipeline *)
(* ================================================================== *)

Section FilterPipeline.
Import Integrator Props Ranks JS Regex App.

Lemma keepFinding_reads_text_and_context (f : Types.VulnerableTechnology) :
  keepFinding f = keepFinding (finding (Types.vulnerability f) (Types.context f)).
Proof. destruct f. reflexivity. Qed.

Lemma keepFinding_final_test (f : Types.VulnerableTechnology) :
  keepFinding f = true ->
  let vulnText := toLowerCase (Types.vulnerability f) in
  (includes vulnText "google" || includes vulnText "gtm"
   || includes vulnText "tag manager" || includes vulnText "maps api"
   || includes vulnText "analytics" || includes vulnText "firebase"
   || includes vulnText "gapi") = false /\
  (includes vulnText "debug mode" || includes vulnText "development") = false.
Proof.
  unfold keepFinding. cbv zeta.
  repeat match goal with
         | |- context [if ?c then false else _] => destruct c; [discriminate|]
         end.
  intros Hkeep.
  apply andb_prop in Hkeep as [Hkeep _].
  apply andb_prop in Hkeep as [Hg Hd].
  now rewrite negb_true_iff in Hg, Hd.
Qed.

(** X5: a finding whose text mentions Google, GTM, a tag manager, the
    Maps API, analytics, Firebase, gapi, a debug mode or development is
    dropped by the filter, whatever else the text and the context say. *)
Theorem keyword_findings_are_dropped (f : Types.VulnerableTechnology)
    (kw : string) (Hkw : In kw ALWAYS_DROPPED_KEYWORDS)
    (Htext : includes (toLowerCase (Types.vulnerability f)) kw = true) :
  keepFinding f = false /\ filterFalsePositives [f] = [].
Proof.
  assert (Hdrop : keepFinding f = false).
  { destruct (keepFinding f) eqn:Hkeep; [|reflexivity].
    destruct (keepFinding_final_test f Hkeep) as [Hg Hd]. cbv zeta in Hg, Hd.
    repeat rewrite orb_false_iff in Hg. repeat rewrite orb_false_iff in Hd.
    simpl in Hkw.
    repeat (destruct Hkw as [<- | Hkw]; [intuition congruence|]).
    contradiction. }
  split; [exact Hdrop|]. unfold filterFalsePositives. simpl. now rewrite Hdrop.
Qed.

Lemma keyword_findings_are_dropped_witness :
  keepFinding (finding "Unrestricted Firebase rules detected" None) = false /\
  filterFalsePositives [finding "Unrestricted Firebase rules detected" None] = [].
Proof.
  apply (keyword_findings_are_dropped
           (finding "Unrestricted Firebase rules detected" None) "firebase").
  - simpl. tauto.
  - reflexivity.
Defined.

Lemma countSeverity_filter_le (sev : Types.Severity)
    (l : list Types.VulnerableTechnology) :
  countSeverity sev (filterFalsePositives l) <= countSeverity sev l.
Proof.
  unfold countSeverity, filterFalsePositives.
  apply inj_le.
  induction l as [|a l IH]; [simpl; lia|].
  simpl. destruct (keepFinding a); simpl;
    destruct (Types.Severity_eqb (Types.severity a) sev); simpl; lia.
Qed.

Lemma totalPenalty_monotone (v w : VulnerabilityData) :
  critical v <= critical w -> high v <= high w ->
  medium v <= medium w -> low v <= low w ->
  totalPenalty v <= totalPenalty w.
Proof.
  intros Hc Hh Hm Hl. rewrite !totalPenalty_tiers. unfold tier. lia.
Qed.

(** X6: filtering never makes the penalty harsher: each severity count of
    the filtered list is at most that of the unfiltered list, and the
    vulnerability penalty computed from the filtered counts is at least
    the one computed from the unfiltered counts. *)
Theorem filtering_never_lowers_the_penalty (l : list Types.VulnerableTechnology)
    (sev : Types.Severity) :
  countSeverity sev (filterFalsePositives l) <= countSeverity sev l /\
  evaluateVulnerabilitiesRealistically (normalizedVulnerabilities l)
  <= evaluateVulnerabilitiesRealistically
       (normalizedVulnerabilities (filterFalsePositives l)).
Proof.
  split; [apply countSeverity_filter_le|].
  unfold evaluateVulnerabilitiesRealistically, round_int.
  pose proof (totalPenalty_monotone
                (normalizedVulnerabilities (filterFalsePositives l))
                (normalizedVulnerabilities l)
                (countSeverity_filter_le Types.critical l)
                (countSeverity_filter_le Types.high l)
                (countSeverity_filter_le Types.medium l)
                (countSeverity_filter_le Types.low l)).
  lia.
Qed.

Lemma filter_credential_finding (html : string) (cp : CredentialPattern) :
  filterFalsePositives (processCredentialPattern html cp) =
  if keepFinding (finding (cp_vulnerability cp ++ " - " ++ exploitation cp) None)
  then processCredentialPattern html cp else [].
Proof.
  unfold processCredentialPattern, filterFalsePositives. cbv zeta.
  destruct (Nat.ltb 0 (List.length (match_all true (pattern cp) html)));
    [|now destruct (keepFinding _)].
  destruct (Nat.ltb 0 (List.length (filter isReportedMatch
                                      (match_all true (pattern cp) html))));
    [|now destruct (keepFinding _)].
  destruct (Nat.ltb 0 (List.length (foundLinesFrom (pattern cp) 0 (split_lines html))));
    [|now destruct (keepFinding _)].
  cbn [filter]. rewrite keepFinding_reads_text_and_context.
  cbn [Types.vulnerability Types.context].
  now destruct (keepFinding _).
Qed.

(** X7: the findings of the first two credential patterns (hardcoded API
    key and hardcoded secret key) never survive the false-positive
    filter, because their own labels mention Google; the findings of the
    other six patterns always survive it.  So on every page the filtered
    credential findings are those of the last six patterns. *)
Theorem filtered_credentials_skip_api_and_secret_keys (html : string) :
  filterFalsePositives (scanCredentials html) =
  flat_map (processCredentialPattern html) (skipn 2 credentialPatterns).
Proof.
  unfold scanCredentials, credentialPatterns, filterFalsePositives.
  cbn [flat_map skipn].
  repeat rewrite filter_app.
  repeat match goal with
         | |- context [filter keepFinding (processCredentialPattern html ?cp)] =>
             change (filter keepFinding (processCredentialPattern html cp))
               with (filterFalsePositives (processCredentialPattern html cp));
             rewrite (filter_credential_finding html cp)
         end.
  cbn [filter app].
  repeat match goal with
         | |- context [keepFinding ?f] =>
             let b := eval vm_compute in (keepFinding f) in
             replace (keepFinding f) with b by (vm_compute; reflexivity)
         end.
  cbn [app]. reflexivity.
Qed.

End FilterPipeline.

(* ================================================================== *)
(** ** The range of the header score and of the overall score *)
(* ================================================================== *)

Section HeaderScoreRange.
Import Integrator Props JS HeaderRange.

Lemma penalty_by_class (name : string) (crit : Criticality)
    (ctx : option SiteContext) :
  calculateMissingHeaderPenalty name crit ctx =
  calculateMissingHeaderPenalty name LOW (representative (classOf ctx)).
Proof.
  destruct ctx as [c|]; [|reflexivity].
  destruct c as [t ? ? ? ? ? ? ? ? ? ?]. destruct t; reflexivity.
Qed.

Lemma penalty_ignores_criticality (name : string) (c1 c2 : Criticality)
    (ctx : option SiteContext) :
  calculateMissingHeaderPenalty name c1 ctx = calculateMissingHeaderPenalty name c2 ctx.
Proof. reflexivity. Qed.

Ltac pick_member :=
  repeat first [ left; vm_compute; reflexivity | right ].

Lemma csp_quality_values (v : string) :
  In (evaluateCSPQuality v) (qualityValues "content-security-policy").
Proof.
  unfold evaluateCSPQuality. cbn [fold_left].
  change (qualityValues "content-security-policy")
    with [1.0; 0.5 + 0.2 + 0.2; 0.5 + 0.3; 0.5 + 0.2; 0.5]%float.
  repeat match goal with
         | |- context [includes ?a ?b] => destruct (includes a b)
         end; cbn [orb negb]; pick_member.
Qed.

Lemma hsts_quality_values (v : string) :
  In (evaluateHSTSQuality v) (qualityValues "strict-transport-security").
Proof.
  unfold evaluateHSTSQuality.
  change (qualityValues "strict-transport-security")
    with [1.0; 0.3 + 0.3 + 0.2; 0.3 + 0.2 + 0.2; 0.3 + 0.3; 0.3 + 0.2; 0.3]%float.
  repeat match goal with
         | |- context [includes ?a ?b] => destruct (includes a b)
         end; pick_member.
Qed.

Lemma quality_values (name v : string) :
  truthy (Some v) = true ->
  In (evaluateHeaderQuality name v) (qualityValues name).
Proof.
  intros Htr. unfold evaluateHeaderQuality, qualityValues.
  destruct (String.eqb name "content-security-policy") eqn:E1.
  { apply csp_quality_values. }
  destruct (String.eqb name "strict-transport-security") eqn:E2.
  { apply hsts_quality_values. }
  destruct (String.eqb name "x-frame-options") eqn:E3.
  { destruct (includes v "DENY" || includes v "SAMEORIGIN"); simpl; tauto. }
  rewrite Htr. simpl. tauto.
Qed.

Lemma header_step_outcome (hdrs : SecurityHeaders) (ctx : option SiteContext)
    (acc : float * float) (entry : string * HeaderConfig) :
  In (header_step hdrs ctx acc entry) (outcomes (classOf ctx) acc entry).
Proof.
  destruct acc as [pp mp]. destruct entry as [name cfg].
  unfold header_step, outcomes. cbn [fst snd].
  apply in_or_app.
  destruct (truthy (or_else (header_get hdrs name)
                            (header_get hdrs (toLowerCase name)))) eqn:Htr.
  - destruct (or_else (header_get hdrs name) (header_get hdrs (toLowerCase name)))
      as [v|]; [|discriminate Htr].
    left. apply (in_map (fun q => ((pp + weight cfg * q)%float, mp))).
    now apply quality_values.
  - right. left. rewrite (penalty_by_class name (criticality cfg) ctx).
    rewrite (penalty_ignores_criticality name LOW (criticality cfg)).
    reflexivity.
Qed.

Lemma fold_reachable (hdrs : SecurityHeaders) (ctx : option SiteContext)
    (entries : list (string * HeaderConfig)) :
  forall (acc : float * float) (S : list (float * float)),
    In acc S ->
    In (fold_left (header_step hdrs ctx) entries acc)
       (reachableFrom (classOf ctx) entries S).
Proof.
  induction entries as [|e entries IH]; intros acc S Hacc; [exact Hacc|].
  cbn [fold_left reachableFrom]. apply IH.
  apply in_flat_map. exists acc. split; [exact Hacc|].
  apply header_step_outcome.
Qed.

Lemma header_points_reachable (hdrs : SecurityHeaders) (ctx : option SiteContext) :
  In (header_points hdrs ctx) (reachable (classOf ctx)).
Proof.
  unfold header_points, reachable. apply fold_reachable. now left.
Qed.

Lemma reachable_within (cls : ContextClass) :
  forallb (pointsWithin (fst (scoreBounds cls)) (snd (scoreBounds cls)))
          (reachable cls) = true.
Proof. destruct cls; vm_compute; reflexivity. Qed.

Lemma header_points_within (hdrs : SecurityHeaders) (ctx : option SiteContext) :
  pointsWithin (fst (scoreBounds (classOf ctx))) (snd (scoreBounds (classOf ctx)))
               (header_points hdrs ctx) = true.
Proof.
  pose proof (reachable_within (classOf ctx)) as Hall.
  rewrite forallb_forall in Hall. apply Hall. apply header_points_reachable.
Qed.

Lemma scoreBounds_range (cls : ContextClass) :
  22 <= fst (scoreBounds cls) /\ snd (scoreBounds cls) <= 90.
Proof. destruct cls; simpl; lia. Qed.

Lemma header_score_range (hdrs : SecurityHeaders) (ctx : option SiteContext) :
  let r := evaluateHeadersRealistically hdrs ctx in
  0 <= present r <= 89 /\ 0 <= missing r <= 89 /\
  fst (scoreBounds (classOf ctx)) <= score r <= snd (scoreBounds (classOf ctx)).
Proof.
  pose proof (header_points_within hdrs ctx) as Hw.
  unfold evaluateHeadersRealistically.
  destruct (header_points hdrs ctx) as [pp mp].
  unfold pointsWithin in Hw. cbn [fst snd] in Hw.
  repeat (apply andb_prop in Hw; destruct Hw as [Hw ?]).
  cbn [present missing score]. lia.
Qed.

(** X8: for every header map and context the three numbers the header
    evaluator returns are roundings of finite sums; present and missing
    points lie between 0 and 89 and the header score between 22 and 90
    (between 58 and 89 when no context is given).  The header score is
    never negative: absent headers never lower it. *)
Theorem evaluateHeadersRealistically_range (hdrs : SecurityHeaders)
    (ctx : option SiteContext) :
  let r := evaluateHeadersRealistically hdrs ctx in
  (let '(pp, mp) := header_points hdrs ctx in
   PrimFloat.is_finite pp && PrimFloat.is_finite mp
   && PrimFloat.is_finite (pp + mp)%float = true) /\
  0 <= present r <= 89 /\ 0 <= missing r <= 89 /\
  22 <= score r <= 90 /\
  58 <= score (evaluateHeadersRealistically hdrs None) <= 89.
Proof.
  cbv zeta. split.
  { pose proof (header_points_within hdrs ctx) as Hw.
    destruct (header_points hdrs ctx) as [pp mp].
    unfold pointsWithin in Hw. cbn [fst snd] in Hw.
    repeat (apply andb_prop in Hw; destruct Hw as [Hw ?]).
    repeat match goal with
           | Hf : PrimFloat.is_finite _ = true |- _ => rewrite Hf; clear Hf
           end.
    reflexivity. }
  pose proof (header_score_range hdrs ctx) as Hr. cbv zeta in Hr.
  pose proof (scoreBounds_range (classOf ctx)).
  pose proof (header_score_range hdrs None) as Hn. cbv zeta in Hn.
  cbn [classOf scoreBounds fst snd] in Hn.
  lia.
Qed.

Lemma overall_at_least_52 (hdrs : SecurityHeaders) (v : VulnerabilityData)
    (siteType : string) (ctx : option SiteContext) (b : Z) :
  baseline_of siteType = Own b ->
  exists o,
    overall (calculateRealisticScore hdrs v siteType ctx) = Num o /\ 52 <= o <= 100.
Proof.
  intros Hb. rewrite overall_by_baseline.
  destruct (baseline_of_cases siteType) as [(b' & Hb' & Hrange) | (Hinh & _)];
    [|rewrite Hinh in Hb; discriminate Hb].
  rewrite Hb'. eexists. split; [reflexivity|]. unfold clamp.
  pose proof (header_score_range hdrs ctx) as Hr. cbv zeta in Hr.
  pose proof (scoreBounds_range (classOf ctx)).
  pose proof (evaluateVulnerabilities_range v).
  pose proof (contextual_bonus_range hdrs v ctx).
  lia.
Qed.

(** X9: the floor of the scorer.  When the baseline read for the site
    type is a number (the type is a key of the baseline table or names
    nothing at all), the overall score is at least 52, whatever the
    headers, the findings and the context; so the grade is never F and the
    risk level never Critico.  When the site type names an inherited
    member of the table, the overall score is NaN, the grade is F and the
    risk level is Alto or Critico. *)
Theorem calculateRealisticScore_floor (hdrs : SecurityHeaders)
    (v : VulnerabilityData) (siteType : string) (ctx : option SiteContext) :
  let r := calculateRealisticScore hdrs v siteType ctx in
  match baseline_of siteType with
  | Own _ =>
      exists o,
        overall r = Num o /\ 52 <= o <= 100 /\
        grade r <> "F" /\
        riskLevel r <> "Crítico"
  | Inherited _ =>
      In siteType Object_prototype_members /\
      overall r = NaN /\
      grade r = "F" /\
      In (riskLevel r) ["Alto"; "Crítico"]
  end.
Proof.
  cbv zeta. rewrite grade_of_overall, riskLevel_of_overall.
  destruct (baseline_of siteType) as [b|member] eqn:Hb.
  - destruct (overall_at_least_52 hdrs v siteType ctx b Hb) as (o & Ho & Hrange).
    exists o. rewrite Ho. split; [reflexivity|]. split; [exact Hrange|].
    cbn [gradeOf riskLevelOf]. split.
    + unfold calculateGrade.
      repeat match goal with
             | |- context [?a >=? ?b] => rewrite (Z.geb_leb a b)
             end.
      repeat match goal with
             | |- context [?a <=? ?b] => destruct (Z.leb_spec a b)
             end; try discriminate; lia.
    + unfold calculateRiskLevel.
      replace (o >=? 50) with true by (symmetry; apply Z.geb_le; lia).
      cbn [orb].
      repeat match goal with
             | |- context [if ?c then _ else _] => destruct c
             end; discriminate.
  - destruct (baseline_of_cases siteType) as [(b' & Hb' & _) | (_ & Hin)];
      [rewrite Hb' in Hb; discriminate Hb|].
    rewrite overall_by_baseline, Hb. cbn [gradeOf riskLevelOf].
    split; [exact Hin|]. split; [reflexivity|]. split; [reflexivity|].
    destruct (high v >? 2); simpl; tauto.
Qed.

End HeaderScoreRange.

(* ================================================================== *)
(** ** The context and the score in the pipeline *)
(* ================================================================== *)

Section Pipeline.
Import Integrator Props JS HeaderRange App.

Lemma determineSiteType_values (d : Types.ScrapedData) :
  In (determineSiteType d)
     [ "ecommerce-premium"; "ecommerce-standard"; "saas-platform";
       "enterprise-corporate"; "portfolio-professional"; "enterprise-smb" ].
Proof.
  unfold determineSiteType.
  destruct (Types.ecommerce d) as [e|];
    repeat match goal with
           | |- context [if ?c then _ else _] => destruct c
           end; simpl; tauto.
Qed.

Lemma generateSiteContext_type (d : Types.ScrapedData) (siteType : string)
    (ctx : SiteContext) :
  generateSiteContext d siteType = Ok ctx ->
  type ctx = mapSiteTypeToContext siteType.
Proof.
  unfold generateSiteContext, member_of.
  destruct (Types.ecommerce d) as [e|]; cbn [JS.bind]; [|discriminate].
  destruct (Types.securityAnalysis d) as [sa|]; cbn [JS.bind]; [|discriminate].
  intros Hok. injection Hok as <-. reflexivity.
Qed.

Lemma pipeline_site_cases (d : Types.ScrapedData) (ctx : SiteContext) :
  generateSiteContext d (determineSiteType d) = Ok ctx ->
  (exists b, baseline_of (determineSiteType d) = Own b /\ 70 <= b
             /\ type ctx = enterprise)
  \/ (determineSiteType d = "portfolio-professional"
      /\ baseline_of (determineSiteType d) = Own 65 /\ type ctx = portfolio).
Proof.
  intros Hok. apply generateSiteContext_type in Hok.
  pose proof (determineSiteType_values d) as Hin. simpl in Hin.
  repeat (destruct Hin as [Heq | Hin];
          [ rewrite <- Heq in Hok |- *;
            first [ left; eexists; split; [reflexivity|];
                    split; [vm_compute; discriminate | exact Hok]
                  | right; split; [reflexivity | split; [reflexivity | exact Hok]] ]
          | ]).
  contradiction.
Qed.

(** X10: in the pipeline the site context handed to the scorer has type
    enterprise, or portfolio exactly when the site is classified
    portfolio-professional; hence a missing Content-Security-Policy is
    charged 0 or 0.4 of its weight and a missing X-Frame-Options 0 or 0.3,
    never the full weight. *)
Theorem pipeline_context_type (d : Types.ScrapedData) (ctx : SiteContext)
    (H : generateSiteContext d (determineSiteType d) = Ok ctx) :
  type ctx = mapSiteTypeToContext (determineSiteType d) /\
  In (type ctx) [enterprise; portfolio] /\
  String.eqb (determineSiteType d) "portfolio-professional"
    = ContextType_eqb (type ctx) portfolio /\
  calculateMissingHeaderPenalty "content-security-policy" CRITICAL (Some ctx)
    = (if ContextType_eqb (type ctx) portfolio then 0.4 else 0.0)%float /\
  calculateMissingHeaderPenalty "x-frame-options" HIGH (Some ctx)
    = (if ContextType_eqb (type ctx) portfolio then 0.3 else 0.0)%float.
Proof.
  pose proof (generateSiteContext_type d _ ctx H) as Hty.
  split; [exact Hty|].
  assert (Hpen : forall name crit,
             calculateMissingHeaderPenalty name crit (Some ctx) =
             calculateMissingHeaderPenalty name crit (Some (contextOfType (type ctx)))).
  { intros name crit. destruct ctx. reflexivity. }
  rewrite !Hpen.
  pose proof (determineSiteType_values d) as Hin. simpl in Hin.
  repeat (destruct Hin as [Heq | Hin];
          [ rewrite <- Heq in Hty |- *; rewrite Hty;
            repeat split; try (simpl; tauto); vm_compute; reflexivity
          | ]).
  contradiction.
Qed.

Lemma pipeline_context_type_witness :
  exists ctx,
    generateSiteContext reactPage (determineSiteType reactPage) = Ok ctx /\
    type ctx = enterprise /\
    calculateMissingHeaderPenalty "content-security-policy" CRITICAL (Some ctx)
      = 0.0%float.
Proof.
  eexists. split; [reflexivity|].
  destruct (pipeline_context_type reactPage _ eq_refl) as (Hty & _ & _ & Hcsp & _).
  split; [exact Hty | exact Hcsp].
Defined.

(** X11: on scraped data of the declared shape the generated context
    never has the file-upload flag, even when PHP or Node.js is among the
    technologies; the technology stack lists the names; the login flag and
    the user-content flag are the same bit. *)
Theorem generateSiteContext_declared_shape (d : Types.ScrapedData)
    (ts : list Types.Technology) (siteType : string) (ctx : SiteContext)
    (Hts : Types.technologies d = map Types.TechObject ts)
    (Hctx : generateSiteContext d siteType = Ok ctx) :
  allowsFileUploads ctx = false /\
  technologyStack ctx = map (fun t => Some (Types.tech_name t)) ts /\
  hasLoginSystem ctx = hasUserGeneratedContent ctx /\
  hasLoginSystem ctx = Types.hasUsers (Types.usersDetected d).
Proof.
  unfold generateSiteContext, member_of in Hctx.
  destruct (Types.ecommerce d) as [e|]; cbn [JS.bind] in Hctx; [|discriminate].
  destruct (Types.securityAnalysis d) as [sa|]; cbn [JS.bind] in Hctx; [|discriminate].
  injection Hctx as <-. cbn [allowsFileUploads technologyStack hasLoginSystem
                              hasUserGeneratedContent].
  rewrite Hts, !tech_includes_objects, map_map.
  repeat split.
Qed.

Lemma generateSiteContext_declared_shape_witness :
  exists ctx,
    generateSiteContext reactPage "saas-platform" = Ok ctx /\
    allowsFileUploads ctx = false /\
    technologyStack ctx = [Some "React"].
Proof.
  eexists. split; [reflexivity|].
  destruct (generateSiteContext_declared_shape reactPage
              [ {| Types.tech_name := "React";
                   Types.tech_version := Some "18.2.0";
                   Types.currentVersion := Some "18.2.0" |} ]
              "saas-platform" _ eq_refl eq_refl) as (Hup & Hstack & _).
  split; [exact Hup | exact Hstack].
Defined.

Lemma Ok_injective {A} (a b : A) : Ok a = Ok b -> a = b.
Proof. intros Hab. now injection Hab. Qed.

Lemma primaryScore_at_least_62 (d : Types.ScrapedData) (n : number) :
  primaryScore d = Ok n -> exists s, n = Num s /\ 62 <= s <= 100.
Proof.
  unfold primaryScore. cbv zeta.
  destruct (generateSiteContext d (determineSiteType d)) as [ctx|msg] eqn:Hctx;
    cbn [JS.bind]; [|discriminate].
  unfold member_of.
  destruct (Types.securityAnalysis d) as [sa|]; cbn [JS.bind]; [|discriminate].
  intros Hok. apply Ok_injective in Hok. subst n.
  rewrite overall_by_baseline.
  set (hs := normalizedHeaders (Types.securityHeaders sa)).
  set (vs := normalizedVulnerabilities _).
  pose proof (header_score_range hs (Some ctx)) as Hr. cbv zeta in Hr.
  pose proof (evaluateVulnerabilities_range vs).
  pose proof (contextual_bonus_range hs vs (Some ctx)).
  destruct (pipeline_site_cases d ctx Hctx) as [(b & Hb & Hb70 & Hty) | (_ & Hb & Hty)];
    rewrite Hb; eexists; (split; [reflexivity|]); unfold clamp.
  - assert (Hcls : classOf (Some ctx) = ApiLike).
    { simpl. rewrite Hty. reflexivity. }
    rewrite Hcls in Hr. cbn [scoreBounds fst snd] in Hr. lia.
  - assert (Hcls : classOf (Some ctx) = BlogLike).
    { simpl. rewrite Hty. reflexivity. }
    rewrite Hcls in Hr. cbn [scoreBounds fst snd] in Hr. lia.
Qed.

Lemma fallbackScore_at_least_25 (d : Types.ScrapedData) (sa : Types.SecurityAnalysis) :
  Types.securityAnalysis d = Some sa ->
  exists s, fallbackScore d = Ok (Num s) /\ 25 <= s <= 100.
Proof.
  intros Hsa. unfold fallbackScore, member_of, round_int. rewrite Hsa.
  cbn [JS.bind]. eexists. split; [reflexivity|].
  destruct (Types.csp _), (Types.hsts _), (Types.xss _), (Types.contentType _),
    (Types.httpsEnabled _); lia.
Qed.

(** X12: the privacy score lies between 25 and 100 for all scraped data
    whose security analysis is defined; when the primary scorer returns,
    it is at least 62, whatever was found on the page.  The function
    raises exactly when the security analysis is undefined. *)
Theorem calculatePrivacyScore_range (d : Types.ScrapedData) :
  match calculatePrivacyScore d with
  | Ok (Num s) => 25 <= s <= 100
  | Ok NaN => False
  | Throw _ => Types.securityAnalysis d = None
  end /\
  match Types.securityAnalysis d with
  | Some _ => exists s, calculatePrivacyScore d = Ok (Num s)
  | None => calculatePrivacyScore d = fallbackScore d
  end /\
  match primaryScore d with
  | Ok n => calculatePrivacyScore d = Ok n /\ exists s, n = Num s /\ 62 <= s
  | Throw _ => calculatePrivacyScore d = fallbackScore d
  end.
Proof.
  unfold calculatePrivacyScore, try_catch.
  pose proof (primaryScore_at_least_62 d) as Hp.
  pose proof (fallbackScore_at_least_25 d) as Hf.
  pose proof (fallbackScore_without_analysis d) as Hnone.
  pose proof (primaryScore_throws_iff d) as Hthrows.
  destruct (primaryScore d) as [n|msg].
  - destruct (Hp n eq_refl) as (s & -> & Hs).
    split; [lia|]. split.
    + destruct (Types.securityAnalysis d) as [sa|]; [now exists s|].
      exfalso. destruct Hthrows as [_ Hback].
      destruct (Hback (or_intror eq_refl)) as [m Hm]. discriminate Hm.
    + split; [reflexivity|]. exists s. split; [reflexivity | lia].
  - destruct (Types.securityAnalysis d) as [sa|].
    + destruct (Hf sa eq_refl) as (s & Hs & Hrange). rewrite Hs.
      split; [exact Hrange|]. split; [now exists s | reflexivity].
    + rewrite (Hnone eq_refl). repeat split.
Qed.

End Pipeline.

(* ================================================================== *)
(** ** The allowlist on generic tokens *)
(* ================================================================== *)

Section Allowlist.
Import JS Regex App Tokens.

Lemma append_empty_r (s : string) : s ++ EmptyString = s.
Proof. induction s as [|c s IH]; [reflexivity|]. simpl. now rewrite IH. Qed.

(** A case-sensitive class repeated [n] times eats [n] characters of the
    class and continues. *)
Lemma run_rep_class (p : ascii -> bool) (n : nat) :
  forall (s s2 : string) (i : nat) (c : option (nat * nat))
         (k : state -> option state),
    String.length s = n -> allChars p s = true ->
    run false (rep n (Cls false p)) {| pos := i; rest := s ++ s2; cap := c |} k
    = k {| pos := i + n; rest := s2; cap := c |}.
Proof.
  induction n as [|n IH]; intros s s2 i c k Hlen Hall.
  - destruct s; [|discriminate]. simpl.
    replace (i + 0)%nat with i by lia. reflexivity.
  - destruct s as [|a s]; [discriminate|].
    simpl in Hlen. injection Hlen as Hlen.
    simpl in Hall. apply andb_prop in Hall as [Ha Hall].
    destruct n as [|n'].
    + destruct s; [|discriminate].
      cbn [rep run rest append cls_found xorb]. rewrite Ha.
      cbn [pos cap]. replace (i + 1)%nat with (S i) by lia. reflexivity.
    + change (rep (S (S n')) (Cls false p))
        with (Seq (Cls false p) (rep (S n') (Cls false p))).
      cbn [run rest append cls_found xorb]. rewrite Ha. cbn [pos cap].
      rewrite (IH s s2 (S i) c k Hlen Hall).
      replace (S i + S n')%nat with (i + S (S n'))%nat by lia. reflexivity.
Qed.

Lemma exec_at_hit (ci : bool) (r : re) (whole : string) (i : nat) (s : string)
    (res : match_result) :
  try_at ci r whole i s = Some res -> exec_at ci r whole i s = Some res.
Proof. intros Hhit. destruct s; simpl; now rewrite Hhit. Qed.

Lemma token_pattern_accepts (n : nat) (s : string) :
  isToken n s ->
  test false (seq [Bos; rep n (Cls false word_dash); Eos]) s = true.
Proof.
  intros [Hlen Hall]. unfold test, exec.
  assert (Hrun : run false (seq [Bos; rep n (Cls false word_dash); Eos])
                   {| pos := 0; rest := s; cap := None |} Some
                 = Some {| pos := n; rest := EmptyString; cap := None |}).
  { cbn [seq]. cbn [run pos].
    rewrite <- (append_empty_r s) at 1.
    rewrite (run_rep_class word_dash n s EmptyString 0 None _ Hlen Hall).
    reflexivity. }
  erewrite exec_at_hit; [reflexivity|].
  unfold try_at. rewrite Hrun. reflexivity.
Qed.

Lemma generic_token_is_safe (s : string) :
  isToken 32 s \/ isToken 40 s -> isSafeKnownPattern s = true.
Proof.
  intros Htok. unfold isSafeKnownPattern, some. apply existsb_exists.
  destruct Htok as [H32 | H40].
  - exists (seq [Bos; rep 32 (Cls false word_dash); Eos]). split.
    + unfold safePatterns. do 11 right. left. reflexivity.
    + now apply token_pattern_accepts.
  - exists (seq [Bos; rep 40 (Cls false word_dash); Eos]). split.
    + unfold safePatterns. do 12 right. left. reflexivity.
    + now apply token_pattern_accepts.
Qed.

Lemma filter_none {A} (f : A -> bool) (l : list A) :
  (forall x, In x l -> f x = false) -> filter f l = [].
Proof.
  induction l as [|x l IH]; intros Hall; [reflexivity|].
  cbn [filter]. rewrite (Hall x (or_introl eq_refl)).
  apply IH. intros y Hy. apply Hall. now right.
Qed.

(** X13: every string of exactly 32 or exactly 40 letters, digits,
    underscores and dashes is a safe known pattern.  So a credential
    pattern yields no finding on a page where each of its matches has such
    a string as first quoted segment, and the line loop never lists a line
    whose own first quoted segment is such a string.  (The two tests read
    different texts, the match and the whole line: when another match of
    the pattern is reported, the line of a discarded match is listed
    unless the first quoted segment of that line is safe as well.) *)
Theorem generic_tokens_are_never_reported (html : string) (cp : CredentialPattern)
    (H : forall m, In m (match_all true (pattern cp) html) ->
           exists s, keyValueMatch m = Some s /\ (isToken 32 s \/ isToken 40 s)) :
  (forall s, isToken 32 s \/ isToken 40 s -> isSafeKnownPattern s = true) /\
  filter isReportedMatch (match_all true (pattern cp) html) = [] /\
  processCredentialPattern html cp = [] /\
  (forall (line s : string) (index : nat),
     keyValueMatch line = Some s -> isToken 32 s \/ isToken 40 s ->
     foundLinesFrom (pattern cp) index [line] = []).
Proof.
  assert (Hnone : filter isReportedMatch (match_all true (pattern cp) html) = []).
  { apply filter_none. intros m Hm.
    destruct (H m Hm) as (s & Hkv & Htok).
    unfold isReportedMatch. now rewrite Hkv, (generic_token_is_safe s Htok). }
  split; [exact generic_token_is_safe|].
  split; [exact Hnone|].
  split.
  - unfold processCredentialPattern. cbv zeta. rewrite Hnone.
    destruct (Nat.ltb 0 (List.length (match_all true (pattern cp) html)));
      reflexivity.
  - intros line s index Hkv Htok. cbn [foundLinesFrom].
    rewrite Hkv, (generic_token_is_safe s Htok). cbn [negb].
    destruct (test true (pattern cp) line); reflexivity.
Qed.

Lemma generic_tokens_are_never_reported_witness :
  match_all true (pattern passwordPattern) pageWithDigest = [pageWithDigest] /\
  keyValueMatch pageWithDigest = Some sampleDigest /\
  isToken 32 sampleDigest /\
  processCredentialPattern pageWithDigest passwordPattern = [].
Proof.
  assert (Htok : isToken 32 sampleDigest) by (split; reflexivity).
  split; [vm_compute; reflexivity|].
  split; [vm_compute; reflexivity|].
  split; [exact Htok|].
  refine (proj1 (proj2 (proj2
            (generic_tokens_are_never_reported pageWithDigest passwordPattern _)))).
  intros m Hm. vm_compute in Hm. destruct Hm as [<- | []].
  exists sampleDigest. split; [vm_compute; reflexivity | left; exact Htok].
Defined.

End Allowlist.

(* ================================================================== *)
(** ** The version-database and configuration passes *)
(* ================================================================== *)

Section DetectorPasses.
Import JS Regex Integrator Props Detector.

Lemma detectVulnerableVersion_shape (tech : Types.TechEntry)
    (f : Types.VulnerableTechnology) :
  In f (detectVulnerableVersion tech) ->
  exists t entry,
    tech = Types.TechObject t /\
    table_get vulnerabilityDatabase (Types.tech_name t) = Some entry /\
    Types.tech_version t = Some (Types.version f) /\
    Types.version f <> EmptyString /\
    f = {| Types.name := Types.tech_name t;
           Types.version := Types.version f;
           Types.vulnerability := db_vulnerability entry;
           Types.severity := db_severity entry;
           Types.lineNumbers := Some [];
           Types.recommendation := Some (db_recommendation entry);
           Types.context := None |}.
Proof.
  unfold detectVulnerableVersion.
  destruct tech as [t|str]; [|contradiction].
  destruct (table_get vulnerabilityDatabase (Types.tech_name t)) as [entry|] eqn:Hdb;
    [|contradiction].
  destruct (Types.tech_version t) as [v|] eqn:Hv; [|contradiction].
  destruct (truthy (Some v)) eqn:Htr; [|contradiction].
  cbv zeta.
  match goal with
  | |- In f (if ?c then _ else _) -> _ => destruct c
  end; [|contradiction].
  intros [<- | []]. exists t, entry. cbn [Types.version].
  repeat split; try assumption.
  intros ->. discriminate Htr.
Qed.

(** X14: every finding of the version pass comes from a technology object
    of the input that has a non-empty version and a database entry; the
    finding carries that name and version, the text, severity and
    recommendation of the entry and an empty list of line numbers; and
    there are at most as many findings as technologies. *)
Theorem version_findings_provenance (technologies : list Types.TechEntry)
    (f : Types.VulnerableTechnology)
    (H : In f (detectVulnerableVersions technologies)) :
  (exists t entry,
     In (Types.TechObject t) technologies /\
     table_get vulnerabilityDatabase (Types.tech_name t) = Some entry /\
     Types.tech_version t = Some (Types.version f) /\
     Types.version f <> EmptyString /\
     Types.name f = Types.tech_name t /\
     Types.vulnerability f = db_vulnerability entry /\
     Types.severity f = db_severity entry /\
     Types.lineNumbers f = Some []) /\
  (List.length (detectVulnerableVersions technologies)
   <= List.length technologies)%nat.
Proof.
  split.
  - unfold detectVulnerableVersions in H. apply in_flat_map in H.
    destruct H as (tech & Hin & Hf).
    destruct (detectVulnerableVersion_shape tech f Hf)
      as (t & entry & -> & Hdb & Hv & Hne & Heq).
    exists t, entry. rewrite Heq. cbn. rewrite Heq in Hv, Hne. cbn in Hv, Hne.
    repeat split; assumption.
  - clear H. unfold detectVulnerableVersions.
    induction technologies as [|tech l IH]; [simpl; lia|].
    cbn [flat_map]. rewrite length_app. cbn [List.length].
    assert (Hone : (List.length (detectVulnerableVersion tech) <= 1)%nat).
    { unfold detectVulnerableVersion.
      repeat match goal with
             | |- context [match ?x with _ => _ end] => destruct x
             end; simpl; lia. }
    lia.
Qed.

Lemma version_findings_provenance_witness :
  (List.length (detectVulnerableVersions [Types.TechObject lodashFixed]) <= 1)%nat.
Proof.
  refine (proj2 (version_findings_provenance [Types.TechObject lodashFixed] _ _)).
  left. reflexivity.
Defined.

(** X15: the version test is a prefix test.  A technology whose version
    begins with one of the listed prefixes of its database entry is
    reported with the severity of the entry, whatever follows the prefix.
    In particular every Lodash version beginning with 4.17.2 is reported
    as critical, 4.17.21 included, the version the entry's own
    recommendation asks for. *)
Theorem version_prefix_is_reported (t : Types.Technology) (entry : DatabaseEntry)
    (vs : list string) (v p : string)
    (Hdb : table_get vulnerabilityDatabase (Types.tech_name t) = Some entry)
    (Hvs : versions entry = Some vs)
    (Hv : Types.tech_version t = Some v)
    (Hp : In p vs) (Hpre : startsWith v p = true) (Hne : v <> EmptyString) :
  detectVulnerableVersions [Types.TechObject t] =
    [ {| Types.name := Types.tech_name t;
         Types.version := v;
         Types.vulnerability := db_vulnerability entry;
         Types.severity := db_severity entry;
         Types.lineNumbers := Some [];
         Types.recommendation := Some (db_recommendation entry);
         Types.context := None |} ].
Proof.
  unfold detectVulnerableVersions. cbn [flat_map]. rewrite app_nil_r.
  unfold detectVulnerableVersion. rewrite Hdb, Hv, Hvs.
  assert (Htr : truthy (Some v) = true) by (destruct v; [contradiction | reflexivity]).
  rewrite Htr. cbv zeta.
  assert (Hsome : some (fun vulnerableVersion => startsWith v vulnerableVersion) vs = true).
  { unfold some. apply existsb_exists. now exists p. }
  rewrite Hsome. cbn [negb].
  destruct (db_patterns entry); reflexivity.
Qed.

Lemma version_prefix_is_reported_witness :
  exists f,
    detectVulnerableVersions [Types.TechObject lodashFixed] = [f] /\
    Types.version f = "4.17.21" /\
    Types.severity f = Types.critical /\
    Types.recommendation f
      = Some "ACTUALIZAR a Lodash 4.17.21+ o MIGRAR a alternativas como Ramda, Rambda o Lodash-es".
Proof.
  eexists. split.
  - eapply (version_prefix_is_reported lodashFixed _ _ "4.17.21" "4.17.2").
    + reflexivity.
    + reflexivity.
    + reflexivity.
    + simpl. tauto.
    + reflexivity.
    + discriminate.
  - repeat split.
Defined.

Lemma filter_config_finding (html : string) (cp : ConfigPattern) :
  filterFalsePositives (processConfigPattern html cp) =
  if keepFinding (finding (config_vulnerability cp) None)
  then processConfigPattern html cp else [].
Proof.
  unfold processConfigPattern, filterFalsePositives.
  destruct (test true (config_pattern cp) html); [|now destruct (keepFinding _)].
  cbn [filter].
  rewrite (keepFinding_reads_text_and_context
             {| Types.name := config_name cp; Types.version := config_version cp;
                Types.vulnerability := config_vulnerability cp;
                Types.severity := config_severity cp; Types.lineNumbers := None;
                Types.recommendation := Some (config_recommendation cp);
                Types.context := None |}).
  cbn [Types.vulnerability Types.context].
  now destruct (keepFinding _).
Qed.

Lemma database_texts_are_kept :
  forallb (fun e => keepFinding (finding (db_vulnerability (snd e)) None))
          vulnerabilityDatabase = true.
Proof. vm_compute. reflexivity. Qed.

Lemma table_get_In {V} (t : list (string * V)) (key : string) (v : V) :
  table_get t key = Some v -> exists k, In (k, v) t.
Proof.
  induction t as [|[k x] t IH]; [discriminate|].
  simpl. destruct (String.eqb k key).
  - intros Hv. injection Hv as <-. exists k. now left.
  - intros Hv. destruct (IH Hv) as [k' Hin]. exists k'. now right.
Qed.

(** X16: what the false-positive filter does to the findings of the two
    passes.  Every finding of the version pass survives it.  Of the
    configuration findings, Debug Configuration and Development Mode never
    survive it, because their own texts mention a debug mode and
    development, while Console Logging and CORS Configuration always
    do. *)
Theorem filter_on_detector_passes (technologies : list Types.TechEntry)
    (html : string) :
  filterFalsePositives (detectVulnerableVersions technologies)
    = detectVulnerableVersions technologies /\
  filterFalsePositives (scanConfiguration html)
    = flat_map (processConfigPattern html)
        (filter (fun cp => String.eqb (config_name cp) "Console Logging"
                           || String.eqb (config_name cp) "CORS Configuration")
                configPatterns).
Proof.
  split.
  - unfold filterFalsePositives. apply filter_fixed_when_all_kept.
    intros f Hf. unfold detectVulnerableVersions in Hf.
    apply in_flat_map in Hf. destruct Hf as (tech & _ & Hf).
    destruct (detectVulnerableVersion_shape tech f Hf)
      as (t & entry & _ & Hdb & _ & _ & Heq).
    rewrite keepFinding_reads_text_and_context. rewrite Heq.
    cbn [Types.vulnerability Types.context].
    destruct (table_get_In _ _ _ Hdb) as [k Hin].
    pose proof database_texts_are_kept as Hall.
    rewrite forallb_forall in Hall. exact (Hall (k, entry) Hin).
  - unfold scanConfiguration, configPatterns, filterFalsePositives.
    cbn [flat_map filter config_name String.eqb Ascii.eqb Bool.eqb orb].
    repeat rewrite filter_app.
    repeat match goal with
           | |- context [filter keepFinding (processConfigPattern html ?cp)] =>
               change (filter keepFinding (processConfigPattern html cp))
                 with (filterFalsePositives (processConfigPattern html cp));
               rewrite (filter_config_finding html cp)
           end.
    cbn [filter app config_vulnerability].
    repeat match goal with
           | |- context [keepFinding ?f] =>
               let b := eval vm_compute in (keepFinding f) in
               replace (keepFinding f) with b by (vm_compute; reflexivity)
           end.
    cbn [app]. reflexivity.
Qed.

End DetectorPasses.

(* ================================================================== *)
(** ** From the response headers to the scorer *)
(* ================================================================== *)

Section HeaderPipeline.
Import JS Integrator App HeaderAnalysis.

Ltac split_header v :=
  destruct v as [[|? ?]|].

(** X17: what the scorer sees of the response headers.  After
    [analyzeSecurityHeaders] and the normalisation of the privacy score,
    the CSP, HSTS, X-Frame-Options, Referrer-Policy and X-XSS-Protection
    entries are the response's own values when these are non-empty and are
    absent otherwise (the placeholder text of an absent header never
    reaches the scorer); X-Content-Type-Options is the literal nosniff
    when the response value is nosniff up to case and is absent otherwise;
    Permissions-Policy is always absent, whatever the response carries. *)
Theorem normalized_headers_of_response (h : Headers) :
  let nh := normalizedHeaders (summary (analyzeSecurityHeaders h)) in
  header_get nh "content-security-policy"
    = presentValue (h "content-security-policy") /\
  header_get nh "strict-transport-security"
    = presentValue (h "strict-transport-security") /\
  header_get nh "x-frame-options" = presentValue (h "x-frame-options") /\
  header_get nh "referrer-policy" = presentValue (h "referrer-policy") /\
  header_get nh "x-xss-protection" = presentValue (h "x-xss-protection") /\
  header_get nh "x-content-type-options"
    = (if lower_is (h "x-content-type-options") "nosniff"
       then Some "nosniff" else None) /\
  header_get nh "permissions-policy" = None.
Proof.
  cbv zeta.
  unfold normalizedHeaders, analyzeSecurityHeaders, detailedContent, presentValue.
  cbv zeta.
  cbn [summary Types.detailed Types.contentType Types.det_csp Types.det_hsts
       Types.det_frameOptions Types.det_referrerPolicy Types.det_xssProtection
       Types.dh_present Types.dh_content].
  generalize (lower_is (h "x-content-type-options") "nosniff"). intros ct.
  split_header (h "content-security-policy");
    split_header (h "strict-transport-security");
    split_header (h "x-frame-options");
    split_header (h "referrer-policy");
    split_header (h "x-xss-protection");
    destruct ct; cbn; repeat split.
Qed.

(** X18: in the analysis a header judged valid is present, for CSP, HSTS,
    Referrer-Policy and X-Frame-Options; the three summary flags are the
    validity bits of the detailed entries; a valid HSTS has a max-age of
    at least one year; and the content of an absent header is the
    placeholder text. *)
Theorem analyzeSecurityHeaders_consistent (h : Headers) :
  let a := analyzeSecurityHeaders h in
  match Types.detailed (summary a) with
  | None => False
  | Some d =>
      implb (Types.dh_valid (Types.det_csp d)) (Types.dh_present (Types.det_csp d)) = true /\
      implb (Types.dh_valid (Types.det_hsts d)) (Types.dh_present (Types.det_hsts d)) = true /\
      implb (Types.dh_valid (Types.det_referrerPolicy d))
            (Types.dh_present (Types.det_referrerPolicy d)) = true /\
      implb (Types.dh_valid (Types.det_frameOptions d))
            (Types.dh_present (Types.det_frameOptions d)) = true /\
      Types.csp (summary a) = Types.dh_valid (Types.det_csp d) /\
      Types.hsts (summary a) = Types.dh_valid (Types.det_hsts d) /\
      Types.xss (summary a) = Types.dh_valid (Types.det_xssProtection d) /\
      implb (Types.hsts (summary a)) (31536000 <=? hstsMaxAge a) = true /\
      (if Types.dh_present (Types.det_csp d) then True
       else Types.dh_content (Types.det_csp d) = "No presente")
  end.
Proof.
  cbv zeta. unfold analyzeSecurityHeaders. cbv zeta.
  cbn [summary hstsMaxAge Types.detailed Types.csp Types.hsts Types.xss
       Types.det_csp Types.det_hsts Types.det_frameOptions
       Types.det_referrerPolicy Types.det_xssProtection
       Types.dh_present Types.dh_valid Types.dh_content].
  assert (Himp : forall (p : bool) (b : bool),
             implb (if p then b else false) p = true).
  { intros [|] [|]; reflexivity. }
  repeat split; try apply Himp.
  - destruct (truthy (h "strict-transport-security")); [|reflexivity].
    destruct (includes _ "max-age="); [|reflexivity]. cbn [andb].
    rewrite Z.geb_leb.
    destruct (31536000 <=? maxAgeOf _); reflexivity.
  - split_header (h "content-security-policy"); cbn; trivial.
Qed.

End HeaderPipeline.

(* ================================================================== *)
(** ** Splitting, joining and occurrences *)
(* ================================================================== *)

Section TextLemmas.
Import JS Text.

Lemma append_assoc (a b c : string) : (a ++ b) ++ c = a ++ b ++ c.
Proof. induction a as [|x a IH]; [reflexivity|]. simpl. now rewrite IH. Qed.

Lemma prefix_iff (p s : string) :
  String.prefix p s = true <-> exists b, s = p ++ b.
Proof.
  revert s. induction p as [|x p IH]; intros s.
  - split; [intros _; now exists s | intros _; destruct s; reflexivity].
  - destruct s as [|y s]; simpl.
    + split; [discriminate | intros [b Hb]; discriminate Hb].
    + destruct (Ascii.ascii_dec x y) as [<- | Hne].
      * rewrite IH. split; intros [b Hb]; exists b; [now rewrite Hb | now injection Hb].
      * split; [discriminate | intros [b Hb]; injection Hb as Hxy _; congruence].
Qed.

Lemma includes_iff (t s : string) : includes t s = true <-> occursIn s t.
Proof.
  unfold occursIn. induction t as [|x t IH].
  - cbn [includes]. rewrite orb_false_r, prefix_iff. split.
    + intros [b Hb]. now exists EmptyString, b.
    + intros (a & b & Hab). destruct a; [now exists b | discriminate Hab].
  - cbn [includes]. rewrite orb_true_iff, prefix_iff, IH. split.
    + intros [[b Hb] | (a & b & Hab)].
      * now exists EmptyString, b.
      * exists (String x a), b. simpl. now rewrite Hab.
    + intros (a & b & Hab). destruct a as [|y a].
      * left. now exists b.
      * right. simpl in Hab. injection Hab as _ Hab. now exists a, b.
Qed.

Lemma occursIn_trans (a b c : string) : occursIn a b -> occursIn b c -> occursIn a c.
Proof.
  intros (x & y & ->) (u & v & ->).
  exists (u ++ x), (y ++ v). now rewrite !append_assoc.
Qed.

Lemma occursIn_middle (s a b : string) : occursIn s (a ++ s ++ b).
Proof. now exists a, b. Qed.

Lemma toLowerCase_app (a b : string) :
  toLowerCase (a ++ b) = toLowerCase a ++ toLowerCase b.
Proof. induction a as [|x a IH]; [reflexivity|]. simpl. now rewrite IH. Qed.

Lemma occursIn_lower (s t : string) :
  occursIn s t -> occursIn (toLowerCase s) (toLowerCase t).
Proof.
  intros (a & b & ->). exists (toLowerCase a), (toLowerCase b).
  now rewrite !toLowerCase_app.
Qed.

Lemma trimStart_split (s : string) : exists w, s = w ++ Text.trimStart s.
Proof.
  induction s as [|c s [w Hw]]; [now exists EmptyString|].
  simpl. destruct (Regex.space c).
  - exists (String c w). simpl. now rewrite <- Hw.
  - now exists EmptyString.
Qed.

Lemma trimEnd_split (s : string) : exists w, s = Text.trimEnd s ++ w.
Proof.
  induction s as [|c s [w Hw]]; [now exists EmptyString|].
  simpl. destruct (Text.trimEnd s) as [|d t] eqn:Ht.
  - destruct (Regex.space c).
    + now exists (String c s).
    + exists s. reflexivity.
  - exists w. simpl. simpl in Hw. now rewrite <- Hw.
Qed.

Lemma trim_occurs (s : string) : occursIn (trim s) s.
Proof.
  unfold trim. destruct (trimStart_split s) as [w1 H1].
  destruct (trimEnd_split (Text.trimStart s)) as [w2 H2].
  exists w1, w2. now rewrite <- H2.
Qed.

(** A string is empty or ends with a character. *)
Lemma snoc_cases (s : string) :
  s = EmptyString \/ exists s' c, s = s' ++ String c EmptyString.
Proof.
  induction s as [|x s [-> | (s' & c & ->)]]; [now left | right | right].
  - now exists EmptyString, x.
  - now exists (String x s'), c.
Qed.

Lemma snoc_injective (a b : string) (c d : ascii) :
  a ++ String c EmptyString = b ++ String d EmptyString -> a = b /\ c = d.
Proof.
  revert b. induction a as [|x a IH]; intros [|y b] Hab; simpl in Hab.
  - injection Hab as ->. now split.
  - injection Hab as _ Hab. destruct b; discriminate Hab.
  - injection Hab as _ Hab. destruct a; discriminate Hab.
  - injection Hab as -> Hab. destruct (IH b Hab) as [-> ->]. now split.
Qed.

(** An occurrence in [t] followed by one more character is an occurrence
    in [t], unless the pattern ends with that character. *)
Lemma occursIn_before_last (p : string) (d c : ascii) (t : string) :
  d <> c ->
  occursIn (p ++ String d EmptyString) (t ++ String c EmptyString) ->
  occursIn (p ++ String d EmptyString) t.
Proof.
  intros Hdc (a & b & Hab).
  destruct (snoc_cases b) as [-> | (b' & e & ->)].
  - rewrite append_empty_r, <- append_assoc in Hab.
    apply snoc_injective in Hab as [_ Hcd]. congruence.
  - rewrite <- !append_assoc in Hab.
    apply snoc_injective in Hab as [Ht _].
    exists a, b'. now rewrite Ht, !append_assoc.
Qed.

End TextLemmas.

(* ================================================================== *)
(** ** Sidebar titles *)
(* ================================================================== *)

Section TitleLemmas.
Import JS Text Titles.

Lemma split_aux_nonempty (c : ascii) (s cur : string) : split_aux c cur s <> [].
Proof.
  revert cur. induction s as [|x s IH]; intros cur; simpl; [discriminate|].
  destruct (Ascii.eqb x c); [discriminate | apply IH].
Qed.

Lemma join_cons (sep x : string) (l : list string) :
  l <> [] -> join sep (x :: l) = x ++ sep ++ join sep l.
Proof. destruct l; [contradiction | reflexivity]. Qed.

Lemma join_split_aux (c : ascii) (s cur : string) :
  join (String c EmptyString) (split_aux c cur s) = cur ++ s.
Proof.
  revert cur. induction s as [|x s IH]; intros cur; simpl.
  - now rewrite append_empty_r.
  - destruct (Ascii.eqb_spec x c) as [-> | Hne].
    + rewrite join_cons by apply split_aux_nonempty. now rewrite IH.
    + rewrite IH. now rewrite append_assoc.
Qed.

Lemma join_firstn_prefix (sep : string) (n : nat) (l : list string) :
  exists r, join sep l = join sep (firstn n l) ++ r.
Proof.
  revert l. induction n as [|n IH]; intros l.
  - exists (join sep l). reflexivity.
  - destruct l as [|x l]; [now exists EmptyString|].
    cbn [firstn]. destruct l as [|y l].
    + destruct n; exists EmptyString; simpl; now rewrite append_empty_r.
    + destruct (IH (y :: l)) as [r Hr].
      destruct n as [|n'].
      * exists (sep ++ join sep (y :: l)). reflexivity.
      * rewrite join_cons by discriminate.
        rewrite (join_cons sep x (firstn (S n') (y :: l))) by discriminate.
        exists r. rewrite Hr. now rewrite !append_assoc.
Qed.

Lemma sepFree_app (c : ascii) (a b : string) :
  sepFree c (a ++ b) = sepFree c a && sepFree c b.
Proof.
  unfold sepFree. induction a as [|x a IH]; [reflexivity|].
  simpl. now rewrite IH, andb_assoc.
Qed.

Lemma split_aux_sepFree (c : ascii) (s cur : string) :
  sepFree c cur = true -> Forall (fun w => sepFree c w = true) (split_aux c cur s).
Proof.
  revert cur. induction s as [|x s IH]; intros cur Hcur; simpl.
  - now constructor.
  - destruct (Ascii.eqb x c) eqn:Hx.
    + constructor; [exact Hcur | now apply IH].
    + apply IH. rewrite sepFree_app, Hcur. unfold sepFree. simpl. now rewrite Hx.
Qed.

Lemma split_aux_free_prefix (c : ascii) (w s cur : string) :
  sepFree c w = true -> split_aux c cur (w ++ s) = split_aux c (cur ++ w) s.
Proof.
  revert cur. induction w as [|x w IH]; intros cur Hw.
  - simpl. now rewrite append_empty_r.
  - unfold sepFree in Hw. simpl in Hw. apply andb_prop in Hw as [Hx Hw].
    simpl. apply negb_true_iff in Hx. rewrite Hx.
    rewrite (IH _ Hw). now rewrite append_assoc.
Qed.

Lemma split_join (c : ascii) (l : list string) :
  l <> [] -> Forall (fun w => sepFree c w = true) l ->
  split_on c (join (String c EmptyString) l) = l.
Proof.
  unfold split_on. induction l as [|x l IH]; [contradiction|].
  intros _ Hall. inversion Hall as [|? ? Hx Hl]; subst.
  destruct l as [|y l].
  - simpl. rewrite <- (append_empty_r x) at 1.
    rewrite (split_aux_free_prefix c x EmptyString EmptyString Hx). reflexivity.
  - rewrite join_cons by discriminate.
    rewrite (split_aux_free_prefix c x _ EmptyString Hx).
    cbn [append split_aux]. rewrite Ascii.eqb_refl.
    f_equal. apply IH; [discriminate | exact Hl].
Qed.

Lemma Forall_firstn {A} (P : A -> Prop) (n : nat) (l : list A) :
  Forall P l -> Forall P (firstn n l).
Proof.
  revert l. induction n as [|n IH]; intros l Hl; [constructor|].
  destruct Hl; [constructor|]. cbn [firstn]. constructor; [assumption | now apply IH].
Qed.

Lemma split_truncateTitle (title : string) :
  split_on " " (truncateTitle title) = firstn 3 (split_on " " title).
Proof.
  unfold truncateTitle. apply split_join.
  - unfold split_on.
    pose proof (split_aux_nonempty " " title EmptyString).
    destruct (split_aux " " EmptyString title); [contradiction | discriminate].
  - apply Forall_firstn. now apply split_aux_sepFree.
Qed.

(** X19: splitting a title at its spaces and joining the words with
    spaces gives the title back; the truncated title is a prefix of the
    title, has at most three words, and truncating it again changes
    nothing. *)
Theorem truncateTitle_prefix_idempotent (title : string) :
  join " " (split_on " " title) = title /\
  startsWith title (truncateTitle title) = true /\
  (List.length (split_on " " (truncateTitle title)) <= 3)%nat /\
  truncateTitle (truncateTitle title) = truncateTitle title.
Proof.
  assert (Hround : join " " (split_on " " title) = title).
  { unfold split_on. now rewrite join_split_aux. }
  split; [exact Hround|]. split; [|split].
  - unfold startsWith. apply prefix_iff.
    destruct (join_firstn_prefix " " 3 (split_on " " title)) as [r Hr].
    exists r. unfold truncateTitle. now rewrite <- Hr.
  - rewrite split_truncateTitle. apply firstn_le_length.
  - unfold truncateTitle at 1. rewrite split_truncateTitle.
    rewrite firstn_firstn. reflexivity.
Qed.

End TitleLemmas.

(* ================================================================== *)
(** ** robots.txt *)
(* ================================================================== *)

Section RobotsLemmas.
Import JS Text Robots.

Lemma unlines_split_aux (s cur : string) :
  unlines (split_lines_aux cur s) = cur ++ s ++ newline.
Proof.
  revert cur. induction s as [|x s IH]; intros cur; simpl.
  - reflexivity.
  - destruct (Ascii.eqb_spec x "010"%char) as [-> | Hne].
    + cbn [unlines]. rewrite IH. reflexivity.
    + rewrite IH. now rewrite append_assoc.
Qed.

Lemma unlines_split_lines (s : string) :
  unlines (split_lines s) = s ++ newline.
Proof. unfold split_lines. now rewrite unlines_split_aux. Qed.

(** The section the loop returns is a block of consecutive lines. *)
Lemma sectionLoop_occurs (ua : string) (lines : list string) :
  forall (inTarget : bool) (content : string),
    (inTarget = false -> content = EmptyString) ->
    occursIn (sectionLoop ua lines inTarget content) (content ++ unlines lines).
Proof.
  induction lines as [|line rest IH]; intros inTarget content Hinv.
  - simpl. exists EmptyString, EmptyString. simpl. reflexivity.
  - cbn [sectionLoop unlines]. cbv zeta.
    destruct (startsWith (trim (toLowerCase line)) "user-agent:").
    + destruct (includes (trim (toLowerCase line)) (toLowerCase ua)
                || includes (trim (toLowerCase line)) "*").
      * eapply occursIn_trans; [apply IH; discriminate|].
        exists content, EmptyString.
        rewrite append_empty_r. now rewrite !append_assoc.
      * destruct inTarget.
        -- exists EmptyString, (line ++ newline ++ unlines rest). reflexivity.
        -- rewrite (Hinv eq_refl).
           eapply occursIn_trans; [apply IH; reflexivity|].
           exists (line ++ newline), EmptyString.
           cbn [append]. rewrite append_empty_r. now rewrite !append_assoc.
    + destruct inTarget.
      * eapply occursIn_trans; [apply IH; discriminate|].
        exists EmptyString, EmptyString.
        cbn [append]. rewrite append_empty_r. now rewrite !append_assoc.
      * rewrite (Hinv eq_refl).
        eapply occursIn_trans; [apply IH; reflexivity|].
        exists (line ++ newline), EmptyString.
        cbn [append]. rewrite append_empty_r. now rewrite !append_assoc.
Qed.

Lemma section_occurs (robotsText ua section : string) :
  extractUserAgentSection robotsText ua = Some section ->
  occursIn section (robotsText ++ newline).
Proof.
  unfold extractUserAgentSection. cbv zeta.
  destruct (truthy (Some (trim _))); [|discriminate].
  intros Hs. injection Hs as <-.
  eapply occursIn_trans; [apply trim_occurs|].
  rewrite <- unlines_split_lines.
  apply (sectionLoop_occurs ua (split_lines robotsText) false EmptyString).
  reflexivity.
Qed.

(** A disallow rule found in the extracted section is in the text. *)
Lemma section_rule_in_text (robotsText ua section : string) :
  extractUserAgentSection robotsText ua = Some section ->
  includes section "disallow: /" = true ->
  includes robotsText "disallow: /" = true.
Proof.
  intros Hsec Hinc. apply includes_iff. apply includes_iff in Hinc.
  pose proof (occursIn_trans _ _ _ Hinc (section_occurs _ _ _ Hsec)) as Hocc.
  apply (occursIn_before_last "disallow: " "/" "010" robotsText); [discriminate|].
  exact Hocc.
Qed.

Lemma lower_rule_in_text (t : string) :
  includes t "disallow: /" = true ->
  includes (toLowerCase t) "disallow: /" = true.
Proof.
  intros Hinc. apply includes_iff. apply includes_iff in Hinc.
  exact (occursIn_lower _ _ Hinc).
Qed.

(** X20: robots.txt is checked fail-open.  Scraping is refused only when
    the request succeeded with an OK response whose text, lowercased,
    contains a disallow rule; a failed request, a non-OK response and a
    text without any disallow rule all allow it. *)
Theorem refusal_requires_a_disallow_rule (outcome : FetchOutcome)
    (H : validateRobotsTxt outcome = false) :
  exists text,
    outcome = Response true text /\
    includes (toLowerCase text) "disallow: /" = true.
Proof.
  destruct outcome as [|ok text]; [discriminate H|].
  unfold validateRobotsTxt in H. cbv zeta in H.
  destruct ok; [|discriminate H]. cbn [negb] in H.
  exists text. split; [reflexivity|].
  destruct (includes (toLowerCase text) ("user-agent: " ++ toLowerCase "ScrapiiBot/2.0")).
  - destruct (extractUserAgentSection text "ScrapiiBot/2.0") as [section|] eqn:Hsec.
    + apply negb_false_iff in H.
      apply lower_rule_in_text. exact (section_rule_in_text _ _ _ Hsec H).
    + destruct (includes (toLowerCase text) "user-agent: *"); [|discriminate H].
      destruct (includes (toLowerCase text) "disallow: /"); [reflexivity | discriminate H].
  - destruct (includes (toLowerCase text) "user-agent: *"); [|discriminate H].
    destruct (includes (toLowerCase text) "disallow: /"); [reflexivity | discriminate H].
Qed.

Lemma refusal_requires_a_disallow_rule_witness :
  exists text,
    Response true ("User-agent: *" ++ newline ++ "Disallow: /admin")
      = Response true text /\
    includes (toLowerCase text) "disallow: /" = true.
Proof.
  apply (refusal_requires_a_disallow_rule
           (Response true ("User-agent: *" ++ newline ++ "Disallow: /admin"))).
  reflexivity.
Defined.

(** X21: the rules of the section that names the scraper are searched
    case-sensitively and take precedence over the wildcard section.  When
    the text has a section for ScrapiiBot/2.0 and no rule spelled in lower
    case (the usual spelling is Disallow), scraping is allowed, even when
    that section, or a wildcard section, disallows everything. *)
Theorem named_section_rules_are_case_sensitive (text section : string)
    (Hnamed : includes (toLowerCase text) "user-agent: scrapiibot/2.0" = true)
    (Hsec : extractUserAgentSection text "ScrapiiBot/2.0" = Some section)
    (Hcase : includes text "disallow: /" = false) :
  validateRobotsTxt (Response true text) = true.
Proof.
  unfold validateRobotsTxt. cbv zeta. cbn [negb].
  change ("user-agent: " ++ toLowerCase "ScrapiiBot/2.0")
    with "user-agent: scrapiibot/2.0".
  rewrite Hnamed, Hsec.
  destruct (includes section "disallow: /") eqn:Hinc; [|reflexivity].
  rewrite (section_rule_in_text _ _ _ Hsec Hinc) in Hcase. discriminate Hcase.
Qed.

Lemma named_section_rules_are_case_sensitive_witness :
  includes (toLowerCase banEveryone) "user-agent: *" = true /\
  includes (toLowerCase banEveryone) "disallow: /" = true /\
  validateRobotsTxt (Response true banEveryone) = true.
Proof.
  split; [reflexivity|]. split; [reflexivity|].
  apply (named_section_rules_are_case_sensitive banEveryone
           ("User-agent: ScrapiiBot/2.0" ++ newline ++ "Disallow: /"));
    reflexivity.
Defined.

End RobotsLemmas.

(* ================================================================== *)
(** ** The file scanner *)
(* ================================================================== *)

Section ScannerLemmas.
Import JS Text Scanner.

Ltac unfold_assessment H :=
  cbv beta iota zeta delta
      [assessMatch calculateConfidence markFalsePositive
       id name severity line context snippet confidence isFalsePositive reason
       pattern_id pattern_name pattern_severity
       String.eqb Ascii.eqb Bool.eqb negb andb] in H.

(** X22: of the six kinds of finding of the file scanner, only three can
    ever be reported.  A match of the console, JSON.parse or code-injection
    pattern is never pushed on the results, whatever the line and its
    context: its confidence (0.60, 0.70 and the base 0.5) stays below the
    reporting threshold of 0.75.  A reported finding is never flagged as a
    false positive. *)
Theorem scanner_reports_only_three_kinds (p : VulnerabilityPattern)
    (lineNumber : nat) (ctx matchedText : string) (f : FoundVulnerability)
    (Hp : In p scannerPatterns)
    (Hf : In f (assessMatch p lineNumber ctx matchedText)) :
  In (id f) ["HARDCODED_API_KEY"; "XSS_INNERHTML"; "DOCUMENT_WRITE"] /\
  isFalsePositive f = false /\
  PrimFloat.leb 0.75%float (confidence f) = true.
Proof.
  unfold scannerPatterns in Hp. cbn [In] in Hp.
  repeat (destruct Hp as [<- | Hp]; [unfold_assessment Hf|]); try contradiction;
    repeat match type of Hf with
           | context [isSafeInnerHTML ?a ?b] => destruct (isSafeInnerHTML a b)
           | context [isSafeDocumentWrite ?a] => destruct (isSafeDocumentWrite a)
           | context [isSafeConsoleLog ?a] => destruct (isSafeConsoleLog a)
           | context [isSafeJsonParse ?a] => destruct (isSafeJsonParse a)
           end;
    vm_compute in Hf; try contradiction;
    destruct Hf as [<- | []]; vm_compute; tauto.
Qed.

Lemma scanner_reports_only_three_kinds_witness :
  exists f,
    In f (assessMatch
            (mkVulnerabilityPattern "DOCUMENT_WRITE" "Unsafe document.write" "HIGH"
               "XSS" [mkRegexLiteral "document\.write\s*\(" "gi"] ["statement"] []
               0.80%float)
            7 "render()" "document.write(") /\
    id f = "DOCUMENT_WRITE" /\ isFalsePositive f = false.
Proof.
  eexists. split; [left; reflexivity|].
  split; [reflexivity|].
  refine (proj1 (proj2 (scanner_reports_only_three_kinds _ 7 "render()"
                          "document.write(" _ _ _))).
  - unfold scannerPatterns. do 2 right. left. reflexivity.
  - left. reflexivity.
Defined.

Lemma split_lines_aux_nonempty (s cur : string) : split_lines_aux cur s <> [].
Proof.
  revert cur. induction s as [|x s IH]; intros cur; simpl; [discriminate|].
  destruct (Ascii.eqb x "010"); [discriminate | apply IH].
Qed.

(** X23: [scanFile] never returns.  For every pattern the scanner builds
    its expression with the flags of the first literal followed by g; those
    flags are gi, so the constructor receives gig, rejects the repeated
    flag and raises a SyntaxError, on the first line of every file and
    whatever the regular-expression engine does. *)
Theorem scanFile_always_throws (engine : Engine) (content : string) :
  exists detail,
    scanFile engine content = Throw ("SyntaxError: " ++ detail) /\
    occursIn "gig" detail.
Proof.
  exists "Invalid flags supplied to RegExp constructor 'gig'".
  split; [|exists "Invalid flags supplied to RegExp constructor '", "'"; reflexivity].
  unfold scanFile. cbv zeta. unfold split_lines.
  pose proof (split_lines_aux_nonempty content EmptyString) as Hne.
  destruct (split_lines_aux EmptyString content) as [|first rest];
    [contradiction|].
  reflexivity.
Qed.

Lemma join_occurs (sep x : string) (l : list string) :
  In x l -> occursIn x (join sep l).
Proof.
  induction l as [|y l IH]; [contradiction|].
  intros [-> | Hin].
  - destruct l as [|z l].
    + exists EmptyString, EmptyString. cbn [join]. simpl.
      now rewrite append_empty_r.
    + rewrite join_cons by discriminate.
      exists EmptyString, (sep ++ join sep (z :: l)). reflexivity.
  - destruct l as [|z l]; [contradiction|].
    rewrite join_cons by discriminate.
    destruct (IH Hin) as (a & b & Hab). rewrite Hab.
    exists (y ++ sep ++ a), b. now rewrite !append_assoc.
Qed.

(** X24: the context of a line is a window of at most six lines of the
    file that holds the line itself: the two lines before it, the line and
    the three lines after it, as far as the file goes. *)
Theorem analyzeContext_window (content : string) (i : nat)
    (H : (i < List.length (split_lines content))%nat) :
  contextLines content (i + 1)
    = firstn (Nat.min 6 (i + 4)) (skipn (i - 2) (split_lines content)) /\
  (List.length (contextLines content (i + 1)) <= 6)%nat /\
  exists lineText,
    nth_error (split_lines content) i = Some lineText /\
    nth_error (contextLines content (i + 1)) (Nat.min i 2) = Some lineText /\
    occursIn lineText (analyzeContext content (i + 1)).
Proof.
  unfold analyzeContext, contextLines. cbv zeta.
  set (lines := split_lines content) in *.
  assert (Heq : firstn (Nat.min (List.length lines) (i + 1 + 3) - (i + 1 - 3))
                       (skipn (i + 1 - 3) lines)
                = firstn (Nat.min 6 (i + 4)) (skipn (i - 2) lines)).
  { replace (i + 1 - 3)%nat with (i - 2)%nat by lia.
    destruct (Nat.le_gt_cases (List.length lines) (i + 1 + 3)) as [Hshort | Hlong].
    - rewrite Nat.min_l by exact Hshort.
      rewrite !firstn_all2; [reflexivity | |]; rewrite length_skipn; lia.
    - rewrite Nat.min_r by lia. f_equal. lia. }
  rewrite Heq. split; [reflexivity|]. split.
  - rewrite length_firstn. lia.
  - exists (nth i lines EmptyString).
    assert (Hin : nth_error (firstn (Nat.min 6 (i + 4)) (skipn (i - 2) lines))
                            (Nat.min i 2)
                  = Some (nth i lines EmptyString)).
    { rewrite nth_error_firstn.
      replace (Nat.min i 2 <? Nat.min 6 (i + 4))%nat with true
        by (symmetry; apply Nat.ltb_lt; lia).
      rewrite nth_error_skipn.
      replace (i - 2 + Nat.min i 2)%nat with i by lia.
      now apply nth_error_nth'. }
    split; [now apply nth_error_nth'|]. split; [exact Hin|].
    apply nth_error_In in Hin.
    now apply join_occurs.
Qed.

Lemma analyzeContext_window_witness :
  (List.length (contextLines ("a" ++ newline ++ "b" ++ newline ++ "c") 2) <= 6)%nat.
Proof.
  destruct (analyzeContext_window ("a" ++ newline ++ "b" ++ newline ++ "c") 1)
    as (_ & Hlen & _).
  - vm_compute. lia.
  - exact Hlen.
Defined.

End ScannerLemmas.
